(** * Simultaneous D0 / D0bar mass fits: a shallow embedding

    The two fit drivers of the repository, [fit_global.py] and
    [Models/Model7_pythonfiles/fit_global_model7.py], are Python scripts
    that declare RooFit parameters, build one extended model per category,
    tie the categories together in a simultaneous model, fit it, and write
    the fitted parameters to a text file.

    The scripts are embedded as they are written: module-level statements
    become a computation that allocates the RooFit objects one after the
    other (a Python variable is a bound name, so a second assignment to
    the same variable shadows the first); helper functions become Rocq
    functions; the [while] loop of [generate_list] is a well-founded
    recursion on its loop state.  Decimal literals are rationals.  What
    the scripts delegate to ROOT (reading files, shape densities, the
    minimiser, the rendering of a float) enters as a parameter. *)

From Stdlib Require Import String Ascii List Bool ZArith QArith Lia.
From Stdlib Require Import Reals Lra.
From Stdlib Require Import DecimalString DecimalZ DecimalPos.
From Equations Require Import Equations.
From Equations.Prop Require Import Logic.
From ExtLib Require Import Structures.Monad Structures.MonadState.
From ExtLib Require Import Data.Monads.StateMonad Data.Monads.EitherMonad.
Import ListNotations.
Import MonadNotation.

#[local] Open Scope string_scope.
#[local] Open Scope list_scope.
#[local] Open Scope Z_scope.
#[local] Open Scope monad_scope.

(** ** Python built-ins used by the scripts *)

Module Py.

(** [str(n)] for an [int], as an f-string renders it. *)
Definition str_int (n : Z) : string :=
  NilZero.string_of_int (Z.to_int n).

(** An f-string is the concatenation of its literal and formatted
    parts. *)
Definition fstr (parts : list string) : string := String.concat "" parts.

(** The line feed. *)
Definition nl : string := String (ascii_of_nat 10) EmptyString.

(** [str(x)] for an optional string argument: [None] prints as the
    word. *)
Definition str_opt (o : option string) : string :=
  match o with
  | Some s => s
  | None => "None"
  end.

Definition is_digit (c : ascii) : bool :=
  let n := N_of_ascii c in (48 <=? n)%N && (n <=? 57)%N.

Fixpoint all_digits (s : string) : bool :=
  match s with
  | EmptyString => true
  | String c s' => is_digit c && all_digits s'
  end.

(** [s.isdigit()], on ASCII text: every character is a digit and there
    is at least one. *)
Definition isdigit (s : string) : bool :=
  match s with
  | EmptyString => false
  | _ => all_digits s
  end.

Definition digit_val (c : ascii) : Z :=
  Z.of_N (N_of_ascii c) - 48.

Fixpoint int_digits (acc : Z) (s : string) : Z :=
  match s with
  | EmptyString => acc
  | String c s' => int_digits (10 * acc + digit_val c) s'
  end.

(** [sys.get_int_max_str_digits()]: the most digits that [int]
    converts. *)
Definition int_max_str_digits : nat := 4300.

(** [int(s)] on a string of digits; [None] is the [ValueError] that
    a string with more digits than the limit gets. *)
Definition int (s : string) : option Z :=
  if (String.length s <=? int_max_str_digits)%nat
  then Some (int_digits 0 s)
  else None.

(** [s.startswith(p)]. *)
Definition startswith (p s : string) : bool := String.prefix p s.

(** [l[-1]] on a non-empty list; the default stands for the
    [IndexError] that the callers below never reach. *)
Definition last_item (l : list Z) : Z := List.last l 0.

(** A [dict] keeps its keys in insertion order; assigning to a key that
    is already present keeps its position and replaces the value. *)
Fixpoint dict_set {V : Type} (d : list (string * V)) (k : string) (v : V)
  : list (string * V) :=
  match d with
  | [] => [(k, v)]
  | (k', v') :: d' =>
      if String.eqb k' k then (k', v) :: d' else (k', v') :: dict_set d' k v
  end.

(** [{k: v for k, v in pairs}]. *)
Definition dict_of {V : Type} (pairs : list (string * V)) : list (string * V) :=
  fold_left (fun d kv => dict_set d (fst kv) (snd kv)) pairs [].

Fixpoint dict_get {V : Type} (d : list (string * V)) (k : string) : option V :=
  match d with
  | [] => None
  | (k', v) :: d' => if String.eqb k' k then Some v else dict_get d' k
  end.

End Py.

(** ** Python floats and their rendering *)

Module PyFloat.

(** A Python float is an IEEE 754 binary64 number: a signed
    [mantissa * 2 ^ exponent] with [mantissa] below [2 ^ 53], an
    infinity, or the one value that is not a number. *)
Inductive float : Type :=
| finite (negative : bool) (mantissa exponent : Z)
| infinity (negative : bool)
| nan.

(** The representations that are binary64 numbers: the exponent runs
    from -1074 to 971, and the mantissa has its top bit set unless the
    exponent is the least one (zero has mantissa 0 there). *)
Definition valid (x : float) : bool :=
  match x with
  | finite _ m e =>
      (0 <=? m) && (m <? 2 ^ 53) && (-1074 <=? e) && (e <=? 971)
      && ((2 ^ 52 <=? m) || (e =? -1074))
  | _ => true
  end.

Definition eqb (x y : float) : bool :=
  match x, y with
  | finite s m e, finite s' m' e' =>
      Bool.eqb s s' && (m =? m') && (e =? e')
  | infinity s, infinity s' => Bool.eqb s s'
  | nan, nan => true
  | _, _ => false
  end.

(** [x == y]: the value that is not a number equals nothing, itself
    included, and the two zeros are equal. *)
Definition equal (x y : float) : bool :=
  match x, y with
  | finite _ m _, finite _ m' _ => ((m =? 0) && (m' =? 0)) || eqb x y
  | infinity s, infinity s' => Bool.eqb s s'
  | _, _ => false
  end.

(** The largest [l] with [2 ^ l <= a / b], for positive [a] and
    [b]. *)
Definition floor_log2 (a b : Z) : Z :=
  let shift := Z.log2 b + 1 in
  Z.log2 (a * 2 ^ shift / b) - shift.

(** The binary64 number nearest to [a / b], for positive [a] and [b];
    a tie goes to the even mantissa, and what is too large becomes an
    infinity. *)
Definition round_ratio (negative : bool) (a b : Z) : float :=
  let e := Z.max (floor_log2 a b - 52) (-1074) in
  let num := a * 2 ^ Z.max 0 (- e) in
  let den := b * 2 ^ Z.max 0 e in
  let m0 := num / den in
  let r := num mod den in
  let m :=
    if 2 * r <? den then m0
    else if den <? 2 * r then m0 + 1
    else if Z.even m0 then m0
    else m0 + 1 in
  let e' := if m =? 2 ^ 53 then e + 1 else e in
  let m' := if m =? 2 ^ 53 then 2 ^ 52 else m in
  if 971 <? e' then infinity negative else finite negative m' e'.

(** The binary64 number nearest to [d * 10 ^ k], for [d] from 0. *)
Definition of_decimal (negative : bool) (d k : Z) : float :=
  if d =? 0 then finite negative 0 (-1074)
  else round_ratio negative (d * 10 ^ Z.max 0 k) (10 ^ Z.max 0 (- k)).

(** [mantissa * 2 ^ exponent] written as [d * 10 ^ k], exactly. *)
Definition exact_decimal (m e : Z) : Z * Z :=
  if 0 <=? e then (m * 2 ^ e, 0) else (m * 5 ^ (- e), e).

(** Zeros at the end of the digits go to the exponent. *)
Fixpoint strip_zeros (fuel : nat) (d k : Z) : Z * Z :=
  match fuel with
  | O => (d, k)
  | S fuel' =>
      if (d mod 10 =? 0) && negb (d =? 0)
      then strip_zeros fuel' (d / 10) (k + 1)
      else (d, k)
  end.

Definition normalize (d k : Z) : Z * Z :=
  strip_zeros (S (Z.to_nat (Z.log2 d))) d k.

(** The decimal with [n] digits that [float] reads back as
    [mantissa * 2 ^ exponent] and that is nearest to it, if there is
    one: the number [D * 10 ^ K] of [nd] digits, cut to [n] digits,
    lies between the two decimals tried. *)
Definition candidate (m e D K nd n : Z) : option (Z * Z) :=
  if nd <=? n then None
  else
    let p := 10 ^ (nd - n) in
    let lo := D / p in
    let rem := D mod p in
    let hi := lo + 1 in
    let k := K + (nd - n) in
    let reads_lo := eqb (of_decimal false lo k) (finite false m e) in
    let reads_hi := eqb (of_decimal false hi k) (finite false m e) in
    if reads_lo && reads_hi then
      Some (if 2 * rem <? p then lo
            else if p <? 2 * rem then hi
            else if Z.even lo then lo
            else hi, k)
    else if reads_lo then Some (lo, k)
    else if reads_hi then Some (hi, k)
    else None.

Fixpoint first_candidate (m e D K nd : Z) (ns : list Z)
  : option (Z * Z) :=
  match ns with
  | [] => None
  | n :: ns' =>
      match candidate m e D K nd n with
      | Some c => Some c
      | None => first_candidate m e D K nd ns'
      end
  end.

(** The shortest decimal that reads back as the number: up to
    seventeen digits are tried, fewest first; a number that no such
    decimal gives back is written out in full. *)
Definition shortest (m e : Z) : Z * Z :=
  let (D, K) := exact_decimal m e in
  let nd := Z.of_nat (String.length (Py.str_int D)) in
  match first_candidate m e D K nd (map Z.of_nat (seq 1 17)) with
  | Some (d, k) => normalize d k
  | None => normalize D K
  end.

Fixpoint zeros (n : nat) : string :=
  match n with
  | O => EmptyString
  | S n' => String "0" (zeros n')
  end.

(** The text of [d * 10 ^ k] as [repr] lays it out: with an exponent
    when the decimal point would come after more than sixteen digits
    or after more than three zeros, in full otherwise, a whole number
    with ".0". *)
Definition format_short (d k : Z) : string :=
  let ds := Py.str_int d in
  let n := Z.of_nat (String.length ds) in
  let decpt := n + k in
  if (16 <? decpt) || (decpt <? -3) then
    let exp := decpt - 1 in
    let mantissa :=
      match ds with
      | String c (String c' rest) => String c (String "." (String c' rest))
      | _ => ds
      end in
    Py.fstr [mantissa; "e"; if exp <? 0 then "-" else "+";
             if Z.abs exp <? 10 then "0" else "";
             Py.str_int (Z.abs exp)]
  else if decpt <=? 0 then
    Py.fstr ["0."; zeros (Z.to_nat (- decpt)); ds]
  else if n <=? decpt then
    Py.fstr [ds; zeros (Z.to_nat (decpt - n)); ".0"]
  else
    Py.fstr [String.substring 0 (Z.to_nat decpt) ds; ".";
             String.substring (Z.to_nat decpt) (Z.to_nat (n - decpt)) ds].

Definition sign (negative : bool) : string :=
  if negative then "-" else "".

(** [repr(x)], which is also [str(x)] and what an f-string puts for
    [{x}]. *)
Definition repr (x : float) : string :=
  match x with
  | nan => "nan"
  | infinity s => Py.fstr [sign s; "inf"]
  | finite s m e =>
      if m =? 0 then Py.fstr [sign s; "0.0"]
      else let (d, k) := shortest m e in
           Py.fstr [sign s; format_short d k]
  end.

(** The digits a text starts with, and what comes after them. *)
Fixpoint span_digits (text : string) : string * string :=
  match text with
  | EmptyString => (EmptyString, EmptyString)
  | String c rest =>
      if Py.is_digit c
      then let (ds, after) := span_digits rest in (String c ds, after)
      else (EmptyString, text)
  end.

(** The exponent of a decimal number: a sign, or none, and
    digits. *)
Definition read_exponent (text : string) : option Z :=
  let (esign, digits) :=
    match text with
    | String c rest =>
        if Ascii.eqb c "-" then (-1, rest)
        else if Ascii.eqb c "+" then (1, rest)
        else (1, text)
    | EmptyString => (1, text)
    end in
  if Py.isdigit digits then Some (esign * Py.int_digits 0 digits) else None.

(** A decimal number without its sign: digits with or without a
    point, and an exponent or none. *)
Definition read_decimal (negative : bool) (text : string) : option float :=
  let (ip, t1) := span_digits text in
  let (fp, t2) :=
    match t1 with
    | String c rest =>
        if Ascii.eqb c "." then span_digits rest else (EmptyString, t1)
    | EmptyString => (EmptyString, t1)
    end in
  let digits := (ip ++ fp)%string in
  let places := Z.of_nat (String.length fp) in
  if String.eqb digits "" then None
  else
    match t2 with
    | EmptyString =>
        Some (of_decimal negative (Py.int_digits 0 digits) (- places))
    | String c rest =>
        if Ascii.eqb c "e" then
          match read_exponent rest with
          | Some exp =>
              Some (of_decimal negative (Py.int_digits 0 digits)
                      (exp - places))
          | None => None
          end
        else None
    end.

(** Modelled from the spec: the value read back, [float(text)], on the
    texts that [repr] writes: a decimal number with or without a point
    and an exponent, "inf" or "nan", with or without a minus in front.
    [None] stands for a text that is none of these. *)
Definition float_of_string (text : string) : option float :=
  let (negative, t) :=
    match text with
    | String c rest =>
        if Ascii.eqb c "-" then (true, rest) else (false, text)
    | EmptyString => (false, text)
    end in
  if String.eqb t "inf" then Some (infinity negative)
  else if String.eqb t "nan" then Some nan
  else read_decimal negative t.

End PyFloat.

(** ** [generate_list] and [size_argument] (fit_global_model7.py) *)

(** The guard of the [while] loop:
    [not result_list or result_list[-1] < size_value_local]. *)
Definition loop_guard (size_value_local : Z) (result_list : list Z) : bool :=
  match result_list with
  | [] => true
  | _ => Py.last_item result_list <? size_value_local
  end.

(** The loop ends because every pass appends [current_value], which is
    ten more than on the pass before. *)
Definition loop_measure (size_value_local : Z) (result_list : list Z)
  (current_value : Z) : nat :=
  if loop_guard size_value_local result_list
  then S (Z.to_nat (size_value_local - current_value))
  else 0%nat.

Equations? generate_list_loop (size_value_local : Z) (result_list : list Z)
  (current_value : Z) : list Z
  by wf (loop_measure size_value_local result_list current_value) lt :=
  generate_list_loop size_value_local result_list current_value
    with inspect (loop_guard size_value_local result_list) := {
    | exist _ true Hg =>
        generate_list_loop size_value_local
          (result_list ++ [current_value]) (current_value + 10);
    | exist _ false _ => result_list }.
Proof.
  unfold loop_measure. rewrite Hg.
  unfold loop_guard, Py.last_item.
  destruct (result_list ++ [current_value]) eqn:E.
  - destruct result_list; discriminate.
  - rewrite <- E, last_last.
    destruct (Z.ltb_spec current_value size_value_local); lia.
Qed.

Definition generate_list (size_value_local : Z) : list Z :=
  generate_list_loop size_value_local [] 10.

(** What the type function of [--size] raises:
    [argparse.ArgumentTypeError] with its message, or the [ValueError]
    of [int]. *)
Inductive ArgumentError : Type :=
| ArgTypeError (msg : string)
| IntValueError.

Definition invalid_value : string :=
  Py.fstr ["Invalid value.";
           "Choose an integer between 1 and 800 that is divisible by 10."].

Definition size_argument (value : string) : ArgumentError + Z :=
  if Py.isdigit value then
    match Py.int value with
    | None => inl IntValueError
    | Some int_value =>
        if (1 <=? int_value) && (int_value <=? 800)
           && (int_value mod 10 =? 0)
        then inr int_value
        else inl (ArgTypeError
          "Integer value must be between 1 and 800 and be divisible by 10.")
    end
  else inl (ArgTypeError invalid_value).

(** ** Outcomes of a script run *)

(** The exception that ends a run. *)
Inductive PyError : Type :=
| NameError (name : string)
| TypeError (callee : string).

(** The file a run leaves behind. *)
Record Output : Type := mkOutput {
  file_path : string;
  content : string
}.

(** The parameter objects after the fit, as [getValV()] and [getError()]
    read them. *)
Record Fitted (float : Type) : Type := mkFitted {
  getValV : nat -> float;
  getError : nat -> float
}.
Arguments mkFitted {float} _ _.
Arguments getValV {float} _ _.
Arguments getError {float} _ _.

(** ** The ROOT and RooFit objects the scripts create *)

Module Root.

(** A [TChain]: the tree it reads, the files added to it (a file added
    twice is read twice), and the branch status calls in force. *)
Record TChain : Type := mkTChain {
  tree : string;
  files : list string;
  branch_status : list (string * bool)
}.

Definition new_TChain (tree_name : string) : TChain :=
  mkTChain tree_name [] [].

Definition Add (c : TChain) (file : string) : TChain :=
  mkTChain (tree c) (files c ++ [file]) (branch_status c).

(** [SetBranchStatus("*", s)] resets every branch; a named branch is
    set on top of that. *)
Definition SetBranchStatus (c : TChain) (branch : string) (on : bool)
  : TChain :=
  mkTChain (tree c) (files c)
    (if String.eqb branch "*" then [("*", on)]
     else Py.dict_set (branch_status c) branch on).

(** [GetEntries()], given the number of entries each file holds. *)
Definition GetEntries (entries_in : string -> Z) (c : TChain) : Z :=
  fold_right (fun f n => entries_in f + n) 0 (files c).

(** A histogram drawn from a chain: [chain.Draw("var>>name(n,lo,hi)")]
    followed by [gPad.GetPrimitive(name)]. *)
Record TH1 : Type := mkTH1 {
  h_name : string;
  h_draw : string;
  h_chain : TChain
}.

(** A parameter object lives in the store; a Python variable holds a
    reference to it, and so does a density made from it. *)
Definition ref : Type := nat.

(** [RooRealVar(name, title, value, min, max)]; the observable is made
    with [RooRealVar(name, title, min, max)] and has no initial
    value.  The Python variable it is assigned to owns the object:
    PyROOT deletes it when its last Python reference goes, and
    [deleted] marks the place the object had in the store. *)
Record RooRealVar : Type := mkRooRealVar {
  GetName : string;
  GetTitle : string;
  initial : option Q;
  getMin : Q;
  getMax : Q;
  deleted : bool
}.

Definition store : Type := list RooRealVar.

(** Constructing a [RooRealVar] allocates a fresh object. *)
Definition new_RooRealVar (name title : string) (value lo hi : Q)
  : state store ref :=
  s <- get ;;
  put (s ++ [mkRooRealVar name title (Some value) lo hi false]) ;;
  ret (length s).

Definition new_RooRealVar_range (name title : string) (lo hi : Q)
  : state store ref :=
  s <- get ;;
  put (s ++ [mkRooRealVar name title None lo hi false]) ;;
  ret (length s).

(** The object behind a reference is deleted. *)
Fixpoint delete_at (s : store) (r : ref) : store :=
  match s, r with
  | [], _ => []
  | v :: s', O =>
      mkRooRealVar (GetName v) (GetTitle v) (initial v) (getMin v)
        (getMax v) true :: s'
  | v :: s', S r' => v :: delete_at s' r'
  end.

(** [x = RooRealVar(...)] for a variable [x] that already holds the
    only Python reference to an object: the new object is made first,
    then the name is rebound and the object it held is deleted. *)
Definition rebind (held : ref) (constructor : state store ref)
  : state store ref :=
  r <- constructor ;;
  s <- get ;;
  put (delete_at s held) ;;
  ret r.

(** The object behind a reference still exists. *)
Definition alive (s : store) (r : ref) : bool :=
  match nth_error s r with
  | Some v => negb (deleted v)
  | None => false
  end.

(** The values a parameter's declared range admits. *)
Definition admits (v : RooRealVar) (x : Q) : Prop :=
  (getMin v <= x)%Q /\ (x <= getMax v)%Q.


#[local] Set Warnings "-register-all".

(** The densities: each holds references to the observable and to its
    parameters; [RooAddPdf] holds its components and its
    coefficients. *)
Inductive RooAbsPdf : Type :=
| RooJohnson (name title : string) (x mu lambda gamma delta : ref)
| RooBifurGauss (name title : string) (x mean sigmaL sigmaR : ref)
| RooGaussian (name title : string) (x mean sigma : ref)
| RooExponential (name title : string) (x c : ref)
| RooAddPdf (name title : string) (pdfs : list RooAbsPdf)
    (coefs : list ref).

(** The parameter objects a density refers to, the observable left
    out. *)
Fixpoint parameters (p : RooAbsPdf) : list ref :=
  match p with
  | RooJohnson _ _ _ mu lambda gamma delta => [mu; lambda; gamma; delta]
  | RooBifurGauss _ _ _ mean sigmaL sigmaR => [mean; sigmaL; sigmaR]
  | RooGaussian _ _ _ mean sigma => [mean; sigma]
  | RooExponential _ _ _ c => [c]
  | RooAddPdf _ _ pdfs coefs =>
      flat_map parameters pdfs ++ coefs
  end.

(** [p.getParameters(...)]: the parameter objects a density depends
    on.  An object that is deleted takes itself off the list of servers
    of every density that was made from it, so only the objects that
    still exist are found. *)
Definition getParameters (s : store) (p : RooAbsPdf) : list ref :=
  filter (alive s) (parameters p).


(** The components and the coefficients of a [RooAddPdf]. *)
Definition pdfList (p : RooAbsPdf) : list RooAbsPdf :=
  match p with
  | RooAddPdf _ _ pdfs _ => pdfs
  | _ => []
  end.

Definition coefList (p : RooAbsPdf) : list ref :=
  match p with
  | RooAddPdf _ _ _ coefs => coefs
  | _ => []
  end.

(** The location parameter of a peak. *)
Definition location (p : RooAbsPdf) : option ref :=
  match p with
  | RooJohnson _ _ _ mu _ _ _ => Some mu
  | RooBifurGauss _ _ _ mean _ _ => Some mean
  | RooGaussian _ _ _ mean _ => Some mean
  | _ => None
  end.

(** [RooDataHist(name, title, vars, hist)]. *)
Record RooDataHist : Type := mkRooDataHist {
  dh_name : string;
  dh_title : string;
  dh_vars : list ref;
  dh_hist : TH1
}.

(** [RooCategory]: the labels defined so far, in order. *)
Record RooCategory : Type := mkRooCategory {
  cat_name : string;
  cat_title : string;
  types : list string
}.

Definition hasLabel (c : RooCategory) (label : string) : bool :=
  existsb (String.eqb label) (types c).

(** [RooSimultaneous(name, title, index)] holds its index category by
    reference: labels defined on the category after the simultaneous
    model was made are labels of its index.  So the two objects form
    one piece of state. *)
Record Simultaneous : Type := mkSimultaneous {
  index : RooCategory;
  sim_name : string;
  sim_title : string;
  sim_pdfs : list (string * RooAbsPdf)
}.

(** [defineType(label)] adds a label to the category; the scripts
    define every label once, and a label that is already there is left
    as it is. *)
Definition defineType (label : string) : state Simultaneous unit :=
  s <- get ;;
  if hasLabel (index s) label then ret tt
  else put (mkSimultaneous
              (mkRooCategory (cat_name (index s)) (cat_title (index s))
                 (types (index s) ++ [label]))
              (sim_name s) (sim_title s) (sim_pdfs s)).

(** [addPdf(pdf, label)] registers a density under a label.  The
    scripts register every label once; by section 4.3 of the
    specification a label holds one density and a registration under a
    label that is already taken is refused. *)
Definition addPdf (pdf : RooAbsPdf) (label : string)
  : state Simultaneous unit :=
  s <- get ;;
  if existsb (fun lp => String.eqb (fst lp) label) (sim_pdfs s)
  then ret tt
  else put (mkSimultaneous (index s) (sim_name s) (sim_title s)
              (sim_pdfs s ++ [(label, pdf)])).

Fixpoint getPdf (pdfs : list (string * RooAbsPdf)) (label : string)
  : option RooAbsPdf :=
  match pdfs with
  | [] => None
  | (l, p) :: rest => if String.eqb l label then Some p else getPdf rest label
  end.

(** [RooDataHist(name, title, vars, Index(cat), Import(label, data), ...)]:
    the combined data set, each import filed under its label. *)
Record CombinedData : Type := mkCombinedData {
  cd_name : string;
  cd_title : string;
  cd_vars : list ref;
  cd_index : RooCategory;
  cd_imports : list (string * RooDataHist)
}.

(** The data sets filed under a label. *)
Definition bound_to (imports : list (string * RooDataHist)) (label : string)
  : list RooDataHist :=
  map snd (filter (fun ld => String.eqb (fst ld) label) imports).

(** The data sets bound to the labels that are registered in the
    index. *)
Definition bound_datasets (index : RooCategory)
  (imports : list (string * RooDataHist)) : list RooDataHist :=
  flat_map (bound_to imports) (types index).

(** Modelled from the spec: the constructor of the combined data set
    is the binding step, inside RooFit; it fails if the number of
    registered categories in the index does not match the number of
    data sets bound to them (sections 4.4 and 7), which Python sees as
    a [TypeError] of the constructor call. *)
Definition RooDataHist_Index (name title : string) (vars : list ref)
  (index : RooCategory) (imports : list (string * RooDataHist))
  : PyError + CombinedData :=
  if Nat.eqb (length (types index))
       (length (bound_datasets index imports))
  then inr (mkCombinedData name title vars index imports)
  else inl (TypeError "RooDataHist").

End Root.

(** ** Models/Model7_pythonfiles/fit_global_model7.py *)

Module Model7.
Import Root.

(** The parsed command line. *)
Record Args : Type := mkArgs {
  year : Z;
  size : Z;
  path : string;
  binned_fit : string;
  input : string;
  scheme : string;
  bin : option string
}.

Definition numbins : Z := 300.
Definition lower_boundary : Z := 1815.
Definition upper_boundary : Z := 1910.

Definition binned (args : Args) : bool :=
  String.eqb (binned_fit args) "y" || String.eqb (binned_fit args) "Y".

(** The four chains, one per meson and polarity. *)
Record Chains : Type := mkChains {
  ttree_D0_up : TChain;
  ttree_D0_down : TChain;
  ttree_D0bar_up : TChain;
  ttree_D0bar_down : TChain
}.

Definition decay_tree : string := "D02Kpi_Tuple/DecayTree".

Definition initial_chains : Chains :=
  mkChains (new_TChain decay_tree) (new_TChain decay_tree)
    (new_TChain decay_tree) (new_TChain decay_tree).

(** [c.Add(file); c.SetBranchStatus("*", 0);
    c.SetBranchStatus("D0_MM", 1)]. *)
Definition add_mass_file (c : TChain) (file : string) : TChain :=
  SetBranchStatus (SetBranchStatus (Add c file) "*" false) "D0_MM" true.

(** The input file of a category in the "total" scheme. *)
Definition total_file (args : Args) (polarity meson : string) : string :=
  Py.fstr [input args; "/20"; Py.str_int (year args); "/"; polarity; "/";
           meson; "/"; meson; "_"; polarity; "_data_";
           Py.str_int (year args); "_"; Py.str_int (size args);
           "_clean.root"].

(** The input file of a category in the other schemes. *)
Definition bin_file (args : Args) (polarity meson : string) : string :=
  Py.fstr [input args; "/"; meson; "_"; polarity; "_";
           Py.str_int (year args); "_"; Py.str_int (size args);
           "_bin"; Py.str_opt (bin args); ".root"].

(** One pass of [for valuesize in size_list]: the body does not read
    [valuesize]. *)
Definition load_pass (args : Args) (t : Chains) : Chains :=
  if String.eqb (scheme args) "total" then
    mkChains
      (add_mass_file (ttree_D0_up t) (total_file args "up" "D0"))
      (add_mass_file (ttree_D0_down t) (total_file args "down" "D0"))
      (add_mass_file (ttree_D0bar_up t) (total_file args "up" "D0bar"))
      (add_mass_file (ttree_D0bar_down t) (total_file args "down" "D0bar"))
  else
    mkChains
      (add_mass_file (new_TChain decay_tree) (bin_file args "up" "D0"))
      (add_mass_file (new_TChain decay_tree) (bin_file args "down" "D0"))
      (add_mass_file (new_TChain decay_tree) (bin_file args "up" "D0bar"))
      (add_mass_file (new_TChain decay_tree) (bin_file args "down" "D0bar")).

Definition size_list (args : Args) : list Z := generate_list (size args).

Definition load (args : Args) : Chains :=
  fold_left (fun t valuesize => load_pass args t) (size_list args)
    initial_chains.

(** The Python variables bound by the declarations, as they stand when
    the declarations are over. *)
Record Decls : Type := mkDecls {
  D0_M : ref;
  Jmu : ref; Jlam : ref; Jgam : ref; Jdel : ref;
  Johnson : RooAbsPdf;
  sigmaL : ref; sigmaR : ref;
  bifurgauss : RooAbsPdf;
  mean : ref; sigma : ref;
  gaussian : RooAbsPdf;
  a0 : ref;
  background : RooAbsPdf;
  frac_D0_down : ref; frac_D0_down_2 : ref;
  frac_D0_up : ref; frac_D0_up_2 : ref;
  frac_D0bar_down : ref; frac_D0bar_down_2 : ref;
  frac_D0bar_up : ref; frac_D0bar_up_2 : ref;
  Nsig_D0_up : ref; Nsig_D0bar_up : ref;
  Nbkg_D0_up : ref; Nbkg_D0bar_up : ref;
  Nsig_D0_down : ref; Nsig_D0bar_down : ref;
  Nbkg_D0_down : ref; Nbkg_D0bar_down : ref
}.

(** Lines 209 to 256.  [entries] is [GetEntries()] of a chain. *)
Definition declarations (entries : TChain -> Z) (t : Chains)
  : state store Decls :=
  D0_M <- new_RooRealVar_range "D0_MM" "D0 mass / [MeV/c*c]" 1815 1910 ;;
  (* Johnson SU Distribution *)
  Jmu <- new_RooRealVar "Jmu" "Jmu" 1865 1863 1867 ;;
  Jlam <- new_RooRealVar "Jlam" "Jlam" 18.7 10 20 ;;
  Jgam <- new_RooRealVar "Jgam" "Jgam" 0.45 0 10 ;;
  Jdel <- new_RooRealVar "Jdel" "Jdel" 2.12 0 10 ;;
  let Johnson := RooJohnson "Johnson" "Johnson" D0_M Jmu Jlam Jgam Jdel in
  (* Bifurcated Gaussian *)
  mean <- new_RooRealVar "mean" "mean" 1865 1850 1880 ;;
  sigmaL <- new_RooRealVar "sigmaL" "sigmaL" 5.23 0 10 ;;
  sigmaR <- new_RooRealVar "sigmaR" "sigmaR" 6.8 0 10 ;;
  let bifurgauss :=
    RooBifurGauss "Bifurgauss" "Bifurgauss" D0_M mean sigmaL sigmaR in
  (* Model Gaussians *)
  mean <- rebind mean (new_RooRealVar "mean" "mean" 1865 1850 1880) ;;
  sigma <- new_RooRealVar "sigma" "sigma" 6.57 0 20 ;;
  let gaussian := RooGaussian "gauss" "gauss" D0_M mean sigma in
  (* Model Exponential Background *)
  a0 <- new_RooRealVar "a0" "a0" (-0.009) (-1) 0 ;;
  let background := RooExponential "exponential" "exponential" D0_M a0 in
  (* Ratio of signal intensities between each model *)
  frac_D0_down <- new_RooRealVar "frac_D0_down" "frac_D0_down" 0.18 0.1 1 ;;
  frac_D0_down_2 <-
    new_RooRealVar "frac_D0_down_2" "frac_D0_down_2" 0.40 0 1 ;;
  frac_D0_up <- new_RooRealVar "frac_D0_up" "frac_D0_up" 0.21 0.1 1 ;;
  frac_D0_up_2 <- new_RooRealVar "frac_D0_up_2" "frac_D0_up_2" 0.36 0 1 ;;
  frac_D0bar_down <-
    new_RooRealVar "frac_D0bar_down" "frac_D0bar_down" 0.18 0.1 1 ;;
  frac_D0bar_down_2 <-
    new_RooRealVar "frac_D0bar_down_2" "frac_D0bar_down_2" 0.40 0 1 ;;
  frac_D0bar_up <-
    new_RooRealVar "frac_D0bar_up" "frac_D0bar_up" 0.23 0.1 1 ;;
  frac_D0bar_up_2 <-
    new_RooRealVar "frac_D0bar_up_2" "frac_D0bar_up_2" 0.37 0 1 ;;
  (* Generate normalisation variables *)
  let n_D0_up := inject_Z (entries (ttree_D0_up t)) in
  let n_D0bar_up := inject_Z (entries (ttree_D0bar_up t)) in
  let n_D0_down := inject_Z (entries (ttree_D0_down t)) in
  let n_D0bar_down := inject_Z (entries (ttree_D0bar_down t)) in
  Nsig_D0_up <-
    new_RooRealVar "Nsig_D0_up" "Nsig_D0_up" (0.95 * n_D0_up) 0 n_D0_up ;;
  Nsig_D0bar_up <-
    new_RooRealVar "Nsig_D0bar_up" "Nsig_D0bar_up"
      (0.95 * n_D0bar_up) 0 n_D0bar_up ;;
  Nbkg_D0_up <-
    new_RooRealVar "Nbkg_D0_up" "Nbkg_D0_up" (0.05 * n_D0_up) 0 n_D0_up ;;
  Nbkg_D0bar_up <-
    new_RooRealVar "Nbkg_D0bar_up" "Nbkg_D0bar_up"
      (0.05 * n_D0bar_up) 0 n_D0bar_up ;;
  Nsig_D0_down <-
    new_RooRealVar "Nsig_D0_down" "Nsig_D0_down"
      (0.95 * n_D0_down) 0 n_D0_down ;;
  Nsig_D0bar_down <-
    new_RooRealVar "Nsig_D0bar_down" "Nsig_D0bar_down"
      (0.95 * n_D0bar_down) 0 n_D0bar_down ;;
  Nbkg_D0_down <-
    new_RooRealVar "Nbkg_D0_down" "Nbkg_D0_down"
      (0.05 * n_D0_down) 0 n_D0_down ;;
  Nbkg_D0bar_down <-
    new_RooRealVar "Nbkg_D0bar_down" "Nbkg_D0bar_down"
      (0.05 * n_D0bar_down) 0 n_D0bar_down ;;
  ret (mkDecls D0_M Jmu Jlam Jgam Jdel Johnson sigmaL sigmaR bifurgauss
         mean sigma gaussian a0 background
         frac_D0_down frac_D0_down_2 frac_D0_up frac_D0_up_2
         frac_D0bar_down frac_D0bar_down_2 frac_D0bar_up frac_D0bar_up_2
         Nsig_D0_up Nsig_D0bar_up Nbkg_D0_up Nbkg_D0bar_up
         Nsig_D0_down Nsig_D0bar_down Nbkg_D0_down Nbkg_D0bar_down).

(** [chain.Draw(f"D0_MM>>name({numbins},{lower},{upper})")], then
    [ROOT.gPad.GetPrimitive(name)]. *)
Definition draw_hist (c : TChain) (name : string) : TH1 :=
  mkTH1 name
    (Py.fstr ["D0_MM>>"; name; "("; Py.str_int numbins; ",";
              Py.str_int lower_boundary; ","; Py.str_int upper_boundary;
              ")"])
    c.

(** The Python variables bound inside [if binned:]. *)
Record BinnedVars : Type := mkBinnedVars {
  Binned_D0_up : RooDataHist;
  Binned_D0_down : RooDataHist;
  Binned_D0bar_up : RooDataHist;
  Binned_D0bar_down : RooDataHist;
  signal_D0_up : RooAbsPdf;
  model_D0_up : RooAbsPdf;
  signal_D0_down : RooAbsPdf;
  model_D0_down : RooAbsPdf;
  signal_D0bar_up : RooAbsPdf;
  model_D0bar_up : RooAbsPdf;
  signal_D0bar_down : RooAbsPdf;
  model_D0bar_down : RooAbsPdf;
  imports : list (string * RooDataHist)
}.

(** Lines 283 to 284: the category and the simultaneous model that
    indexes on it. *)
Definition new_simultaneous : Simultaneous :=
  mkSimultaneous (mkRooCategory "binned_sample" "binned_sample" [])
    "simultaneous" "simultaneous" [].

(** Lines 260 to 315. *)
Definition binned_block (d : Decls) (t : Chains)
  : state Simultaneous BinnedVars :=
  let D0_Up_Hist := draw_hist (ttree_D0_up t) "D0_Up_Hist" in
  let D0_Down_Hist := draw_hist (ttree_D0_down t) "D0_Down_Hist" in
  let D0bar_Up_Hist := draw_hist (ttree_D0bar_up t) "D0bar_Up_Hist" in
  let D0bar_Down_Hist := draw_hist (ttree_D0bar_down t) "D0bar_Down_Hist" in
  let Binned_D0_up :=
    mkRooDataHist "Binned_D0_up" "Binned D0 Up Data" [D0_M d] D0_Up_Hist in
  let Binned_D0_down :=
    mkRooDataHist "Binned_D0_down" "Binned D0 Down Data" [D0_M d]
      D0_Down_Hist in
  let Binned_D0bar_up :=
    mkRooDataHist "Binned_D0bar_up" "Binned D0bar Up Data" [D0_M d]
      D0bar_Up_Hist in
  let Binned_D0bar_down :=
    mkRooDataHist "Binned_D0bar_down" "Binned D0bar Down Data" [D0_M d]
      D0bar_Down_Hist in
  (* Model Signal for D0 MagUp *)
  defineType "Binned_D0_up_sample" ;;
  let signal_D0_up :=
    RooAddPdf "signal_D0_up" "signal D0 up"
      [bifurgauss d; gaussian d; Johnson d]
      [frac_D0_up d; frac_D0_up_2 d] in
  let model_D0_up :=
    RooAddPdf "model_D0_up" "model D0 up" [signal_D0_up; background d]
      [Nsig_D0_up d; Nbkg_D0_up d] in
  addPdf model_D0_up "Binned_D0_up_sample" ;;
  (* Model Signal for D0 MagDown *)
  defineType "Binned_D0_down_sample" ;;
  let signal_D0_down :=
    RooAddPdf "signal_D0_down" "signal D0 down"
      [bifurgauss d; gaussian d; Johnson d]
      [frac_D0_down d; frac_D0_down_2 d] in
  let model_D0_down :=
    RooAddPdf "model_D0_down" "model D0 down"
      [signal_D0_down; background d] [Nsig_D0_down d; Nbkg_D0_down d] in
  addPdf model_D0_down "Binned_D0_down_sample" ;;
  (* Model Signal for D0bar MagUp *)
  defineType "Binned_D0bar_up_sample" ;;
  let signal_D0bar_up :=
    RooAddPdf "signal_D0bar_up" "signal D0bar up"
      [bifurgauss d; gaussian d; Johnson d]
      [frac_D0bar_up d; frac_D0bar_up_2 d] in
  let model_D0bar_up :=
    RooAddPdf "model_D0bar_up" "model D0bar up"
      [signal_D0bar_up; background d]
      [Nsig_D0bar_up d; Nbkg_D0bar_up d] in
  addPdf model_D0bar_up "Binned_D0bar_up_sample" ;;
  (* Model Signal for D0bar MagDown *)
  defineType "Binned_D0bar_down_sample" ;;
  let signal_D0bar_down :=
    RooAddPdf "signal_D0bar_down" "signal D0bar down"
      [bifurgauss d; gaussian d; Johnson d]
      [frac_D0bar_down d; frac_D0bar_down_2 d] in
  let model_D0bar_down :=
    RooAddPdf "model_D0bar_down" "model D0bar down"
      [signal_D0bar_down; background d]
      [Nsig_D0bar_down d; Nbkg_D0bar_down d] in
  addPdf model_D0bar_down "Binned_D0bar_down_sample" ;;
  (* Recombine the data into a simultaneous dataset *)
  let imports :=
    [("Binned_D0_up_sample", Binned_D0_up);
     ("Binned_D0bar_up_sample", Binned_D0bar_up);
     ("Binned_D0_down_sample", Binned_D0_down);
     ("Binned_D0bar_down_sample", Binned_D0bar_down)] in
  ret (mkBinnedVars Binned_D0_up Binned_D0_down Binned_D0bar_up
         Binned_D0bar_down signal_D0_up model_D0_up signal_D0_down
         model_D0_down signal_D0bar_up model_D0bar_up signal_D0bar_down
         model_D0bar_down imports).

(** Line 316: the combined data set, built on the category as it
    stands after the four [defineType] calls. *)
Definition simultaneous_data (d : Decls) (s : Simultaneous)
  (b : BinnedVars) : CombinedData :=
  mkCombinedData "simultaneous_data" "simultaneous data" [D0_M d]
    (index s) (imports b).

(** Line 316 as a call that can fail: the constructor with the
    arguments the script gives it. *)
Definition new_simultaneous_data (d : Decls) (s : Simultaneous)
  (b : BinnedVars) : PyError + CombinedData :=
  RooDataHist_Index "simultaneous_data" "simultaneous data" [D0_M d]
    (index s) (imports b).

(** The keyword arguments of [fitTo] on line 320. *)
Record FitOptions : Type := mkFitOptions {
  IntegrateBins : Q;
  PrintLevel : Z;
  Save : bool;
  Extended : bool
}.

Definition fit_options : FitOptions := mkFitOptions 0.001 (-1) true true.


(** A chain as the loading step leaves it: it reads the decay tree,
    holds at least one file, and every branch but the mass is switched
    off. *)
Definition reads_mass_only (c : TChain) : Prop :=
  tree c = decay_tree
  /\ branch_status c = [("*", false); ("D0_MM", true)]
  /\ files c <> [].

(** Line 329: the parameters that are written out. *)
Definition variables (d : Decls) : list ref :=
  [a0 d; frac_D0_down d; frac_D0_down_2 d; frac_D0_up d; frac_D0_up_2 d;
   frac_D0bar_down d; frac_D0bar_down_2 d; frac_D0bar_up d;
   frac_D0bar_up_2 d; Nsig_D0_down d; Nbkg_D0_down d; Nsig_D0_up d;
   Nbkg_D0_up d; Nsig_D0bar_down d; Nbkg_D0bar_down d; Nsig_D0bar_up d;
   Nbkg_D0bar_up d; sigmaL d; sigmaR d; Jmu d; Jlam d; Jgam d; Jdel d;
   mean d; sigma d].

(** [var.GetName()]. *)
Definition name_of (s : store) (r : ref) : string :=
  match nth_error s r with
  | Some v => GetName v
  | None => ""
  end.

Definition names (d : Decls) (s : store) : list string :=
  map (name_of s) (variables d).

(** The objects a run creates: the declarations from an empty store,
    then the binned block on a fresh simultaneous model. *)
Definition run_declarations (entries : TChain -> Z) (t : Chains)
  : Decls * store :=
  runState (declarations entries t) [].

Definition run_binned (d : Decls) (t : Chains)
  : BinnedVars * Simultaneous :=
  runState (binned_block d t) new_simultaneous.

(** The four signal mixtures and the parameters used as their
    coefficients. *)
Definition signals (b : BinnedVars) : list RooAbsPdf :=
  [signal_D0_up b; signal_D0_down b; signal_D0bar_up b;
   signal_D0bar_down b].

Definition fractions (b : BinnedVars) : list ref :=
  flat_map coefList (signals b).

(** The parameters used as yields of the four extended models. *)
Definition models (b : BinnedVars) : list RooAbsPdf :=
  [model_D0_up b; model_D0_down b; model_D0bar_up b; model_D0bar_down b].

Definition yields (b : BinnedVars) : list ref :=
  flat_map coefList (models b).

(** The parameter objects declared under a name that starts with
    [prefix], in declaration order. *)
Definition declared_as (prefix : string) (s : store) : list ref :=
  filter (fun r => Py.startswith prefix (name_of s r)) (seq 0 (length s)).

(** The declared range of a parameter object. *)
Definition range_of (s : store) (r : ref) : option (Q * Q) :=
  match nth_error s r with
  | Some v => Some (getMin v, getMax v)
  | None => None
  end.

(** The four categories, and what the script ties to each: its label,
    its extended model, its data, its two yields and its two
    fractions. *)
Inductive Category : Type := D0_up | D0_down | D0bar_up | D0bar_down.

Definition categories : list Category :=
  [D0_up; D0_down; D0bar_up; D0bar_down].

Definition label (c : Category) : string :=
  match c with
  | D0_up => "Binned_D0_up_sample"
  | D0_down => "Binned_D0_down_sample"
  | D0bar_up => "Binned_D0bar_up_sample"
  | D0bar_down => "Binned_D0bar_down_sample"
  end.

Definition model_of (b : BinnedVars) (c : Category) : RooAbsPdf :=
  match c with
  | D0_up => model_D0_up b
  | D0_down => model_D0_down b
  | D0bar_up => model_D0bar_up b
  | D0bar_down => model_D0bar_down b
  end.

Definition data_of (b : BinnedVars) (c : Category) : RooDataHist :=
  match c with
  | D0_up => Binned_D0_up b
  | D0_down => Binned_D0_down b
  | D0bar_up => Binned_D0bar_up b
  | D0bar_down => Binned_D0bar_down b
  end.

Definition Nsig_of (d : Decls) (c : Category) : ref :=
  match c with
  | D0_up => Nsig_D0_up d
  | D0_down => Nsig_D0_down d
  | D0bar_up => Nsig_D0bar_up d
  | D0bar_down => Nsig_D0bar_down d
  end.

Definition Nbkg_of (d : Decls) (c : Category) : ref :=
  match c with
  | D0_up => Nbkg_D0_up d
  | D0_down => Nbkg_D0_down d
  | D0bar_up => Nbkg_D0bar_up d
  | D0bar_down => Nbkg_D0bar_down d
  end.



(** The meson and the magnet polarity of a category, and the input
    file whose name carries them. *)
Definition meson (c : Category) : string :=
  match c with
  | D0_up | D0_down => "D0"
  | D0bar_up | D0bar_down => "D0bar"
  end.

Definition polarity (c : Category) : string :=
  match c with
  | D0_up | D0bar_up => "up"
  | D0_down | D0bar_down => "down"
  end.

Definition input_file (args : Args) (c : Category) : string :=
  if String.eqb (scheme args) "total"
  then total_file args (polarity c) (meson c)
  else bin_file args (polarity c) (meson c).



Section Driver.

(** A Python [float] and its rendering inside an f-string. *)
Variable float : Type.
Variable repr : float -> string.

(** The number of entries of the decay tree in a file. *)
Variable entries_in : string -> Z.

(** The joint fit: RooFit's minimiser moves the parameter objects. *)
Variable fitTo :
  Simultaneous -> CombinedData -> FitOptions -> store -> Fitted float.

Definition values (d : Decls) (f : Fitted float) : list float :=
  map (getValV f) (variables d).

Definition errors (d : Decls) (f : Fitted float) : list float :=
  map (getError f) (variables d).

(** Line 335. *)
Definition parameters_dict (d : Decls) (s : store) (f : Fitted float)
  : list (string * float) :=
  Py.dict_of (combine (names d s) (values d f)).

(** Lines 339 to 343: the [file.write] calls, in order. *)
Definition writes (d : Decls) (s : store) (f : Fitted float)
  : list string :=
  map (fun kv => Py.fstr [fst kv; ": "; repr (snd kv); Py.nl])
    (parameters_dict d s f)
  ++
  flat_map
    (fun ne =>
       if Py.startswith "Nsig_" (fst ne)
       then [Py.fstr [fst ne; "_error: "; repr (snd ne); Py.nl]]
       else [])
    (combine (names d s) (errors d f)).

Definition fit_parameters_txt (d : Decls) (s : store) (f : Fitted float)
  : string :=
  String.concat "" (writes d s f).

(** The entries of the file: the dictionary items, then the errors
    that are written. *)
Definition written_entries (d : Decls) (s : store) (f : Fitted float)
  : list (string * float) :=
  parameters_dict d s f
  ++ flat_map
       (fun ne =>
          if Py.startswith "Nsig_" (fst ne)
          then [(Py.fstr [fst ne; "_error"], snd ne)]
          else [])
       (combine (names d s) (errors d f)).

(** The file as the specification words it: one line per declared
    parameter, in declaration order, then an error line for every
    yield, signal and background alike.  The declared parameters are
    the objects of the store, the observable apart. *)
Definition declared (d : Decls) (s : store) : list ref :=
  filter (fun r => negb (Nat.eqb r (D0_M d))) (seq 0 (length s)).

Definition is_yield (b : BinnedVars) (r : ref) : bool :=
  existsb (Nat.eqb r) (yields b).

Definition spec_writes (d : Decls) (s : store) (b : BinnedVars)
  (f : Fitted float) : list string :=
  map (fun r => Py.fstr [name_of s r; ": "; repr (getValV f r); Py.nl])
    (declared d s)
  ++
  map (fun r =>
         Py.fstr [name_of s r; "_error: "; repr (getError f r); Py.nl])
    (filter (is_yield b) (declared d s)).

(** The script, from the parsed arguments to the file it writes. *)
Definition main (args : Args) : PyError + Output :=
  let t := load args in
  let (d, s) := runState (declarations (GetEntries entries_in) t) [] in
  let fitResult :=
    if binned args then
      let (b, sim) := runState (binned_block d t) new_simultaneous in
      match new_simultaneous_data d sim b with
      | inl error => inl error
      | inr simultaneous_data =>
          inr (Some (fitTo sim simultaneous_data fit_options s))
      end
    else inr None in
  match fitResult with
  | inl error => inl error
  (* fitResult.Print() *)
  | inr None => inl (NameError "fitResult")
  | inr (Some f) =>
      inr (mkOutput (Py.fstr [path args; "/fit_parameters.txt"])
             (fit_parameters_txt d s f))
  end.

End Driver.

End Model7.

(** ** fit_global.py *)

Module FitGlobal.
Import Root.

Record Args : Type := mkArgs {
  year : Z;
  size : string;
  path : string;
  binned_fit : string;
  input : string;
  scheme : string;
  bin : option string
}.

Definition numbins : Z := 240.
Definition lower_boundary : Z := 1815.
Definition upper_boundary : Z := 1910.

Definition binned (args : Args) : bool :=
  String.eqb (binned_fit args) "y" || String.eqb (binned_fit args) "Y".

(** The chain variables the loading step may bind; a variable that was
    never assigned is [None]. *)
Record Chains : Type := mkChains {
  ttree_D0 : option TChain;
  ttree_D0bar : option TChain;
  ttree_D0bar_up : option TChain
}.

Definition decay_tree : string := "D02Kpi_Tuple/DecayTree".

Definition clean_file (args : Args) (meson polarity yr : string) : string :=
  Py.fstr [input args; "/"; meson; "_"; polarity; "_data_"; yr; "_";
           size args; "_clean.root"].

Definition bin_file (args : Args) (meson : string) : string :=
  Py.fstr [input args; "/"; meson; "_"; Py.str_int (year args); "_";
           size args; "_bin"; Py.str_opt (bin args); ".root"].

Definition select_mass (c : TChain) : TChain :=
  SetBranchStatus (SetBranchStatus c "*" false) "D0_MM" true.

(** Lines 100 to 136. *)
Definition load (args : Args) : Chains :=
  if year args =? 19 then
    if String.eqb (scheme args) "total" then
      let all_years (meson : string) :=
        fold_left Add
          [clean_file args meson "up" "16"; clean_file args meson "up" "17";
           clean_file args meson "up" "18";
           clean_file args meson "down" "16";
           clean_file args meson "down" "17";
           clean_file args meson "down" "18"]
          (new_TChain decay_tree) in
      mkChains (Some (select_mass (all_years "D0")))
        (Some (select_mass (all_years "D0bar"))) None
    else
      mkChains
        (Some (select_mass (Add (new_TChain decay_tree)
                              (bin_file args "D0"))))
        None
        (Some (select_mass (Add (new_TChain decay_tree)
                              (bin_file args "D0bar"))))
  else mkChains None None None.

Record Decls : Type := mkDecls {
  D0_M : ref;
  Jmu : ref; Jlam : ref; Jgam : ref; Jdel : ref;
  Johnson : RooAbsPdf;
  bifurmean : ref; sigmaL : ref; sigmaR : ref;
  bifurgauss : RooAbsPdf;
  bifurmean2 : ref; sigmaL2 : ref; sigmaR2 : ref;
  bifurgauss2 : RooAbsPdf;
  a0 : ref;
  background : RooAbsPdf;
  frac_D0 : ref; frac_D0_2 : ref;
  frac_D0bar : ref; frac_D0bar_2 : ref;
  Nsig_D0 : ref; Nsig_D0bar : ref;
  Nbkg_D0 : ref; Nbkg_D0bar : ref
}.

(** Lines 138 to 176, given [GetEntries()] of the two chains. *)
Definition declarations (entries_D0 entries_D0bar : Z)
  : state store Decls :=
  D0_M <- new_RooRealVar_range "D0_MM" "D0 mass / [MeV/c*c]" 1815 1910 ;;
  (* Johnson SU Distribution *)
  Jmu <- new_RooRealVar "Jmu" "Jmu" 1865 1860 1870 ;;
  Jlam <- new_RooRealVar "Jlam" "Jlam" 16.3 10 20 ;;
  Jgam <- new_RooRealVar "Jgam" "Jgam" 0.3 0 10 ;;
  Jdel <- new_RooRealVar "Jdel" "Jdel" 1.6 0 10 ;;
  let Johnson := RooJohnson "Johnson" "Johnson" D0_M Jmu Jlam Jgam Jdel in
  (* Bifurcated Gaussian *)
  bifurmean <- new_RooRealVar "bifurmean" "bifurmean" 1865.2 1860 1870 ;;
  sigmaL <- new_RooRealVar "sigmaL" "sigmaL" 8.24 0 10 ;;
  sigmaR <- new_RooRealVar "sigmaR" "sigmaR" 6.1 0 10 ;;
  let bifurgauss :=
    RooBifurGauss "Bifurgauss" "Bifurgauss" D0_M bifurmean sigmaL sigmaR in
  (* Bifurcated Gaussian *)
  bifurmean2 <- new_RooRealVar "bifurmean2" "bifurmean2" 1865.5 1860 1870 ;;
  sigmaL2 <- new_RooRealVar "sigmaL2" "sigmaL2" 6 0 10 ;;
  sigmaR2 <- new_RooRealVar "sigmaR2" "sigmaR2" 8.49 0 10 ;;
  let bifurgauss2 :=
    RooBifurGauss "Bifurgaussian2" "Bifurgaussian2" D0_M bifurmean2
      sigmaL2 sigmaR2 in
  (* Model Exponential Background *)
  a0 <- new_RooRealVar "a0" "a0" (-0.009) (-1) 0 ;;
  let background := RooExponential "exponential" "exponential" D0_M a0 in
  (* Ratio of signal intensities between each model *)
  frac_D0 <- new_RooRealVar "frac_D0" "frac_D0" 0.16 0 1 ;;
  frac_D0_2 <- new_RooRealVar "frac_D0_2" "frac_D0_2" 0.4 0 1 ;;
  frac_D0bar <- new_RooRealVar "frac_D0bar" "frac_D0bar" 0.3 0 1 ;;
  frac_D0bar_2 <- new_RooRealVar "frac_D0bar_2" "frac_D0bar_2" 0.6 0 1 ;;
  (* Generate normalisation variables *)
  let n_D0 := inject_Z entries_D0 in
  let n_D0bar := inject_Z entries_D0bar in
  Nsig_D0 <- new_RooRealVar "Nsig_D0" "Nsig_D0" (0.95 * n_D0) 0 n_D0 ;;
  Nsig_D0bar <-
    new_RooRealVar "Nsig_D0bar" "Nsig_D0bar" (0.95 * n_D0bar) 0 n_D0bar ;;
  Nbkg_D0 <- new_RooRealVar "Nbkg_D0" "Nbkg_D0" (0.05 * n_D0) 0 n_D0 ;;
  Nbkg_D0bar <-
    new_RooRealVar "Nbkg_D0bar" "Nbkg_D0bar" (0.05 * n_D0bar) 0 n_D0bar ;;
  ret (mkDecls D0_M Jmu Jlam Jgam Jdel Johnson bifurmean sigmaL sigmaR
         bifurgauss bifurmean2 sigmaL2 sigmaR2 bifurgauss2 a0 background
         frac_D0 frac_D0_2 frac_D0bar frac_D0bar_2
         Nsig_D0 Nsig_D0bar Nbkg_D0 Nbkg_D0bar).

Definition draw_hist (c : TChain) (name : string) : TH1 :=
  mkTH1 name
    (Py.fstr ["D0_MM>>"; name; "("; Py.str_int numbins; ",";
              Py.str_int lower_boundary; ","; Py.str_int upper_boundary;
              ")"])
    c.

Record BinnedVars : Type := mkBinnedVars {
  Binned_D0 : RooDataHist;
  Binned_D0bar : RooDataHist;
  signal_D0 : RooAbsPdf;
  model_D0 : RooAbsPdf;
  signal_D0bar : RooAbsPdf;
  model_D0bar : RooAbsPdf;
  imports : list (string * RooDataHist)
}.

Definition new_simultaneous : Simultaneous :=
  mkSimultaneous (mkRooCategory "binned_sample" "binned_sample" [])
    "simultaneous" "simultaneous" [].

(** Lines 180 to 209. *)
Definition binned_block (d : Decls) (c_D0 c_D0bar : TChain)
  : state Simultaneous BinnedVars :=
  let D0_Hist := draw_hist c_D0 "D0_Hist" in
  let D0bar_Hist := draw_hist c_D0bar "D0bar_Hist" in
  let Binned_D0 :=
    mkRooDataHist "Binned_D0" "Binned D0 Data" [D0_M d] D0_Hist in
  let Binned_D0bar :=
    mkRooDataHist "Binned_D0bar" "Binned D0bar Data" [D0_M d] D0bar_Hist in
  (* Model Signal for D0 *)
  defineType "Binned_D0_sample" ;;
  let signal_D0 :=
    RooAddPdf "signal_D0" "signal D0"
      [Johnson d; bifurgauss d; bifurgauss2 d] [frac_D0 d; frac_D0_2 d] in
  let model_D0 :=
    RooAddPdf "model_D0" "model D0" [signal_D0; background d]
      [Nsig_D0 d; Nbkg_D0 d] in
  addPdf model_D0 "Binned_D0_sample" ;;
  (* Model Signal for D0bar *)
  defineType "Binned_D0bar_sample" ;;
  let signal_D0bar :=
    RooAddPdf "signal_D0bar" "signal D0bar"
      [Johnson d; bifurgauss d; bifurgauss2 d]
      [frac_D0bar d; frac_D0bar_2 d] in
  let model_D0bar :=
    RooAddPdf "model_D0bar" "model D0bar" [signal_D0bar; background d]
      [Nsig_D0bar d; Nbkg_D0bar d] in
  addPdf model_D0bar "Binned_D0bar_sample" ;;
  (* Recombine the data into a simultaneous dataset *)
  let imports :=
    [("Binned_D0_sample", Binned_D0); ("Binned_D0bar", Binned_D0bar)] in
  ret (mkBinnedVars Binned_D0 Binned_D0bar signal_D0 model_D0 signal_D0bar
         model_D0bar imports).

(** Line 210: the constructor of the combined data set, with the
    arguments the script gives it. *)
Definition simultaneous_data (d : Decls) (s : Simultaneous)
  (b : BinnedVars) : PyError + CombinedData :=
  RooDataHist_Index "simultaneous_data" "simultaneous data" [D0_M d]
    (index s) (imports b).

Definition run_declarations (entries_D0 entries_D0bar : Z)
  : Decls * store :=
  runState (declarations entries_D0 entries_D0bar) [].

Definition run_binned (d : Decls) (c_D0 c_D0bar : TChain)
  : BinnedVars * Simultaneous :=
  runState (binned_block d c_D0 c_D0bar) new_simultaneous.

Definition signals (b : BinnedVars) : list RooAbsPdf :=
  [signal_D0 b; signal_D0bar b].

Definition declared_as (prefix : string) (s : store) : list ref :=
  filter (fun r => Py.startswith prefix (Model7.name_of s r))
    (seq 0 (length s)).

Definition fractions (b : BinnedVars) : list ref :=
  flat_map coefList (signals b).

(** The two extended models, and the parameter objects whose values
    line 221 puts in the array, in its order. *)
Definition models (b : BinnedVars) : list RooAbsPdf :=
  [model_D0 b; model_D0bar b].

Definition value_variables (d : Decls) : list ref :=
  [a0 d; frac_D0 d; frac_D0_2 d; frac_D0bar d; frac_D0bar_2 d;
   Nsig_D0 d; Nbkg_D0 d; Nsig_D0bar d; Nbkg_D0bar d; sigmaL d; sigmaR d;
   sigmaL2 d; sigmaR2 d; Jmu d; Jlam d; Jgam d; Jdel d; bifurmean d;
   bifurmean2 d].

(** Line 221: the array handed to [np.savetxt]. *)
Definition parameters {float : Type} (d : Decls) (f : Fitted float)
  : list float :=
  map (getValV f)
    [a0 d; frac_D0 d; frac_D0_2 d; frac_D0bar d; frac_D0bar_2 d;
     Nsig_D0 d; Nbkg_D0 d; Nsig_D0bar d; Nbkg_D0bar d; sigmaL d; sigmaR d;
     sigmaL2 d; sigmaR2 d; Jmu d; Jlam d; Jgam d; Jdel d; bifurmean d;
     bifurmean2 d]
  ++ [getError f (Nsig_D0 d); getError f (Nsig_D0bar d)].

Section Driver.

Variable float : Type.

(** [np.savetxt] writes one element of a one-dimensional array per
    line, in its own number format. *)
Variable savetxt_fmt : float -> string.

Variable entries_in : string -> Z.

Variable fitTo :
  Simultaneous -> CombinedData -> Model7.FitOptions -> store ->
  Fitted float.

Definition main (args : Args) : PyError + Output :=
  let t := load args in
  match ttree_D0 t with
  | None => inl (NameError "ttree_D0")
  | Some c_D0 =>
      match ttree_D0bar t with
      | None => inl (NameError "ttree_D0bar")
      | Some c_D0bar =>
          let (d, s) :=
            runState (declarations (GetEntries entries_in c_D0)
                        (GetEntries entries_in c_D0bar)) [] in
          let fitResult :=
            if binned args then
              let (b, sim) :=
                runState (binned_block d c_D0 c_D0bar) new_simultaneous in
              match simultaneous_data d sim b with
              | inl error => inl error
              | inr data => inr (Some (fitTo sim data Model7.fit_options s))
              end
            else inr None in
          match fitResult with
          | inl error => inl error
          | inr None => inl (NameError "fitResult")
          | inr (Some f) =>
              (* year is 19 here; [parameters] is bound in the "total"
                 scheme only, which is also the one scheme that gets
                 this far *)
              if String.eqb (scheme args) "total" then
                inr (mkOutput
                       (Py.fstr [path args; "/fit_parameters.txt"])
                       (String.concat ""
                          (map (fun v => Py.fstr [savetxt_fmt v; Py.nl])
                             (parameters d f))))
              else inl (NameError "parameters")
          end
      end
  end.

End Driver.

End FitGlobal.


(** ** The likelihood of the models *)

Module Likelihood.
Import Root.
#[local] Open Scope R_scope.

(** A parameter vector gives every object of the store its value. *)
Definition vector : Type := ref -> R.

(** The observable set to the mass of an event. *)
Definition at_event (theta : vector) (obs : ref) (x : R) : vector :=
  fun r => if Nat.eqb r obs then x else theta r.


Definition total (l : list R) : R := fold_right Rplus 0 l.

Definition weighted (cs ds : list R) : R :=
  total (map (fun cd => fst cd * snd cd) (combine cs ds)).

(** Modelled from the spec: the value of a [RooAddPdf], which RooFit
    computes (section 4.2).  With as many coefficients as components the
    coefficients are yields and the sum is normalised by their total; with
    one coefficient fewer they are fractions and the last component takes
    the remainder. *)
Definition add_pdf (cs ds : list R) : R :=
  if Nat.eqb (length cs) (length ds)
  then weighted cs ds / total cs
  else weighted cs ds + (1 - total cs) * last ds 0.


Section Densities.

(** RooFit evaluates the densities and the likelihood, and RooFit is
    not part of the repository.  The four shapes, normalised over the
    range of the observable, are parameters. *)
Variable johnson : R -> R -> R -> R -> R -> R.
Variable bifur_gauss : R -> R -> R -> R -> R.
Variable gauss : R -> R -> R -> R.
Variable exponential : R -> R -> R.

(** Modelled from the spec: the value of a density at a parameter
    vector, the observable being one of the references (section 4.1 for
    the shapes, section 4.2 for their sum). *)
Fixpoint density (theta : vector) (p : RooAbsPdf) : R :=
  match p with
  | RooJohnson _ _ x mu lambda gamma delta =>
      johnson (theta x) (theta mu) (theta lambda) (theta gamma)
        (theta delta)
  | RooBifurGauss _ _ x mean sigmaL sigmaR =>
      bifur_gauss (theta x) (theta mean) (theta sigmaL) (theta sigmaR)
  | RooGaussian _ _ x mean sigma =>
      gauss (theta x) (theta mean) (theta sigma)
  | RooExponential _ _ x c => exponential (theta x) (theta c)
  | RooAddPdf _ _ pdfs coefs =>
      add_pdf (map theta coefs) (map (density theta) pdfs)
  end.

(** Modelled from the spec: the number of events an extended model
    expects, the sum of its yields (section 4.2). *)
Definition expected (theta : vector) (p : RooAbsPdf) : R :=
  match p with
  | RooAddPdf _ _ pdfs coefs =>
      if Nat.eqb (length coefs) (length pdfs)
      then total (map theta coefs)
      else 0
  | _ => 0
  end.

(** The expected density of events at mass [x]. *)
Definition intensity (theta : vector) (obs : ref) (p : RooAbsPdf)
  (x : R) : R :=
  expected theta p * density (at_event theta obs x) p.

(** An event is a mass and a weight (for binned data: a bin centre
    and the content of the bin). *)
Definition event_term (theta : vector) (obs : ref) (p : RooAbsPdf)
  (e : R * R) : R :=
  snd e * ln (intensity theta obs p (fst e)).

(** Modelled from the spec: the extended negative log-likelihood of
    one model on its events (sections 4.3 and 4.5), which RooFit
    computes. *)
Definition nll (theta : vector) (obs : ref) (p : RooAbsPdf)
  (events : list (R * R)) : R :=
  expected theta p - total (map (event_term theta obs p) events).

(** The events of a data set, as ROOT reads them. *)
Variable events_of : RooDataHist -> list (R * R).

(** The combined data: the events of every import, each under the
    label of its import. *)
Definition combined_events (imports : list (string * RooDataHist))
  : list (string * (R * R)) :=
  flat_map (fun ld => map (pair (fst ld)) (events_of (snd ld))) imports.

(** An event of the combined data is weighed by the model registered
    for its label; an event whose label has no model is left out. *)
Definition labelled_term (theta : vector) (obs : ref)
  (pdfs : list (string * RooAbsPdf)) (le : string * (R * R)) : R :=
  match getPdf pdfs (fst le) with
  | Some p => event_term theta obs p (snd le)
  | None => 0
  end.

(** Modelled from the spec: the extended negative log-likelihood of
    the simultaneous model on the combined data (sections 4.3 and 4.5),
    which RooFit computes: what all the models expect, less the terms of
    all the events. *)
Definition joint_nll (theta : vector) (obs : ref) (sim : Simultaneous)
  (data : CombinedData) : R :=
  total (map (fun lp => expected theta (snd lp)) (sim_pdfs sim))
  - total (map (labelled_term theta obs (sim_pdfs sim))
             (combined_events (cd_imports data))).

(** The events bound to a label. *)
Definition events_bound_to (imports : list (string * RooDataHist))
  (label : string) : list (R * R) :=
  flat_map events_of (bound_to imports label).

End Densities.

End Likelihood.


(** ** Reading [fit_parameters.txt] back *)

Module Reader.

(** The repository has no reader of the output file; the reader
    follows the words of the round-trip property: the text is cut into
    lines, each line is split at its first ": ", and the value is read
    back as a float. *)

(** Modelled from the spec: the lines of a text. *)
Fixpoint split_lines (text : string) : list string :=
  match text with
  | EmptyString => []
  | String c rest =>
      if Ascii.eqb c (ascii_of_nat 10) then EmptyString :: split_lines rest
      else match split_lines rest with
           | [] => [String c EmptyString]
           | line :: lines => String c line :: lines
           end
  end.

(** Whether a character occurs in a text. *)
Fixpoint has_char (c : ascii) (text : string) : bool :=
  match text with
  | EmptyString => false
  | String c' rest => Ascii.eqb c' c || has_char c rest
  end.

(** Modelled from the spec: a line split at its first ": ". *)
Fixpoint split_colon (line : string) : option (string * string) :=
  match line with
  | EmptyString => None
  | String c rest =>
      if String.prefix ": " line
      then Some (EmptyString, String.substring 2 (String.length line - 2) line)
      else match split_colon rest with
           | Some (key, value) => Some (String c key, value)
           | None => None
           end
  end.

(** A key can be told from its value when it holds neither a colon
    nor a line feed. *)
Definition plain_key (k : string) : bool :=
  negb (has_char ":" k) && negb (has_char (ascii_of_nat 10) k).

Section Parse.

Variable float : Type.

(** [float(text)]. *)
Variable float_of : string -> option float.

(** A value reads back when its rendering holds no line feed and
    [float] inverts it. *)
Definition reads_back (repr : float -> string) (v : float) : Prop :=
  float_of (repr v) = Some v
  /\ has_char (ascii_of_nat 10) (repr v) = false.

(** Modelled from the spec: a line read as a name and a value. *)
Definition parse_line (line : string) : option (string * float) :=
  match split_colon line with
  | Some (key, value) =>
      match float_of value with
      | Some x => Some (key, x)
      | None => None
      end
  | None => None
  end.

Fixpoint parse_lines (lines : list string)
  : option (list (string * float)) :=
  match lines with
  | [] => Some []
  | line :: rest =>
      match parse_line line, parse_lines rest with
      | Some kv, Some kvs => Some (kv :: kvs)
      | _, _ => None
      end
  end.

(** Modelled from the spec: the file read back, entry by entry. *)
Definition parse_file (text : string) : option (list (string * float)) :=
  parse_lines (split_lines text).

End Parse.

End Reader.

(** ** plot_pT_eta.py *)

Module PlotPtEta.

(** The parsed command line. *)
Record Args : Type := mkArgs {
  year : Z;
  size : string;
  path : string;
  bin_path : string;
  sim_bin_path : string;
  asymm_path : string;
  sim_asymm_path : string;
  scheme : string
}.

(** The exceptions that the steps before the fit can raise. *)
Inductive Error : Type :=
| FileNotFoundError (file : string)
| IndexError
| ValueError (text : string).

(** [l[i]] for an index that is not negative. *)
Definition item {A : Type} (l : list A) (i : nat) : Error + A :=
  match nth_error l i with
  | Some x => inr x
  | None => inl IndexError
  end.

(** The values kept in the dictionary [store]. *)
Inductive Value (float : Type) : Type :=
| PyFloat (x : float)
| PyInt (n : Z).
Arguments PyFloat {float} _.
Arguments PyInt {float} _.

Section Script.

(** Floating-point numbers and their operations; [float_of_int] is
    the conversion that an [int] operand undergoes. *)
Variable float : Type.
Variable float_of_int : Z -> float.
Variables add sub mul div : float -> float -> float.
Variable eqb : float -> float -> bool.

(** [float(text)], [text.strip()], and the lines of the files on
    disk. *)
Variable float_of_string : string -> option float.
Variable strip : string -> string.
Variable readlines : string -> option (list string).

Definition open_readlines (file : string) : Error + list string :=
  match readlines file with
  | Some lines => inr lines
  | None => inl (FileNotFoundError file)
  end.

Definition to_float (text : string) : Error + float :=
  match float_of_string text with
  | Some x => inr x
  | None => inl (ValueError text)
  end.

(** Lines 110 to 118. *)
Definition read_asymmetry_values (args : Args)
  : Error + (float * float * float * float) :=
  lines <- open_readlines
             (Py.fstr [path args; "/final_asymmetries_"; scheme args; "_";
                       Py.str_int (year args); "_"; size args; ".txt"]) ;;
  l0 <- item lines 0 ;;
  binned_asymm <- to_float l0 ;;
  l1 <- item lines 1 ;;
  binned_asymm_error <- to_float l1 ;;
  l2 <- item lines 2 ;;
  unbinned_asymm <- to_float l2 ;;
  l3 <- item lines 3 ;;
  unbinned_asymm_error <- to_float l3 ;;
  ret (binned_asymm, binned_asymm_error, unbinned_asymm,
       unbinned_asymm_error).

(** The loops of lines 127 to 135 and 139 to 147: one file per bin,
    its first two lines appended to the two arrays. *)
Fixpoint read_bins (file_of : string -> string) (range : list Z)
  (asymmetry asymmetry_error : list float)
  : Error + (list float * list float) :=
  match range with
  | [] => inr (asymmetry, asymmetry_error)
  | j :: rest =>
      let bin_num := Py.str_int j in
      lines <- open_readlines (file_of bin_num) ;;
      l0 <- item lines 0 ;;
      A_prod <- to_float l0 ;;
      l1 <- item lines 1 ;;
      A_prod_err <- to_float l1 ;;
      read_bins file_of rest (asymmetry ++ [A_prod])
        (asymmetry_error ++ [A_prod_err])
  end.

Definition asymmetry_file (args : Args) (bin_num : string) : string :=
  Py.fstr [asymm_path args; "/asymmetries_"; Py.str_int (year args); "_";
           size args; "_bin"; bin_num; ".txt"].

Definition simulated_asymmetry_file (args : Args) (bin_num : string)
  : string :=
  Py.fstr [sim_asymm_path args; "/asymmetries_pythia_";
           Py.str_int (year args); "_"; size args; "_"; scheme args;
           "_bin"; bin_num; ".txt"].

(** [range(0, 10)]. *)
Definition range_0_10 : list Z := map Z.of_nat (seq 0 10).

(** Line 157: [[float(line.strip()) for line in file.readlines()]]. *)
Fixpoint floats (lines : list string) : Error + list float :=
  match lines with
  | [] => inr []
  | line :: rest =>
      x <- to_float (strip line) ;;
      xs <- floats rest ;;
      ret (x :: xs)
  end.

Definition bins_file (args : Args) : string :=
  Py.fstr [bin_path args; "/"; Py.str_int (year args); "_"; size args; "_";
           scheme args; "_bins.txt"].

(** Lines 160 to 165: the centre of each bin and its half width. *)
Fixpoint bin_loop (bin_lines : list float) (range : list nat)
  (x_value x_value_error : list float)
  : Error + (list float * list float) :=
  match range with
  | [] => inr (x_value, x_value_error)
  | i :: rest =>
      lo <- item bin_lines i ;;
      hi <- item bin_lines (i + 1) ;;
      let x_value_indivual := div (add lo hi) (float_of_int 2) in
      let x_value_error_indivual :=
        sub hi (div (add lo hi) (float_of_int 2)) in
      let x_value_error := x_value_error ++ [x_value_error_indivual] in
      let x_value := x_value ++ [x_value_indivual] in
      bin_loop bin_lines rest x_value x_value_error
  end.

(** Lines 160 to 170: the loop, then the change of unit in the pT
    scheme. *)
Definition x_values (scheme : string) (bin_lines : list float)
  : Error + (list float * list float) :=
  xs <- bin_loop bin_lines (seq 0 10) [] [] ;;
  let (x_value, x_value_error) := (xs : list float * list float) in
  if String.eqb scheme "pT" then
    ret (map (fun x => div x (float_of_int 1000)) x_value,
         map (fun x => div x (float_of_int 1000)) x_value_error)
  else ret (x_value, x_value_error).

(** The module-level variables that the fit reads. *)
Record Globals : Type := mkGlobals {
  binned_asymm : float;
  binned_asymm_error : float;
  unbinned_asymm : float;
  unbinned_asymm_error : float;
  asymmetry : list float;
  asymmetry_error : list float;
  simulated_asymmetry : list float;
  simulated_asymmetry_error : list float;
  bin_lines : list float;
  x_value : list float;
  x_value_error : list float;
  bins : nat
}.

(** Lines 121 to 174: the main body up to the fit. *)
Definition prepare (args : Args) : Error + Globals :=
  a <- read_asymmetry_values args ;;
  let '(binned_asymm, binned_asymm_error, unbinned_asymm,
        unbinned_asymm_error) :=
    (a : float * float * float * float) in
  data <- read_bins (asymmetry_file args) range_0_10 [] [] ;;
  let (asymmetry, asymmetry_error) := (data : list float * list float) in
  sim <- read_bins (simulated_asymmetry_file args) range_0_10 [] [] ;;
  let (simulated_asymmetry, simulated_asymmetry_error) :=
    (sim : list float * list float) in
  lines <- open_readlines (bins_file args) ;;
  bin_lines <- floats lines ;;
  xs <- x_values (scheme args) bin_lines ;;
  let (x_value, x_value_error) := (xs : list float * list float) in
  let bins := length x_value in
  ret (mkGlobals binned_asymm binned_asymm_error unbinned_asymm
         unbinned_asymm_error asymmetry asymmetry_error
         simulated_asymmetry simulated_asymmetry_error bin_lines x_value
         x_value_error bins).

(** The loop of [get_chi2]: a bin whose error is zero is skipped. *)
Fixpoint chi2_loop (g : Globals) (c : float) (range : list nat)
  (chi2 : float) (ndof : Z) : Error + (float * Z) :=
  match range with
  | [] => inr (chi2, ndof)
  | i :: rest =>
      e <- item (asymmetry_error g) i ;;
      if eqb e (float_of_int 0) then chi2_loop g c rest chi2 ndof
      else
        let pol0 := c in
        a <- item (asymmetry g) i ;;
        e <- item (asymmetry_error g) i ;;
        let residual := div (sub a pol0) e in
        chi2_loop g c rest (add chi2 (mul residual residual)) (ndof + 1)
  end.

(** Lines 177 to 195.  [store] is a module-level dictionary that
    every call writes to. *)
Definition get_chi2 (g : Globals) (c : float)
  (store : list (string * Value float))
  : Error + (float * list (string * Value float)) :=
  r <- chi2_loop g c (seq 0 (bins g)) (float_of_int 0) (-1) ;;
  let (chi2, ndof) := (r : float * Z) in
  let store := Py.dict_set store "chi2" (PyFloat chi2) in
  let store := Py.dict_set store "ndof" (PyInt ndof) in
  ret (chi2, store).

End Script.

End PlotPtEta.

(** ** A sample run, for concrete evaluations *)

Module Sample.

(** Fitted values that happen to be whole numbers: Python renders the
    float [n] as [n.0]. *)
Definition repr (v : Z) : string := Py.fstr [Py.str_int v; ".0"].

(** Every parameter object ends at its reference number, with error
    one. *)
Definition fitted : Fitted Z :=
  mkFitted (fun r => Z.of_nat r) (fun _ => 1).

(** Fitted values that are binary64 numbers: every parameter at the
    float nearest to one tenth, with error one half. *)
Definition fitted_floats : Fitted PyFloat.float :=
  mkFitted (fun _ => PyFloat.finite false 7205759403792794 (-56))
    (fun _ => PyFloat.finite false 4503599627370496 (-53)).

Definition args7 : Model7.Args :=
  Model7.mkArgs 18 30 "out" "y" "in" "total" None.

Definition args7_unbinned : Model7.Args :=
  Model7.mkArgs 18 30 "out" "n" "in" "total" None.

Definition args_global : FitGlobal.Args :=
  FitGlobal.mkArgs 19 "large" "out" "y" "in" "total" None.

Definition args_global_unbinned : FitGlobal.Args :=
  FitGlobal.mkArgs 19 "large" "out" "N" "in" "total" None.

Definition entries_in (file : string) : Z := 1000.

(** Stand-ins for the shapes: flat ones, and a peak whose value is its
    mean. *)
Definition johnson (x mu lambda gamma delta : R) : R := 1%R.
Definition bifur_gauss (x mean sigmaL sigmaR : R) : R := 1%R.
Definition gauss (x mean sigma : R) : R := mean.
Definition exponential (x c : R) : R := 1%R.




(** Inputs of plot_pT_eta.py: rationals for the numbers, text files
    that hold the numbers 1 to 11, one to a line. *)
Definition plot_args : PlotPtEta.Args :=
  PlotPtEta.mkArgs 18 "large" "out" "bins" "sim_bins" "asymm" "sim_asymm"
    "pT".

Definition float_of_string (text : string) : option Q :=
  if Py.isdigit text then option_map inject_Z (Py.int text) else None.

Definition readlines (file : string) : option (list string) :=
  Some (map (fun k => Py.str_int (Z.of_nat k)) (seq 1 11)).

(** Three bins, the second with a zero error. *)
Definition globals : PlotPtEta.Globals Q :=
  PlotPtEta.mkGlobals Q 0%Q 0%Q 0%Q 0%Q [1; 2; 3]%Q [1; 0; 2]%Q [] [] [] [] []
    3.

End Sample.
(** * Properties *)

(** ** The list of sizes and the loading loop *)

Section GenerateList.

(** One pass of the [while] loop. *)
Lemma generate_list_loop_pass s rl cur :
  generate_list_loop s rl cur =
  if loop_guard s rl
  then generate_list_loop s (rl ++ [cur]) (cur + 10)
  else rl.
Proof.
  rewrite generate_list_loop_equation_1.
  destruct (inspect (loop_guard s rl)) as [b H].
  destruct b; cbn; rewrite H; reflexivity.
Qed.

(** From a non-empty list that ends ten below [cur], the loop appends
    [cur], [cur + 10], ... for as long as the last element is below
    [s]. *)
Lemma generate_list_loop_appends s (n : nat) : forall rl cur,
  rl <> [] -> Py.last_item rl = cur - 10 ->
  (forall k : nat, (k < n)%nat -> cur - 10 + 10 * Z.of_nat k < s) ->
  s <= cur - 10 + 10 * Z.of_nat n ->
  generate_list_loop s rl cur =
  rl ++ map (fun k => cur + 10 * Z.of_nat k) (seq 0 n).
Proof.
  induction n as [|n IH]; intros rl cur Hne Hlast Hlt Hge.
  - rewrite generate_list_loop_pass. unfold loop_guard.
    destruct rl as [|a rl']; [congruence|].
    rewrite Hlast. destruct (Z.ltb_spec (cur - 10) s); [lia|].
    cbn. now rewrite app_nil_r.
  - rewrite generate_list_loop_pass. unfold loop_guard.
    destruct rl as [|a rl']; [congruence|].
    rewrite Hlast. destruct (Z.ltb_spec (cur - 10) s) as [_|Hc].
    2:{ specialize (Hlt 0%nat). lia. }
    rewrite (IH ((a :: rl') ++ [cur]) (cur + 10)).
    + rewrite <- app_assoc. f_equal. cbn [seq map app]. f_equal.
      * f_equal. lia.
      * rewrite <- seq_shift, map_map. apply map_ext. intros k. lia.
    + destruct rl'; discriminate.
    + unfold Py.last_item. rewrite last_last. lia.
    + intros k Hk. specialize (Hlt (S k)). lia.
    + lia.
Qed.

(** What [--size] accepts. *)
Lemma size_argument_accepts value s :
  size_argument value = inr s -> 1 <= s <= 800 /\ s mod 10 = 0.
Proof.
  unfold size_argument. destruct (Py.isdigit value); [|discriminate].
  destruct (Py.int value) as [int_value|]; [|discriminate].
  destruct (1 <=? int_value) eqn:H1; [|discriminate].
  destruct (int_value <=? 800) eqn:H2; [|discriminate].
  destruct (int_value mod 10 =? 0) eqn:H3; [|discriminate].
  cbn. intros [= <-]. lia.
Qed.

Lemma generate_list_multiple_of_ten s :
  10 <= s -> s mod 10 = 0 ->
  generate_list s = map (fun k => 10 * Z.of_nat k) (seq 1 (Z.to_nat (s / 10))).
Proof.
  intros Hs Hm. unfold generate_list.
  rewrite generate_list_loop_pass. cbn [loop_guard app].
  assert (Hdiv : s = 10 * (s / 10)) by (apply Z.div_exact; lia).
  set (q := s / 10) in *.
  assert (Hq : 1 <= q) by lia.
  rewrite (generate_list_loop_appends s (Z.to_nat (q - 1))).
  - replace (Z.to_nat q) with (S (Z.to_nat (q - 1))) by lia.
    cbn [seq map app]. f_equal.
    rewrite <- !seq_shift, !map_map. apply map_ext. intros k. lia.
  - discriminate.
  - reflexivity.
  - intros k Hk. lia.
  - lia.
Qed.

End GenerateList.

Section LoadingLoop.
Import Root Model7.

Variable args : Args.
Hypothesis total : scheme args = "total".

(** In the "total" scheme a pass adds one file to each chain, whatever
    the chain already holds. *)
Lemma load_passes_total (l : list Z) : forall t,
  let t' := fold_left (fun t valuesize => load_pass args t) l t in
  files (ttree_D0_up t') =
    files (ttree_D0_up t) ++ repeat (total_file args "up" "D0") (length l)
  /\ files (ttree_D0_down t') =
    files (ttree_D0_down t)
    ++ repeat (total_file args "down" "D0") (length l)
  /\ files (ttree_D0bar_up t') =
    files (ttree_D0bar_up t)
    ++ repeat (total_file args "up" "D0bar") (length l)
  /\ files (ttree_D0bar_down t') =
    files (ttree_D0bar_down t)
    ++ repeat (total_file args "down" "D0bar") (length l).
Proof.
  induction l as [|v l IH]; intros t; cbn [fold_left length repeat].
  - cbv zeta. now rewrite !app_nil_r.
  - specialize (IH (load_pass args t)). cbv zeta in IH.
    destruct IH as (H1 & H2 & H3 & H4). cbv zeta.
    rewrite H1, H2, H3, H4. unfold load_pass. rewrite total.
    cbn [String.eqb Ascii.eqb Bool.eqb ttree_D0_up ttree_D0_down
         ttree_D0bar_up ttree_D0bar_down add_mass_file SetBranchStatus
         Add files].
    now rewrite <- !app_assoc.
Qed.

Lemma GetEntries_repeat entries_in (c : TChain) file (n : nat) :
  files c = repeat file n ->
  GetEntries entries_in c = Z.of_nat n * entries_in file.
Proof.
  unfold GetEntries. intros ->.
  induction n as [|n IH]; [reflexivity|].
  cbn [repeat fold_right]. rewrite IH. lia.
Qed.

End LoadingLoop.

(** C10. For an accepted [--size] value [s], [generate_list s] is
    [10; 20; ...; s], of length [s / 10]; in the "total" scheme the
    loading loop runs once per element and adds the same file to each of
    the four chains on every pass, so a chain holds [s / 10] copies of its
    file and counts [s / 10] times its entries. *)
Theorem generate_list_total_scheme_copies
  (value : string) (s : Z) (args : Model7.Args) (entries_in : string -> Z) :
  size_argument value = inr s ->
  Model7.size args = s ->
  Model7.scheme args = "total" ->
  let n := Z.to_nat (s / 10) in
  let t := Model7.load args in
  generate_list s = map (fun k => 10 * Z.of_nat k) (seq 1 n)
  /\ length (generate_list s) = n
  /\ Py.last_item (generate_list s) = s
  /\ (Root.files (Model7.ttree_D0_up t)
        = repeat (Model7.total_file args "up" "D0") n
      /\ Root.files (Model7.ttree_D0_down t)
        = repeat (Model7.total_file args "down" "D0") n
      /\ Root.files (Model7.ttree_D0bar_up t)
        = repeat (Model7.total_file args "up" "D0bar") n
      /\ Root.files (Model7.ttree_D0bar_down t)
        = repeat (Model7.total_file args "down" "D0bar") n)
  /\ (Root.GetEntries entries_in (Model7.ttree_D0_up t)
        = s / 10 * entries_in (Model7.total_file args "up" "D0")
      /\ Root.GetEntries entries_in (Model7.ttree_D0_down t)
        = s / 10 * entries_in (Model7.total_file args "down" "D0")
      /\ Root.GetEntries entries_in (Model7.ttree_D0bar_up t)
        = s / 10 * entries_in (Model7.total_file args "up" "D0bar")
      /\ Root.GetEntries entries_in (Model7.ttree_D0bar_down t)
        = s / 10 * entries_in (Model7.total_file args "down" "D0bar")).
Proof.
  intros Hacc Hsize Htotal n t.
  destruct (size_argument_accepts _ _ Hacc) as [Hrange Hmod].
  assert (Hs : 10 <= s).
  { destruct (Z.eq_dec s 0) as [->|]; [lia|].
    assert (s = 10 * (s / 10)) by (apply Z.div_exact; lia). lia. }
  assert (Hlist := generate_list_multiple_of_ten s Hs Hmod). fold n in Hlist.
  assert (Hlen : length (generate_list s) = n).
  { rewrite Hlist, length_map, length_seq. reflexivity. }
  assert (Hn : Z.of_nat n = s / 10).
  { unfold n. apply Z2Nat.id. apply Z.div_pos; lia. }
  assert (Hfiles := load_passes_total args Htotal
                      (Model7.size_list args) Model7.initial_chains).
  cbv zeta in Hfiles. fold (Model7.load args) in Hfiles. fold t in Hfiles.
  unfold Model7.size_list in Hfiles. rewrite Hsize, Hlen in Hfiles.
  cbn [Model7.initial_chains Model7.ttree_D0_up Model7.ttree_D0_down
       Model7.ttree_D0bar_up Model7.ttree_D0bar_down Root.new_TChain
       Root.files app] in Hfiles.
  destruct Hfiles as (F1 & F2 & F3 & F4).
  repeat split; try assumption.
  - rewrite Hlist. unfold Py.last_item.
    assert (Hdiv : s = 10 * (s / 10)) by (apply Z.div_exact; lia).
    assert (Hn1 : n = S (Nat.pred n)) by lia.
    rewrite Hn1, seq_S, map_app. cbn [map]. rewrite last_last. lia.
  - rewrite <- Hn. now apply GetEntries_repeat.
  - rewrite <- Hn. now apply GetEntries_repeat.
  - rewrite <- Hn. now apply GetEntries_repeat.
  - rewrite <- Hn. now apply GetEntries_repeat.
Qed.

Lemma generate_list_total_scheme_copies_witness :
  generate_list 30 = [10; 20; 30]
  /\ Root.files
       (Model7.ttree_D0_up
          (Model7.load (Model7.mkArgs 18 30 "out" "y" "in" "total" None)))
     = repeat "in/2018/up/D0/D0_up_data_18_30_clean.root" 3.
Proof.
  pose proof (generate_list_total_scheme_copies "30" 30
                (Model7.mkArgs 18 30 "out" "y" "in" "total" None)
                (fun _ => 100) eq_refl eq_refl eq_refl) as H.
  cbv zeta in H. destruct H as (H1 & _ & _ & (H2 & _) & _).
  split; [exact H1 | exact H2].
Defined.

(** ** The declared parameters *)

Section Declarations.
Import Root.

Variable entries : TChain -> Z.
Variable t : Model7.Chains.
Variables entries_D0 entries_D0bar : Z.
Variables c_D0 c_D0bar : TChain.

Let d7 := fst (Model7.run_declarations entries t).
Let s7 := snd (Model7.run_declarations entries t).
Let b7 := fst (Model7.run_binned d7 t).
Let dg := fst (FitGlobal.run_declarations entries_D0 entries_D0bar).
Let sg := snd (FitGlobal.run_declarations entries_D0 entries_D0bar).
Let bg := fst (FitGlobal.run_binned dg c_D0 c_D0bar).

(** A range given by two bounds admits exactly the values between
    them. *)
Lemma admits_iff name title init lo hi del x :
  admits (mkRooRealVar name title init lo hi del) x
  <-> (lo <= x /\ x <= hi)%Q.
Proof. unfold admits. cbn. tauto. Qed.



(** C7 (amended). Every signal mixture has three components and two
    coefficients, one fewer than its components, and no parameter
    object serves as a coefficient twice.  The coefficients are the
    parameters declared as [frac_...]; each of their ranges lies inside
    the interval from 0 to 1.  In fit_global.py, and for the second
    fraction of every mixture in fit_global_model7.py, the range is that
    whole interval; the first fraction of every mixture in
    fit_global_model7.py starts at 0.1. *)
Theorem mixing_fractions_ranges :
  (Forall (fun sg => length (pdfList sg) = 3%nat
                     /\ S (length (coefList sg)) = length (pdfList sg))
     (Model7.signals b7)
   /\ NoDup (Model7.fractions b7)
   /\ (forall r, In r (Model7.fractions b7)
                 <-> In r (Model7.declared_as "frac_" s7))
   /\ map (Model7.name_of s7) (Model7.declared_as "frac_" s7)
      = ["frac_D0_down"; "frac_D0_down_2"; "frac_D0_up"; "frac_D0_up_2";
         "frac_D0bar_down"; "frac_D0bar_down_2"; "frac_D0bar_up";
         "frac_D0bar_up_2"]
   /\ map (Model7.range_of s7) (Model7.declared_as "frac_" s7)
      = [Some (0.1, 1); Some (0, 1); Some (0.1, 1); Some (0, 1);
         Some (0.1, 1); Some (0, 1); Some (0.1, 1); Some (0, 1)]%Q
   /\ Forall (fun r => exists v, nth_error s7 r = Some v
                /\ forall x, admits v x -> (0 <= x /\ x <= 1)%Q)
        (Model7.declared_as "frac_" s7))
  /\
  (Forall (fun sg => length (pdfList sg) = 3%nat
                     /\ S (length (coefList sg)) = length (pdfList sg))
     (FitGlobal.signals bg)
   /\ NoDup (FitGlobal.fractions bg)
   /\ (forall r, In r (FitGlobal.fractions bg)
                 <-> In r (FitGlobal.declared_as "frac_" sg))
   /\ map (Model7.name_of sg) (FitGlobal.declared_as "frac_" sg)
      = ["frac_D0"; "frac_D0_2"; "frac_D0bar"; "frac_D0bar_2"]
   /\ Forall (fun r => exists v, nth_error sg r = Some v
                /\ forall x, admits v x <-> (0 <= x /\ x <= 1)%Q)
        (FitGlobal.declared_as "frac_" sg)).
Proof.
  split.
  - split; [repeat constructor|].
    split; [repeat constructor; cbn; intuition discriminate|].
    split; [intros r; cbn; intuition|].
    split; [reflexivity|].
    split; [reflexivity|].
    repeat constructor; eexists; (split; [reflexivity|]);
      intros x Hx; apply admits_iff in Hx; destruct Hx as [Hlo Hhi];
      (split; [|exact Hhi]);
      (eapply Qle_trans; [|exact Hlo]); discriminate.
  - split; [repeat constructor|].
    split; [repeat constructor; cbn; intuition discriminate|].
    split; [intros r; cbn; intuition|].
    split; [reflexivity|].
    repeat constructor; eexists; (split; [reflexivity|]);
      intros x; apply admits_iff.
Qed.


End Declarations.


(** C7, as stated, fails: 0.05 lies between 0 and 1 and the declared
    range of [frac_D0_down] in fit_global_model7.py does not admit it. *)
Lemma frac_D0_down_rejects_small_fraction :
  exists v : Root.RooRealVar,
    nth_error
      (snd (Model7.run_declarations (fun _ => 0) Model7.initial_chains))
      (Model7.frac_D0_down
         (fst (Model7.run_declarations (fun _ => 0) Model7.initial_chains)))
    = Some v
    /\ Root.GetName v = "frac_D0_down"
    /\ (0 <= 0.05 /\ 0.05 <= 1)%Q
    /\ ~ Root.admits v 0.05.
Proof.
  eexists. split; [reflexivity|]. split; [reflexivity|]. split.
  - split; discriminate.
  - intros [Hlo _]. cbn in Hlo. apply Hlo. reflexivity.
Qed.

(** ** Categories and the data bound to them *)

Section Binding.
Import Root.

Variable entries : TChain -> Z.
Variable t : Model7.Chains.
Variables entries_D0 entries_D0bar : Z.
Variables c_D0 c_D0bar : TChain.

Let d7 := fst (Model7.run_declarations entries t).
Let b7 := fst (Model7.run_binned d7 t).
Let sim7 := snd (Model7.run_binned d7 t).
Let dg := fst (FitGlobal.run_declarations entries_D0 entries_D0bar).
Let bg := fst (FitGlobal.run_binned dg c_D0 c_D0bar).
Let simg := snd (FitGlobal.run_binned dg c_D0 c_D0bar).

(** C5 (the code departs from it). The binding step, the constructor
    of the combined data set, fails with a [TypeError] whenever the
    number of registered labels differs from the number of data sets
    bound to them.  In fit_global_model7.py the four imports use the
    four defined labels, one data set each, and the constructor
    accepts them.  In fit_global.py the second data set is imported
    under "Binned_D0bar", which is not a defined label (the category
    has "Binned_D0bar_sample"): one data set is bound to the two
    registered labels, the constructor fails, and every run that gets
    as far as the binding (year 19, "total" scheme, binned) stops there
    with the [TypeError], before any fit and without a file. *)
Theorem fit_global_imports_under_an_undefined_label :
  (forall name title vars index imports,
      length (types index) <> length (bound_datasets index imports) ->
      RooDataHist_Index name title vars index imports
      = inl (TypeError "RooDataHist"))
  /\ (types (index sim7)
        = ["Binned_D0_up_sample"; "Binned_D0_down_sample";
           "Binned_D0bar_up_sample"; "Binned_D0bar_down_sample"]
      /\ map fst (sim_pdfs sim7) = types (index sim7)
      /\ map snd (sim_pdfs sim7) = Model7.models b7
      /\ forallb (hasLabel (index sim7)) (map fst (Model7.imports b7))
         = true
      /\ map (bound_to (Model7.imports b7)) (types (index sim7))
         = [[Model7.Binned_D0_up b7]; [Model7.Binned_D0_down b7];
            [Model7.Binned_D0bar_up b7]; [Model7.Binned_D0bar_down b7]]
      /\ Model7.new_simultaneous_data d7 sim7 b7
         = inr (Model7.simultaneous_data d7 sim7 b7))
  /\ (types (index simg) = ["Binned_D0_sample"; "Binned_D0bar_sample"]
      /\ map fst (FitGlobal.imports bg)
         = ["Binned_D0_sample"; "Binned_D0bar"]
      /\ hasLabel (index simg) "Binned_D0bar" = false
      /\ bound_to (FitGlobal.imports bg) "Binned_D0bar_sample" = []
      /\ length (bound_datasets (index simg) (FitGlobal.imports bg))
         = 1%nat
      /\ length (types (index simg)) = 2%nat
      /\ FitGlobal.simultaneous_data dg simg bg
         = inl (TypeError "RooDataHist"))
  /\ (forall (float : Type) (savetxt_fmt : float -> string)
             (entries_in : string -> Z)
             (fitTo : Simultaneous -> CombinedData -> Model7.FitOptions ->
                      store -> Fitted float)
             (args : FitGlobal.Args),
        FitGlobal.year args = 19 -> FitGlobal.scheme args = "total" ->
        FitGlobal.binned args = true ->
        FitGlobal.main float savetxt_fmt entries_in fitTo args
        = inl (TypeError "RooDataHist")).
Proof.
  split; [|split; [|split]].
  - intros name title vars index imports H. unfold RooDataHist_Index.
    destruct (Nat.eqb_spec (length (types index))
                (length (bound_datasets index imports)));
      [contradiction | reflexivity].
  - repeat split; reflexivity.
  - repeat split; reflexivity.
  - intros float savetxt_fmt entries_in fitTo args Hy Hs Hb.
    unfold FitGlobal.main, FitGlobal.load. rewrite Hy, Hs, Hb.
    cbn [Z.eqb Pos.eqb String.eqb Ascii.eqb Bool.eqb FitGlobal.ttree_D0
         FitGlobal.ttree_D0bar].
    reflexivity.
Qed.

End Binding.

Lemma fit_global_imports_under_an_undefined_label_at_input :
  FitGlobal.main Z Sample.repr Sample.entries_in
    (fun _ _ _ _ => Sample.fitted) Sample.args_global
  = inl (TypeError "RooDataHist").
Proof.
  apply (fit_global_imports_under_an_undefined_label (fun _ => 0)
           Model7.initial_chains 0 0 (Root.new_TChain "")
           (Root.new_TChain ""));
    reflexivity.
Defined.

(** ** The unbinned request *)

(** C3 (the code departs from it). With [--binned_fit n] or [N] neither
    script binds any data or calls the fit: [fitResult] is never
    assigned, and the run ends in a [NameError] before a file is
    written. *)
Theorem unbinned_run_raises_NameError
  (float : Type) (repr : float -> string) (entries_in : string -> Z)
  (fitTo : Root.Simultaneous -> Root.CombinedData -> Model7.FitOptions ->
           Root.store -> Fitted float)
  (args : Model7.Args) (args_g : FitGlobal.Args) :
  Model7.binned_fit args = "n" \/ Model7.binned_fit args = "N" ->
  FitGlobal.binned_fit args_g = "n" \/ FitGlobal.binned_fit args_g = "N" ->
  Model7.main float repr entries_in fitTo args = inl (NameError "fitResult")
  /\ exists name,
       FitGlobal.main float repr entries_in fitTo args_g
       = inl (NameError name).
Proof.
  intros H7 Hg. split.
  - unfold Model7.main, Model7.binned.
    destruct (runState _ _) as [d s].
    destruct H7 as [-> | ->]; reflexivity.
  - unfold FitGlobal.main, FitGlobal.binned.
    destruct (FitGlobal.ttree_D0 _); [|eexists; reflexivity].
    destruct (FitGlobal.ttree_D0bar _); [|eexists; reflexivity].
    destruct (runState _ _) as [d s].
    destruct Hg as [-> | ->]; eexists; reflexivity.
Qed.

Lemma unbinned_run_raises_NameError_witness :
  Model7.main Z Sample.repr Sample.entries_in (fun _ _ _ _ => Sample.fitted)
    Sample.args7_unbinned
  = inl (NameError "fitResult")
  /\ exists name,
       FitGlobal.main Z Sample.repr Sample.entries_in
         (fun _ _ _ _ => Sample.fitted) Sample.args_global_unbinned
       = inl (NameError name).
Proof.
  apply (unbinned_run_raises_NameError Z Sample.repr Sample.entries_in
           (fun _ _ _ _ => Sample.fitted) Sample.args7_unbinned
           Sample.args_global_unbinned).
  - left. reflexivity.
  - right. reflexivity.
Defined.

(** fit_global.py creates its chains for [--year 19] only, and the
    chain of the D0bar sample under the name the declarations use in the
    "total" scheme only: any other run ends in a [NameError] at the
    declaration of the yields. *)
Theorem fit_global_runs_for_year_19_total_only
  (float : Type) (savetxt_fmt : float -> string) (entries_in : string -> Z)
  (fitTo : Root.Simultaneous -> Root.CombinedData -> Model7.FitOptions ->
           Root.store -> Fitted float)
  (args : FitGlobal.Args) :
  (FitGlobal.year args <> 19 ->
   FitGlobal.main float savetxt_fmt entries_in fitTo args
   = inl (NameError "ttree_D0"))
  /\ (FitGlobal.year args = 19 -> FitGlobal.scheme args <> "total" ->
      FitGlobal.main float savetxt_fmt entries_in fitTo args
      = inl (NameError "ttree_D0bar")).
Proof.
  unfold FitGlobal.main, FitGlobal.load. split.
  - intros Hy. destruct (Z.eqb_spec (FitGlobal.year args) 19);
      [contradiction | reflexivity].
  - intros Hy Hs. rewrite Hy. cbn [Z.eqb Pos.eqb].
    destruct (String.eqb_spec (FitGlobal.scheme args) "total");
      [contradiction | reflexivity].
Qed.

Lemma fit_global_runs_for_year_19_total_only_witness :
  FitGlobal.main Z Sample.repr Sample.entries_in
    (fun _ _ _ _ => Sample.fitted)
    (FitGlobal.mkArgs 18 "large" "out" "y" "in" "total" None)
  = inl (NameError "ttree_D0").
Proof.
  apply (proj1 (fit_global_runs_for_year_19_total_only Z Sample.repr
                  Sample.entries_in (fun _ _ _ _ => Sample.fitted)
                  (FitGlobal.mkArgs 18 "large" "out" "y" "in" "total" None))).
  discriminate.
Defined.

(** ** The exported file *)

Section ExportedFile.
Import Root.

Variable float : Type.
Variable repr : float -> string.

(** A key that is not yet in a dictionary goes to its end. *)
Lemma dict_set_fresh (dict : list (string * float)) k v :
  ~ In k (map fst dict) -> Py.dict_set dict k v = dict ++ [(k, v)].
Proof.
  induction dict as [|[k' v'] dict IH]; intros Hk; [reflexivity|].
  cbn [Py.dict_set]. destruct (String.eqb_spec k' k) as [->|_].
  - exfalso. apply Hk. now left.
  - cbn [app]. f_equal. apply IH. intros Hin. apply Hk. now right.
Qed.

(** Pairs with distinct keys make a dictionary that lists them as they
    came. *)
Lemma dict_of_distinct (pairs : list (string * float)) :
  NoDup (map fst pairs) -> Py.dict_of pairs = pairs.
Proof.
  unfold Py.dict_of.
  assert (H : forall acc,
             NoDup (map fst (acc ++ pairs)) ->
             fold_left (fun dict kv => Py.dict_set dict (fst kv) (snd kv))
               pairs acc
             = acc ++ pairs).
  { induction pairs as [|[k v] pairs IH]; intros acc Hnd;
      cbn [fold_left fst snd].
    - now rewrite app_nil_r.
    - rewrite dict_set_fresh.
      + rewrite IH; rewrite <- app_assoc; [reflexivity | exact Hnd].
      + rewrite map_app in Hnd. apply NoDup_remove_2 in Hnd.
        intros Hin. apply Hnd. apply in_or_app. now left. }
  intros Hnd. apply (H []). exact Hnd.
Qed.

Variable entries_in : string -> Z.
Variable fitTo :
  Simultaneous -> CombinedData -> Model7.FitOptions -> store -> Fitted float.
Variable args : Model7.Args.

Let t := Model7.load args.
Let d := fst (Model7.run_declarations (GetEntries entries_in) t).
Let s := snd (Model7.run_declarations (GetEntries entries_in) t).
Let b := fst (Model7.run_binned d t).
Let sim := snd (Model7.run_binned d t).
Let f := fitTo sim (Model7.simultaneous_data d sim b) Model7.fit_options s.

(** The names of the exported variables are distinct, so the dictionary
    holds one item per variable, in the order of the list. *)
Lemma parameters_dict_items :
  Model7.parameters_dict float d s f
  = combine (Model7.names d s) (Model7.values float d f).
Proof.
  apply dict_of_distinct.
  change (map fst (combine (Model7.names d s) (Model7.values float d f)))
    with (Model7.names d s).
  repeat constructor; cbn; intuition discriminate.
Qed.

(** C4 (amended). A binned run of fit_global_model7.py writes to
    fit_parameters.txt one line "name: value" for every entry of its
    [variables] list, in the order of that list, which starts with [a0]
    and is not the order of declaration; then one line
    "name_error: value" for each of the four signal yields, the names
    starting with "Nsig_", in the order of the list; and nothing else. *)
Theorem fit_parameters_txt_lines :
  Model7.binned args = true ->
  Model7.main float repr entries_in fitTo args
  = inr (mkOutput
           (Py.fstr [Model7.path args; "/fit_parameters.txt"])
           (String.concat ""
              (map (fun r => Py.fstr [Model7.name_of s r; ": ";
                                      repr (getValV f r); Py.nl])
                 (Model7.variables d)
               ++ map (fun r => Py.fstr [Model7.name_of s r; "_error: ";
                                         repr (getError f r); Py.nl])
                    [Model7.Nsig_D0_down d; Model7.Nsig_D0_up d;
                     Model7.Nsig_D0bar_down d; Model7.Nsig_D0bar_up d])))
  /\ Model7.names d s
     = ["a0"; "frac_D0_down"; "frac_D0_down_2"; "frac_D0_up";
        "frac_D0_up_2"; "frac_D0bar_down"; "frac_D0bar_down_2";
        "frac_D0bar_up"; "frac_D0bar_up_2"; "Nsig_D0_down"; "Nbkg_D0_down";
        "Nsig_D0_up"; "Nbkg_D0_up"; "Nsig_D0bar_down"; "Nbkg_D0bar_down";
        "Nsig_D0bar_up"; "Nbkg_D0bar_up"; "sigmaL"; "sigmaR"; "Jmu"; "Jlam";
        "Jgam"; "Jdel"; "mean"; "sigma"]
  /\ length (Model7.writes float repr d s f) = 29%nat.
Proof.
  intros Hb. split; [|split; reflexivity].
  unfold Model7.main. rewrite Hb.
  change (runState (Model7.declarations (GetEntries entries_in)
                      (Model7.load args)) [])
    with (d, s).
  cbv iota beta.
  change (runState (Model7.binned_block d (Model7.load args))
            Model7.new_simultaneous)
    with (b, sim).
  cbv iota beta.
  change (Model7.new_simultaneous_data d sim b)
    with (@inr PyError _ (Model7.simultaneous_data d sim b)).
  cbv iota beta. fold f.
  unfold Model7.fit_parameters_txt, Model7.writes.
  rewrite parameters_dict_items. reflexivity.
Qed.

End ExportedFile.

Lemma fit_parameters_txt_lines_witness :
  exists text,
    Model7.main Z Sample.repr Sample.entries_in
      (fun _ _ _ _ => Sample.fitted) Sample.args7
    = inr (mkOutput "out/fit_parameters.txt" text)
    /\ Reader.split_lines text
       = ["a0: 10.0"; "frac_D0_down: 11.0"; "frac_D0_down_2: 12.0";
          "frac_D0_up: 13.0"; "frac_D0_up_2: 14.0"; "frac_D0bar_down: 15.0";
          "frac_D0bar_down_2: 16.0"; "frac_D0bar_up: 17.0";
          "frac_D0bar_up_2: 18.0"; "Nsig_D0_down: 23.0";
          "Nbkg_D0_down: 25.0"; "Nsig_D0_up: 19.0"; "Nbkg_D0_up: 21.0";
          "Nsig_D0bar_down: 24.0"; "Nbkg_D0bar_down: 26.0";
          "Nsig_D0bar_up: 20.0"; "Nbkg_D0bar_up: 22.0"; "sigmaL: 6.0";
          "sigmaR: 7.0"; "Jmu: 1.0"; "Jlam: 2.0"; "Jgam: 3.0"; "Jdel: 4.0";
          "mean: 8.0"; "sigma: 9.0"; "Nsig_D0_down_error: 1.0";
          "Nsig_D0_up_error: 1.0"; "Nsig_D0bar_down_error: 1.0";
          "Nsig_D0bar_up_error: 1.0"].
Proof.
  eexists. split.
  - exact (proj1 (fit_parameters_txt_lines Z Sample.repr Sample.entries_in
                    (fun _ _ _ _ => Sample.fitted) Sample.args7 eq_refl)).
  - reflexivity.
Defined.

(** C4, as stated, fails: on a sample result the file neither starts
    with the first declared parameter nor holds an error line for a
    background yield, and it has 29 lines where the stated format has
    34. *)
Lemma fit_parameters_txt_not_as_specified :
  let d := fst (Model7.run_declarations (fun _ => 0) Model7.initial_chains) in
  let s := snd (Model7.run_declarations (fun _ => 0) Model7.initial_chains) in
  let b := fst (Model7.run_binned d Model7.initial_chains) in
  let written := Model7.writes Z Sample.repr d s Sample.fitted in
  let specified := Model7.spec_writes Z Sample.repr d s b Sample.fitted in
  written <> specified
  /\ nth 0 written "" = Py.fstr ["a0: 10.0"; Py.nl]
  /\ nth 0 specified "" = Py.fstr ["Jmu: 1.0"; Py.nl]
  /\ In (Py.fstr ["Nbkg_D0_up_error: 1.0"; Py.nl]) specified
  /\ ~ In (Py.fstr ["Nbkg_D0_up_error: 1.0"; Py.nl]) written
  /\ length written = 29%nat
  /\ length specified = 34%nat.
Proof.
  cbv zeta. repeat split; try reflexivity.
  - intros H. apply (f_equal (@length string)) in H. vm_compute in H.
    discriminate.
  - vm_compute. intuition.
  - vm_compute. intuition discriminate.
Qed.

(** ** Reading the file back *)

Section Strings.

Lemma append_assoc (a b c : string) :
  ((a ++ b) ++ c = a ++ (b ++ c))%string.
Proof. induction a as [|x a IH]; cbn; [reflexivity | now rewrite IH]. Qed.

Lemma append_empty_r (a : string) : (a ++ "" = a)%string.
Proof. induction a as [|x a IH]; cbn; [reflexivity | now rewrite IH]. Qed.

Lemma substring_all (a : string) : substring 0 (String.length a) a = a.
Proof. induction a as [|x a IH]; cbn; [reflexivity | now rewrite IH]. Qed.

Lemma concat_empty_cons (h : string) (l : list string) :
  String.concat "" (h :: l) = (h ++ String.concat "" l)%string.
Proof.
  destruct l as [|h' l]; cbn [String.concat].
  - now rewrite append_empty_r.
  - reflexivity.
Qed.

Lemma has_char_app c (a b : string) :
  Reader.has_char c (a ++ b) = Reader.has_char c a || Reader.has_char c b.
Proof.
  induction a as [|x a IH]; cbn; [reflexivity|].
  now rewrite IH, orb_assoc.
Qed.

(** A line that holds no line feed is the first line of the text it
    starts. *)
Lemma split_lines_first (line rest : string) :
  Reader.has_char (ascii_of_nat 10) line = false ->
  Reader.split_lines (line ++ Py.nl ++ rest)%string
  = line :: Reader.split_lines rest.
Proof.
  induction line as [|c line IH]; intros H.
  - reflexivity.
  - cbn [Reader.has_char] in H. apply orb_false_iff in H as [Hc Hl].
    change (String c line ++ Py.nl ++ rest)%string
      with (String c (line ++ Py.nl ++ rest)%string).
    cbn [Reader.split_lines]. rewrite Hc, (IH Hl). reflexivity.
Qed.

(** A key that holds no colon is what stands before the first
    ": ". *)
Lemma split_colon_first (key value : string) :
  Reader.has_char ":" key = false ->
  Reader.split_colon (key ++ ": " ++ value)%string = Some (key, value).
Proof.
  induction key as [|c key IH]; intros H.
  - cbn. replace (prefix "" value) with true by (now destruct value).
    rewrite Nat.sub_0_r, substring_all. reflexivity.
  - cbn [Reader.has_char] in H. apply orb_false_iff in H as [Hc Hk].
    change (String c key ++ ": " ++ value)%string
      with (String c (key ++ ": " ++ value)%string).
    cbn [Reader.split_colon]. rewrite (IH Hk).
    cbn [String.prefix].
    destruct (ascii_dec ":" c) as [<-|_]; [discriminate|reflexivity].
Qed.

End Strings.

(** ** Floats read back from their rendering *)

Section Rounding.
Import PyFloat.

Lemma pow2_pos (n : Z) : 0 <= n -> 0 < 2 ^ n.
Proof. intros. apply Z.pow_pos_nonneg; lia. Qed.

Lemma pow10_pos (n : Z) : 0 <= n -> 0 < 10 ^ n.
Proof. intros. apply Z.pow_pos_nonneg; lia. Qed.

(** What [floor_log2] computes. *)
Lemma floor_log2_spec (a b : Z) :
  0 < a -> 0 < b ->
  let shift := Z.log2 b + 1 in
  let l := floor_log2 a b in
  0 <= l + shift
  /\ b * 2 ^ (l + shift) <= a * 2 ^ shift < b * 2 ^ (l + shift + 1).
Proof.
  intros Ha Hb shift l.
  assert (Hshift : 0 <= shift) by (pose proof (Z.log2_nonneg b); lia).
  assert (Hb2 : b < 2 ^ shift).
  { unfold shift. apply Z.log2_spec. exact Hb. }
  pose proof (pow2_pos shift Hshift) as Hp.
  set (q := a * 2 ^ shift / b).
  assert (Hq : 1 <= q).
  { unfold q. apply Z.div_le_lower_bound; [lia|]. nia. }
  assert (Hl : l + shift = Z.log2 q) by (unfold l, floor_log2; fold shift q; lia).
  rewrite Hl.
  destruct (Z.log2_spec q) as [Hlo Hhi]; [lia|].
  pose proof (Z.log2_nonneg q) as Hnn.
  assert (Hdiv : b * q <= a * 2 ^ shift < b * (q + 1)).
  { unfold q. pose proof (Z.mul_div_le (a * 2 ^ shift) b Hb).
    pose proof (Z.mul_succ_div_gt (a * 2 ^ shift) b Hb). lia. }
  split; [lia|]. replace (Z.log2 q + 1) with (Z.succ (Z.log2 q)) by lia.
  split; nia.
Qed.

(** It is the only exponent between whose power and the next the
    ratio lies. *)
Lemma floor_log2_unique (a b l T : Z) :
  0 < a -> 0 < b -> 0 <= T -> 0 <= l + T ->
  b * 2 ^ (l + T) <= a * 2 ^ T < b * 2 ^ (l + T + 1) ->
  floor_log2 a b = l.
Proof.
  intros Ha Hb HT HlT [Hlo Hhi].
  destruct (floor_log2_spec a b Ha Hb) as (Hnn & Hlo' & Hhi').
  set (S := Z.log2 b + 1) in *. set (fl := floor_log2 a b) in *.
  assert (HS : 0 <= S) by (pose proof (Z.log2_nonneg b); lia).
  pose proof (pow2_pos T HT) as HpT. pose proof (pow2_pos S HS) as HpS.
  assert (H1 : 2 ^ (fl + S + T) < 2 ^ (l + T + S + 1)).
  { rewrite (Z.pow_add_r 2 (fl + S) T) by lia.
    replace (l + T + S + 1) with ((l + T + 1) + S) by lia.
    rewrite (Z.pow_add_r 2 (l + T + 1) S) by lia.
    assert (b * (2 ^ (fl + S) * 2 ^ T) < b * (2 ^ (l + T + 1) * 2 ^ S))
      by nia.
    nia. }
  assert (H2 : 2 ^ (l + T + S) < 2 ^ (fl + S + T + 1)).
  { rewrite (Z.pow_add_r 2 (l + T) S) by lia.
    replace (fl + S + T + 1) with ((fl + S + 1) + T) by lia.
    rewrite (Z.pow_add_r 2 (fl + S + 1) T) by lia.
    assert (b * (2 ^ (l + T) * 2 ^ S) < b * (2 ^ (fl + S + 1) * 2 ^ T))
      by nia.
    nia. }
  apply Z.pow_lt_mono_r_iff in H1; [|lia|lia].
  apply Z.pow_lt_mono_r_iff in H2; [|lia|lia].
  lia.
Qed.


(** A ratio that is a binary64 number is rounded to itself. *)
Lemma round_ratio_exact (s : bool) (m e a b : Z) :
  0 < m < 2 ^ 53 -> -1074 <= e <= 971 ->
  2 ^ 52 <= m \/ e = -1074 ->
  0 < a -> 0 < b ->
  a * 2 ^ Z.max 0 (- e) = m * (b * 2 ^ Z.max 0 e) ->
  round_ratio s a b = finite s m e.
Proof.
  intros Hm He Hnorm Ha Hb Hab.
  assert (Hl : floor_log2 a b = Z.log2 m + e).
  { apply (floor_log2_unique a b _ 1074); try lia.
    - pose proof (Z.log2_nonneg m). lia.
    - assert (Hc : a * 2 ^ 1074 = m * b * 2 ^ (e + 1074)).
      { destruct (Z.max_spec 0 (- e)) as [[H1 E1]|[H1 E1]];
          destruct (Z.max_spec 0 e) as [[H2 E2]|[H2 E2]];
          rewrite E1, E2 in Hab; try lia.
        - replace 1074 with (- e + (e + 1074)) at 1 by lia.
          rewrite Z.pow_add_r by lia. rewrite Z.pow_0_r in Hab.
          rewrite Z.mul_assoc, Hab. ring.
        - rewrite Z.pow_0_r in Hab.
          rewrite Z.pow_add_r by lia.
          replace a with (m * (b * 2 ^ e)) by lia. ring.
        - assert (e = 0) by lia. subst e.
          rewrite Z.pow_0_r in Hab. cbn [Z.add]. nia. }
      rewrite Hc.
      destruct (Z.log2_spec m) as [Hlo Hhi]; [lia|].
      pose proof (Z.log2_nonneg m) as Hnn.
      replace (Z.log2 m + e + 1074) with (Z.log2 m + (e + 1074)) by lia.
      replace (Z.log2 m + (e + 1074) + 1)
        with (Z.succ (Z.log2 m) + (e + 1074)) by lia.
      rewrite (Z.pow_add_r 2 (Z.log2 m) (e + 1074)) by lia.
      rewrite (Z.pow_add_r 2 (Z.succ (Z.log2 m)) (e + 1074)) by lia.
      pose proof (pow2_pos (e + 1074) ltac:(lia)) as HP.
      set (P := 2 ^ (e + 1074)) in *.
      set (X := 2 ^ Z.log2 m) in *. set (Y := 2 ^ Z.succ (Z.log2 m)) in *.
      assert (HbP : 0 < b * P) by nia.
      replace (b * (X * P)) with (X * (b * P)) by ring.
      replace (m * b * P) with (m * (b * P)) by ring.
      replace (b * (Y * P)) with (Y * (b * P)) by ring.
      split.
      + apply Z.mul_le_mono_nonneg_r; lia.
      + apply Z.mul_lt_mono_pos_r; lia. }
  assert (He' : Z.max (floor_log2 a b - 52) (-1074) = e).
  { rewrite Hl. destruct Hnorm as [Hn | ->].
    - assert (Z.log2 m = 52); [|lia].
      apply Z.log2_unique; [lia|]. change (Z.succ 52) with 53. lia.
    - assert (Z.log2 m < 53); [|lia].
      apply Z.log2_lt_pow2; lia. }
  unfold round_ratio. rewrite He'. cbv zeta. rewrite Hab.
  assert (Hden : 0 < b * 2 ^ Z.max 0 e).
  { pose proof (pow2_pos (Z.max 0 e) ltac:(lia)). nia. }
  rewrite Z.div_mul, Z.mod_mul by lia.
  replace (2 * 0 <? b * 2 ^ Z.max 0 e) with true
    by (symmetry; apply Z.ltb_lt; lia).
  replace (m =? 2 ^ 53) with false by (symmetry; apply Z.eqb_neq; lia).
  replace (971 <? e) with false by (symmetry; apply Z.ltb_ge; lia).
  reflexivity.
Qed.

(** Rounding sees the ratio only: a common factor changes nothing. *)
Lemma floor_log2_scale (a b c : Z) :
  0 < a -> 0 < b -> 0 < c -> floor_log2 (a * c) (b * c) = floor_log2 a b.
Proof.
  intros Ha Hb Hc.
  destruct (floor_log2_spec a b Ha Hb) as (Hnn & Hlo & Hhi).
  apply (floor_log2_unique _ _ _ (Z.log2 b + 1)); try nia.
  pose proof (Z.log2_nonneg b). lia.
Qed.

Lemma round_ratio_scale (s : bool) (a b c : Z) :
  0 < a -> 0 < b -> 0 < c ->
  round_ratio s (a * c) (b * c) = round_ratio s a b.
Proof.
  intros Ha Hb Hc. unfold round_ratio.
  rewrite floor_log2_scale by assumption.
  set (e := Z.max (floor_log2 a b - 52) (-1074)). cbv zeta.
  assert (Hp1 : 0 < 2 ^ Z.max 0 (- e)) by (apply pow2_pos; lia).
  assert (Hp2 : 0 < 2 ^ Z.max 0 e) by (apply pow2_pos; lia).
  set (num := a * 2 ^ Z.max 0 (- e)). set (den := b * 2 ^ Z.max 0 e).
  replace (a * c * 2 ^ Z.max 0 (- e)) with (num * c) by (unfold num; ring).
  replace (b * c * 2 ^ Z.max 0 e) with (den * c) by (unfold den; ring).
  assert (Hden : 0 < den) by (unfold den; nia).
  rewrite Z.div_mul_cancel_r by lia.
  rewrite Z.mul_mod_distr_r by lia.
  replace (2 * (num mod den * c) <? den * c) with (2 * (num mod den) <? den).
  2:{ destruct (Z.ltb_spec (2 * (num mod den)) den);
      [symmetry; apply Z.ltb_lt | symmetry; apply Z.ltb_ge]; nia. }
  replace (den * c <? 2 * (num mod den * c)) with (den <? 2 * (num mod den)).
  2:{ destruct (Z.ltb_spec den (2 * (num mod den)));
      [symmetry; apply Z.ltb_lt | symmetry; apply Z.ltb_ge]; nia. }
  reflexivity.
Qed.

(** Zeros at the end of the digits can go to the exponent. *)
Lemma of_decimal_scale (s : bool) (d k j : Z) :
  0 < d -> 0 <= j ->
  of_decimal s (d * 10 ^ j) (k - j) = of_decimal s d k.
Proof.
  intros Hd Hj. unfold of_decimal.
  pose proof (pow10_pos j Hj) as Hpj.
  replace (d * 10 ^ j =? 0) with false by (symmetry; apply Z.eqb_neq; nia).
  replace (d =? 0) with false by (symmetry; apply Z.eqb_neq; lia).
  set (c := Z.max j k - Z.max 0 k).
  assert (Hc : 0 <= c) by (unfold c; lia).
  replace (d * 10 ^ j * 10 ^ Z.max 0 (k - j))
    with (d * 10 ^ Z.max 0 k * 10 ^ c).
  2:{ rewrite <- !Z.mul_assoc, <- !Z.pow_add_r by lia.
      f_equal. f_equal. unfold c. lia. }
  replace (10 ^ Z.max 0 (- (k - j))) with (10 ^ Z.max 0 (- k) * 10 ^ c).
  2:{ rewrite <- Z.pow_add_r by lia. f_equal. unfold c. lia. }
  apply round_ratio_scale.
  - pose proof (pow10_pos (Z.max 0 k) ltac:(lia)). nia.
  - apply pow10_pos. lia.
  - apply pow10_pos. lia.
Qed.

(** The sign is carried through the rounding. *)
Lemma of_decimal_sign (s : bool) (d k m e : Z) :
  of_decimal false d k = finite false m e ->
  of_decimal s d k = finite s m e.
Proof.
  unfold of_decimal, round_ratio.
  destruct (d =? 0); [intros [= <- <-]; reflexivity|]. cbv zeta.
  match goal with |- (if ?c then _ else _) = _ -> _ => destruct c end;
    [discriminate|]. intros [= <- <-]. reflexivity.
Qed.

Lemma float_eqb_eq (x y : float) : eqb x y = true -> x = y.
Proof.
  destruct x as [s m e|s|], y as [s' m' e'|s'|]; cbn; try discriminate.
  - intros H. apply andb_true_iff in H as [H He].
    apply andb_true_iff in H as [Hs Hm].
    apply Bool.eqb_prop in Hs. apply Z.eqb_eq in Hm, He. congruence.
  - intros H. apply Bool.eqb_prop in H. congruence.
  - reflexivity.
Qed.

End Rounding.

Section Shortest.
Import PyFloat.

Lemma strip_zeros_value (fuel : nat) : forall d k d' k',
  0 < d -> strip_zeros fuel d k = (d', k') ->
  0 < d' /\ exists j, 0 <= j /\ d = d' * 10 ^ j /\ k = k' - j.
Proof.
  induction fuel as [|fuel IH]; intros d k d' k' Hd; cbn [strip_zeros].
  - intros [= <- <-]. split; [exact Hd|]. exists 0. cbn. lia.
  - destruct ((d mod 10 =? 0) && negb (d =? 0)) eqn:Hz.
    + apply andb_true_iff in Hz as [Hmod _]. apply Z.eqb_eq in Hmod.
      pose proof (Z.div_mod d 10 ltac:(lia)) as Hdiv.
      intros H. apply IH in H as (Hd' & j & Hj & Hval & Hk); [|lia].
      split; [exact Hd'|]. exists (j + 1). split; [lia|]. split; [|lia].
      rewrite Z.pow_add_r by lia. change (10 ^ 1) with 10. nia.
    + intros [= <- <-]. split; [exact Hd|]. exists 0. cbn. lia.
Qed.

Lemma normalize_reads (s : bool) (d k d' k' : Z) :
  0 < d -> normalize d k = (d', k') ->
  0 < d' /\ of_decimal s d' k' = of_decimal s d k.
Proof.
  intros Hd H. apply strip_zeros_value in H as (Hd' & j & Hj & -> & ->);
    [|exact Hd].
  split; [exact Hd'|]. symmetry. apply of_decimal_scale; assumption.
Qed.

Lemma candidate_reads (m e D K nd n c k : Z) :
  0 <= D -> candidate m e D K nd n = Some (c, k) ->
  0 <= c /\ of_decimal false c k = finite false m e.
Proof.
  intros HD. unfold candidate.
  destruct (nd <=? n) eqn:Hn; [discriminate|]. apply Z.leb_gt in Hn.
  cbv zeta.
  assert (Hp : 0 < 10 ^ (nd - n)) by (apply pow10_pos; lia).
  assert (Hlo : 0 <= D / 10 ^ (nd - n)) by (apply Z.div_pos; lia).
  set (p := 10 ^ (nd - n)) in *. set (lo := D / p) in *.
  destruct (eqb (of_decimal false lo (K + (nd - n))) (finite false m e))
    eqn:Rlo;
    destruct (eqb (of_decimal false (lo + 1) (K + (nd - n)))
                (finite false m e)) eqn:Rhi;
    cbn [andb]; try discriminate.
  - apply float_eqb_eq in Rlo, Rhi.
    destruct (2 * (D mod p) <? p); [|destruct (p <? 2 * (D mod p));
      [|destruct (Z.even lo)]]; intros [= <- <-]; split;
      solve [lia | assumption].
  - apply float_eqb_eq in Rlo. intros [= <- <-]. split; [lia | assumption].
  - apply float_eqb_eq in Rhi. intros [= <- <-]. split; [lia | assumption].
Qed.

Lemma first_candidate_reads (m e D K nd : Z) (ns : list Z) (c k : Z) :
  0 <= D -> first_candidate m e D K nd ns = Some (c, k) ->
  0 <= c /\ of_decimal false c k = finite false m e.
Proof.
  intros HD. induction ns as [|n ns IH]; cbn [first_candidate];
    [discriminate|].
  destruct (candidate m e D K nd n) as [[c' k']|] eqn:Hc; [|exact IH].
  intros [= <- <-]. exact (candidate_reads _ _ _ _ _ _ _ _ HD Hc).
Qed.

Lemma exact_decimal_reads (s : bool) (m e : Z) :
  0 < m < 2 ^ 53 -> -1074 <= e <= 971 -> 2 ^ 52 <= m \/ e = -1074 ->
  0 < fst (exact_decimal m e)
  /\ of_decimal s (fst (exact_decimal m e)) (snd (exact_decimal m e))
     = finite s m e.
Proof.
  intros Hm He Hnorm. unfold exact_decimal.
  destruct (Z.leb_spec 0 e) as [H0|H0]; cbn [fst snd].
  - pose proof (pow2_pos e H0) as Hp.
    split; [nia|]. unfold of_decimal.
    replace (m * 2 ^ e =? 0) with false by (symmetry; apply Z.eqb_neq; nia).
    change (Z.max 0 (- 0)) with 0. change (Z.max 0 0) with 0.
    change (10 ^ 0) with 1. rewrite Z.mul_1_r.
    apply round_ratio_exact; try assumption; try nia.
    rewrite (Z.max_l 0 (- e)), (Z.max_r 0 e) by lia.
    rewrite Z.pow_0_r. ring.
  - assert (Hp : 0 < 5 ^ (- e)) by (apply Z.pow_pos_nonneg; lia).
    split; [nia|]. unfold of_decimal.
    replace (m * 5 ^ (- e) =? 0) with false
      by (symmetry; apply Z.eqb_neq; nia).
    rewrite (Z.max_l 0 e), (Z.max_r 0 (- e)) by lia.
    rewrite Z.pow_0_r, Z.mul_1_r.
    apply round_ratio_exact; try assumption; try nia;
      try (apply pow10_pos; lia).
    rewrite (Z.max_l 0 e), (Z.max_r 0 (- e)) by lia.
    rewrite Z.pow_0_r, Z.mul_1_r.
    change 10 with (5 * 2). rewrite Z.pow_mul_l. ring.
Qed.

(** The decimal that [repr] renders reads back as the number. *)
Lemma shortest_reads (s : bool) (m e d k : Z) :
  0 < m < 2 ^ 53 -> -1074 <= e <= 971 -> 2 ^ 52 <= m \/ e = -1074 ->
  shortest m e = (d, k) ->
  0 < d /\ of_decimal s d k = finite s m e.
Proof.
  intros Hm He Hnorm. unfold shortest.
  destruct (exact_decimal_reads s m e Hm He Hnorm) as [HD Hexact].
  destruct (exact_decimal m e) as [D K]. cbn [fst snd] in HD, Hexact.
  destruct (first_candidate m e D K _ _) as [[c k0]|] eqn:Hc.
  - apply first_candidate_reads in Hc as [Hc0 Hread]; [|lia].
    assert (Hcpos : 0 < c).
    { destruct (Z.eq_dec c 0) as [->|]; [|lia].
      unfold of_decimal in Hread. cbn in Hread. injection Hread. lia. }
    intros H. apply (normalize_reads s) in H as [Hd Hr]; [|exact Hcpos].
    split; [exact Hd|]. rewrite Hr. apply of_decimal_sign. exact Hread.
  - intros H. apply (normalize_reads s) in H as [Hd Hr]; [|exact HD].
    split; [exact Hd|]. rewrite Hr. exact Hexact.
Qed.

End Shortest.

Section Digits.
Import PyFloat.

Lemma string_length_app (a b : string) :
  String.length (a ++ b) = (String.length a + String.length b)%nat.
Proof. induction a as [|c a IH]; cbn; [reflexivity | rewrite IH; reflexivity]. Qed.

Lemma length_zeros (n : nat) : String.length (zeros n) = n.
Proof. induction n as [|n IH]; cbn; [reflexivity | rewrite IH; reflexivity]. Qed.

Lemma all_digits_app (a b : string) :
  Py.all_digits (a ++ b) = Py.all_digits a && Py.all_digits b.
Proof.
  induction a as [|c a IH]; cbn [append Py.all_digits]; [reflexivity|].
  rewrite IH, andb_assoc. reflexivity.
Qed.

Lemma all_digits_zeros (n : nat) : Py.all_digits (zeros n) = true.
Proof. induction n as [|n IH]; [reflexivity | exact IH]. Qed.

Lemma int_digits_app (a : string) : forall acc b,
  Py.int_digits acc (a ++ b) = Py.int_digits (Py.int_digits acc a) b.
Proof.
  induction a as [|c a IH]; intros acc b; cbn [append Py.int_digits];
    [reflexivity | apply IH].
Qed.

Lemma int_digits_zeros (n : nat) : forall acc,
  Py.int_digits acc (zeros n) = acc * 10 ^ Z.of_nat n.
Proof.
  induction n as [|n IH]; intros acc.
  - cbn. lia.
  - cbn [zeros Py.int_digits]. rewrite IH.
    change (Py.digit_val "0") with 0.
    rewrite Nat2Z.inj_succ, Z.pow_succ_r by lia. ring.
Qed.

Lemma of_uint_acc_value (l : Decimal.uint) : forall p : positive,
  Z.pos (Pos.of_uint_acc l p)
  = Z.pos p * 10 ^ Z.of_nat (Decimal.nb_digits l) + Z.of_N (Pos.of_uint l).
Proof.
  induction l as [|l IH|l IH|l IH|l IH|l IH|l IH|l IH|l IH|l IH|l IH];
    intros p;
    cbn [Pos.of_uint_acc Pos.of_uint Decimal.nb_digits];
    rewrite ?Nat2Z.inj_succ, ?Z.pow_succ_r by lia;
    try (rewrite IH; try rewrite (IH 1%positive); try rewrite (IH 2%positive);
         cbn [Z.of_N]; rewrite ?IH; lia).
  cbn. lia.
Qed.

Lemma int_digits_uint (d : Decimal.uint) : forall acc,
  Py.int_digits acc (NilEmpty.string_of_uint d)
  = acc * 10 ^ Z.of_nat (Decimal.nb_digits d) + Z.of_N (Pos.of_uint d).
Proof.
  induction d as [|l IH|l IH|l IH|l IH|l IH|l IH|l IH|l IH|l IH|l IH];
    intros acc;
    cbn [NilEmpty.string_of_uint Py.int_digits Pos.of_uint Decimal.nb_digits];
    rewrite ?Nat2Z.inj_succ, ?Z.pow_succ_r by lia;
    try match goal with
      | |- context [Py.digit_val ?c] =>
          let v := eval vm_compute in (Py.digit_val c) in
          change (Py.digit_val c) with v
      end;
    [ cbn; lia | rewrite IH; ring | .. ];
    rewrite IH; cbn [Z.of_N]; rewrite of_uint_acc_value; ring.
Qed.

Lemma all_digits_uint (d : Decimal.uint) :
  Py.all_digits (NilEmpty.string_of_uint d) = true.
Proof. induction d; cbn; auto. Qed.

(** [str(n)] is made of digits, and they are those of [n]. *)
Lemma str_int_digits (n : Z) :
  0 <= n ->
  Py.int_digits 0 (Py.str_int n) = n /\ Py.isdigit (Py.str_int n) = true.
Proof.
  intros Hn. destruct n as [|p|p]; [split; reflexivity| |lia].
  unfold Py.str_int. cbn [Z.to_int NilZero.string_of_int].
  pose proof (DecimalPos.Unsigned.of_to p) as Hp.
  assert (Hstr : NilZero.string_of_uint (Pos.to_uint p)
                 = NilEmpty.string_of_uint (Pos.to_uint p)).
  { destruct (Pos.to_uint p); [discriminate Hp | reflexivity ..]. }
  rewrite Hstr. split.
  - rewrite int_digits_uint, Hp. cbn [Z.of_N]. lia.
  - unfold Py.isdigit.
    destruct (NilEmpty.string_of_uint (Pos.to_uint p)) eqn:E.
    + destruct (Pos.to_uint p); discriminate.
    + rewrite <- E. apply all_digits_uint.
Qed.

Lemma isdigit_inv (ds : string) :
  Py.isdigit ds = true ->
  exists c rest, ds = String c rest /\ Py.is_digit c = true
                 /\ Py.all_digits rest = true /\ Py.all_digits ds = true.
Proof.
  destruct ds as [|c rest]; [discriminate|]. unfold Py.isdigit.
  intros H. exists c, rest. split; [reflexivity|].
  cbn [Py.all_digits] in H. apply andb_true_iff in H as [Hc Hr].
  repeat split; try assumption. cbn [Py.all_digits]. rewrite Hc, Hr.
  reflexivity.
Qed.

Lemma is_digit_eqb (c x : ascii) :
  Py.is_digit c = true -> Py.is_digit x = false -> Ascii.eqb c x = false.
Proof.
  intros Hc Hx. destruct (Ascii.eqb c x) eqn:E; [|reflexivity].
  apply Ascii.eqb_eq in E. congruence.
Qed.

Lemma all_digits_no_char (x : ascii) (ds : string) :
  Py.is_digit x = false -> Py.all_digits ds = true ->
  Reader.has_char x ds = false.
Proof.
  intros Hx. induction ds as [|c ds IH]; cbn [Py.all_digits Reader.has_char];
    [reflexivity|].
  intros H. apply andb_true_iff in H as [Hc Hd].
  rewrite (is_digit_eqb c x Hc Hx), (IH Hd). reflexivity.
Qed.

Lemma span_digits_app (ds tail : string) :
  Py.all_digits ds = true ->
  (forall c rest, tail = String c rest -> Py.is_digit c = false) ->
  span_digits (ds ++ tail) = (ds, tail).
Proof.
  intros Hd Ht. induction ds as [|c ds IH]; cbn [append span_digits].
  - destruct tail as [|c rest]; [reflexivity|]. cbn [span_digits].
    rewrite (Ht c rest eq_refl). reflexivity.
  - cbn [Py.all_digits] in Hd. apply andb_true_iff in Hd as [Hc Hd].
    rewrite Hc, (IH Hd). reflexivity.
Qed.

Lemma substring_split (s : string) : forall p : nat,
  (p <= String.length s)%nat ->
  s = (substring 0 p s ++ substring p (String.length s - p) s)%string
  /\ String.length (substring 0 p s) = p.
Proof.
  induction s as [|c s IH]; intros p Hp.
  - cbn in Hp. assert (p = 0%nat) by lia. subst p. split; reflexivity.
  - destruct p as [|p].
    + cbn [substring append String.length Nat.sub].
      rewrite substring_all. split; reflexivity.
    + cbn [String.length] in Hp.
      destruct (IH p ltac:(lia)) as [Hs Hl].
      cbn [substring append String.length Nat.sub].
      rewrite <- Hs, Hl. split; reflexivity.
Qed.

End Digits.

Section ReadBack.
Import PyFloat.

Let nl := ascii_of_nat 10.

Lemma read_exponent_written (exp : Z) :
  read_exponent
    (Py.fstr [if exp <? 0 then "-" else "+";
              if Z.abs exp <? 10 then "0" else "";
              Py.str_int (Z.abs exp)])
  = Some exp
  /\ Reader.has_char nl
       (Py.fstr [if exp <? 0 then "-" else "+";
                 if Z.abs exp <? 10 then "0" else "";
                 Py.str_int (Z.abs exp)]) = false.
Proof.
  destruct (str_int_digits (Z.abs exp) (Z.abs_nonneg exp)) as [Hval Hdig].
  set (pad := if Z.abs exp <? 10 then "0" else "").
  assert (Hpad : Py.isdigit (pad ++ Py.str_int (Z.abs exp)) = true
                 /\ Py.int_digits 0 (pad ++ Py.str_int (Z.abs exp))
                    = Z.abs exp).
  { unfold pad. destruct (Z.abs exp <? 10).
    - split; [|exact Hval].
      apply isdigit_inv in Hdig as (c & rest & _ & _ & _ & Hall).
      cbn [append Py.isdigit Py.all_digits]. rewrite Hall. reflexivity.
    - split; assumption. }
  destruct Hpad as [Hpd Hpv].
  assert (Hnl : Reader.has_char nl (pad ++ Py.str_int (Z.abs exp)) = false).
  { apply all_digits_no_char; [reflexivity|].
    apply isdigit_inv in Hpd as (c & rest & _ & _ & _ & Hall). exact Hall. }
  unfold Py.fstr. cbn [String.concat].
  change (("" ++ ?x)%string) with x.
  destruct (Z.ltb_spec exp 0) as [Hneg|Hpos];
    cbn [append]; unfold read_exponent; cbn [Ascii.eqb Bool.eqb];
    cbv iota; rewrite Hpd, Hpv; (split; [f_equal; lia|]);
    cbn [Reader.has_char]; rewrite Hnl; reflexivity.
Qed.

(** Digits, a point, digits, and an exponent or nothing. *)
Lemma read_decimal_point (s : bool) (ip fp tail : string) :
  Py.isdigit ip = true -> Py.all_digits fp = true ->
  (forall c rest, tail = String c rest -> Py.is_digit c = false) ->
  read_decimal s (ip ++ String "." (fp ++ tail))
  = match tail with
    | EmptyString =>
        Some (of_decimal s (Py.int_digits 0 (ip ++ fp))
                (- Z.of_nat (String.length fp)))
    | String c rest =>
        if Ascii.eqb c "e" then
          match read_exponent rest with
          | Some exp =>
              Some (of_decimal s (Py.int_digits 0 (ip ++ fp))
                      (exp - Z.of_nat (String.length fp)))
          | None => None
          end
        else None
    end.
Proof.
  intros Hip Hfp Htail.
  apply isdigit_inv in Hip as (c & rest & -> & Hc & Hrest & Hall).
  unfold read_decimal.
  rewrite span_digits_app;
    [|exact Hall | intros ? ? [= <- _]; reflexivity].
  rewrite Ascii.eqb_refl. rewrite (span_digits_app fp tail Hfp Htail).
  reflexivity.
Qed.

(** Digits and an exponent, without a point. *)
Lemma read_decimal_nopoint (s : bool) (ip rest : string) :
  Py.isdigit ip = true ->
  read_decimal s (ip ++ String "e" rest)
  = match read_exponent rest with
    | Some exp => Some (of_decimal s (Py.int_digits 0 ip) exp)
    | None => None
    end.
Proof.
  intros Hip.
  apply isdigit_inv in Hip as (c & r & -> & Hc & Hrest & Hall).
  unfold read_decimal.
  rewrite span_digits_app;
    [|exact Hall | intros ? ? [= <- _]; reflexivity].
  cbn [Ascii.eqb Bool.eqb]. cbv iota.
  rewrite append_empty_r. cbn [String.eqb String.length Z.of_nat append].
  destruct (read_exponent rest) as [exp|]; [|reflexivity].
  rewrite Z.sub_0_r. reflexivity.
Qed.

(** Digits, a point and digits. *)
Lemma read_decimal_point_end (s : bool) (ip fp : string) :
  Py.isdigit ip = true -> Py.all_digits fp = true ->
  read_decimal s (ip ++ String "." fp)
  = Some (of_decimal s (Py.int_digits 0 (ip ++ fp))
            (- Z.of_nat (String.length fp))).
Proof.
  intros Hip Hfp.
  rewrite <- (append_empty_r fp) at 1.
  rewrite (read_decimal_point s ip fp "" Hip Hfp); [reflexivity|].
  discriminate.
Qed.

Lemma isdigit_app (a b : string) :
  Py.isdigit a = true -> Py.all_digits b = true ->
  Py.isdigit (a ++ b) = true.
Proof.
  intros Ha Hb. apply isdigit_inv in Ha as (c & r & -> & Hc & Hr & _).
  cbn [append Py.isdigit Py.all_digits].
  rewrite Hc, all_digits_app, Hr, Hb. reflexivity.
Qed.

Lemma isdigit_nonempty (a : string) :
  Py.all_digits a = true -> String.length a <> 0%nat ->
  Py.isdigit a = true.
Proof. destruct a; [cbn; congruence | intros H _; exact H]. Qed.

(** The text of a decimal reads back as the decimal. *)
Lemma format_short_reads (s : bool) (d k : Z) :
  0 < d ->
  read_decimal s (format_short d k) = Some (of_decimal s d k)
  /\ Reader.has_char nl (format_short d k) = false
  /\ exists c rest, format_short d k = String c rest
                    /\ Py.is_digit c = true.
Proof.
  intros Hd.
  destruct (str_int_digits d ltac:(lia)) as [Hval Hdig].
  unfold format_short.
  set (ds := Py.str_int d) in *.
  set (n := Z.of_nat (String.length ds)).
  assert (Hn : n = Z.of_nat (String.length ds)) by reflexivity.
  clearbody n. cbv zeta.
  destruct (isdigit_inv ds Hdig) as (c & r & Hds & Hc & Hr & Hall).
  assert (Hnl : Reader.has_char nl ds = false)
    by (apply all_digits_no_char; [reflexivity | exact Hall]).
  destruct ((16 <? n + k) || (n + k <? -3)) eqn:Hexp.
  - (* with an exponent *)
    destruct (read_exponent_written (n + k - 1)) as [Hre Hrnl].
    set (E := Py.fstr [if n + k - 1 <? 0 then "-" else "+";
                       if Z.abs (n + k - 1) <? 10 then "0" else "";
                       Py.str_int (Z.abs (n + k - 1))]) in *.
    match goal with
    | |- context [Py.fstr [?mantissa; "e"; ?a; ?b; ?x]] =>
        change (Py.fstr [mantissa; "e"; a; b; x])
          with (mantissa ++ String "e" E)%string
    end.
    clearbody E. rewrite Hds in Hn, Hval, Hnl, Hdig. rewrite Hds.
    cbn [String.length] in Hn. destruct r as [|c' r'].
    + rewrite read_decimal_nopoint by exact Hdig.
      rewrite Hre, Hval. cbn [String.length] in Hn.
      replace (n + k - 1) with k by lia.
      split; [reflexivity|]. split.
      * rewrite has_char_app. rewrite Hnl. cbn [Reader.has_char orb].
        rewrite Hrnl. reflexivity.
      * exists c, (String "e" E). split; [reflexivity | exact Hc].
    + change (String c (String "." (String c' r')) ++ String "e" E)%string
        with (String c "" ++ String "." (String c' r' ++ String "e" E))%string.
      rewrite read_decimal_point;
        [| cbn; rewrite Hc; reflexivity | exact Hr
         | intros ? ? [= <- _]; reflexivity].
      cbn [Ascii.eqb Bool.eqb]. cbv iota. rewrite Hre.
      change (String c "" ++ String c' r')%string with (String c (String c' r')).
      rewrite Hval.
      replace (n + k - 1 - Z.of_nat (String.length (String c' r'))) with k
        by lia.
      split; [reflexivity|]. split.
      * change (String c "" ++ String "." (String c' r' ++ String "e" E))%string
          with (String c (String "." (String c' r' ++ String "e" E))).
        cbn [Reader.has_char] in Hnl |- *.
        apply orb_false_iff in Hnl as [Hnc Hnl]. rewrite Hnc.
        rewrite has_char_app. cbn [Reader.has_char] in Hnl |- *.
        rewrite Hnl, Hrnl. reflexivity.
      * exists c, (String "." (String c' r' ++ String "e" E)).
        split; [reflexivity | exact Hc].
  - apply orb_false_iff in Hexp as [H16 H3].
    apply Z.ltb_ge in H16, H3.
    destruct (Z.leb_spec (n + k) 0) as [Hle|Hgt].
    + (* zeros after the point *)
      set (z := Z.to_nat (- (n + k))).
      change (Py.fstr ["0."; zeros z; ds])
        with (String "0" "" ++ String "." (zeros z ++ ds))%string.
      assert (Hfp : Py.all_digits (zeros z ++ ds) = true)
        by (rewrite all_digits_app, all_digits_zeros, Hall; reflexivity).
      rewrite read_decimal_point_end; [|reflexivity | exact Hfp].
      split; [|split].
      * f_equal. f_equal.
        -- cbn [append Py.int_digits].
           change (10 * 0 + Py.digit_val "0") with 0.
           rewrite int_digits_app, int_digits_zeros, Z.mul_0_l.
           exact Hval.
        -- rewrite string_length_app, length_zeros, Nat2Z.inj_add, <- Hn.
           unfold z. rewrite Z2Nat.id by lia. lia.
      * cbn [append Reader.has_char Ascii.eqb Bool.eqb orb].
        apply all_digits_no_char; [reflexivity | exact Hfp].
      * exists "0"%char, (String "." (zeros z ++ ds)).
        split; reflexivity.
    + destruct (Z.leb_spec n (n + k)) as [Hk|Hk].
      * (* a whole number *)
        set (z := Z.to_nat (n + k - n)).
        change (Py.fstr [ds; zeros z; ".0"])
          with (ds ++ zeros z ++ String "." "0")%string.
        rewrite <- append_assoc.
        assert (Hip : Py.isdigit (ds ++ zeros z) = true)
          by (apply isdigit_app; [exact Hdig | apply all_digits_zeros]).
        rewrite read_decimal_point_end; [|exact Hip | reflexivity].
        split; [|split].
        -- f_equal. rewrite !int_digits_app, int_digits_zeros, Hval.
           cbn [Py.int_digits String.length].
           change (Py.digit_val "0") with 0.
           assert (Hz : Z.of_nat z = k) by (unfold z; lia).
           rewrite Hz.
           replace (10 * (d * 10 ^ k) + 0) with (d * 10 ^ (k + 1))
             by (rewrite Z.pow_add_r by lia; change (10 ^ 1) with 10; ring).
           replace (- Z.of_nat 1) with (k - (k + 1)) by lia.
           apply of_decimal_scale; lia.
        -- rewrite !has_char_app, Hnl.
           rewrite (all_digits_no_char nl (zeros z));
             [reflexivity | reflexivity | apply all_digits_zeros].
        -- rewrite Hds. exists c, ((r ++ zeros z) ++ String "." "0")%string.
           split; [reflexivity | exact Hc].
      * (* the point inside the digits *)
        destruct (substring_split ds (Z.to_nat (n + k)) ltac:(lia))
          as [Hs Hl].
        replace (Z.to_nat (n - (n + k)))
          with (String.length ds - Z.to_nat (n + k))%nat by lia.
        set (s1 := substring 0 (Z.to_nat (n + k)) ds) in *.
        set (s2 := substring (Z.to_nat (n + k))
                     (String.length ds - Z.to_nat (n + k)) ds) in *.
        clearbody s1 s2.
        change (Py.fstr [s1; "."; s2]) with (s1 ++ String "." s2)%string.
        assert (H12 : Py.all_digits s1 = true /\ Py.all_digits s2 = true).
        { rewrite Hs, all_digits_app in Hall.
          apply andb_true_iff in Hall. exact Hall. }
        destruct H12 as [H1 H2].
        assert (Hip : Py.isdigit s1 = true)
          by (apply isdigit_nonempty; [exact H1 | lia]).
        rewrite read_decimal_point_end; [|exact Hip | exact H2].
        split; [|split].
        -- f_equal. rewrite <- Hs, Hval. f_equal.
           assert (String.length ds
                   = (String.length s1 + String.length s2)%nat)
             by (rewrite Hs at 1; apply string_length_app).
           lia.
        -- rewrite has_char_app. cbn [Reader.has_char].
           rewrite !all_digits_no_char by (reflexivity || assumption).
           reflexivity.
        -- apply isdigit_inv in Hip as (c1 & r1 & -> & Hc1 & _).
           exists c1, (r1 ++ String "." s2)%string.
           split; [reflexivity | exact Hc1].
Qed.

(** [float(repr(x)) == x] for every binary64 value but the one that
    is not a number, which reads back as itself under [is]; the text
    holds no line feed. *)
Lemma float_of_string_repr (x : float) :
  valid x = true ->
  float_of_string (repr x) = Some x
  /\ Reader.has_char nl (repr x) = false.
Proof.
  destruct x as [s m e|s|]; intros Hv.
  - unfold valid in Hv.
    apply andb_true_iff in Hv as [Hv Hnorm].
    apply andb_true_iff in Hv as [Hv He2].
    apply andb_true_iff in Hv as [Hv He1].
    apply andb_true_iff in Hv as [Hm1 Hm2].
    apply Z.leb_le in Hm1, He1, He2. apply Z.ltb_lt in Hm2.
    apply orb_true_iff in Hnorm.
    unfold repr. destruct (Z.eqb_spec m 0) as [->|Hm0].
    + destruct Hnorm as [H|H]; [apply Z.leb_le in H; cbn in H; lia|].
      apply Z.eqb_eq in H. subst e. destruct s; split; reflexivity.
    + destruct (shortest m e) as [d k] eqn:Hsh.
      apply (shortest_reads s) in Hsh as [Hd Hread];
        [|lia|lia|destruct Hnorm as [H|H];
                  [left; apply Z.leb_le in H; exact H
                  |right; apply Z.eqb_eq in H; exact H]].
      destruct (format_short_reads s d k Hd)
        as (Hr & Hnl & c & rest & Hshape & Hc).
      change (Py.fstr [sign s; format_short d k])
        with (sign s ++ format_short d k)%string.
      rewrite Hshape in Hr, Hnl. rewrite Hshape.
      assert (Hinf : String.eqb (String c rest) "inf" = false).
      { cbn [String.eqb]. rewrite (is_digit_eqb c "i" Hc eq_refl).
        reflexivity. }
      assert (Hnan : String.eqb (String c rest) "nan" = false).
      { cbn [String.eqb]. rewrite (is_digit_eqb c "n" Hc eq_refl).
        reflexivity. }
      destruct s; cbn [sign append]; unfold float_of_string.
      * cbn [Ascii.eqb Bool.eqb]. cbv iota.
        rewrite Hinf, Hnan, Hr, Hread. split; [reflexivity|].
        change (Reader.has_char nl (String "-" (String c rest)))
          with (Ascii.eqb "-" nl || Reader.has_char nl (String c rest)).
        rewrite Hnl. reflexivity.
      * rewrite (is_digit_eqb c "-" Hc eq_refl).
        rewrite Hinf, Hnan, Hr, Hread. split; [reflexivity | exact Hnl].
  - destruct s; split; reflexivity.
  - split; reflexivity.
Qed.

End ReadBack.

(** [==] holds between a number and itself. *)
Lemma equal_refl (x : PyFloat.float) :
  x <> PyFloat.nan -> PyFloat.equal x x = true.
Proof.
  destruct x as [s m e|s|]; intros H; cbn.
  - rewrite Bool.eqb_reflx, !Z.eqb_refl. apply orb_true_r.
  - apply Bool.eqb_reflx.
  - contradiction.
Qed.

(** ** The output file read back *)

Section RoundTrip.

Variable float : Type.
Variable repr : float -> string.
Variable float_of : string -> option float.

(** The line written for an entry. *)
Let line (kv : string * float) : string :=
  Py.fstr [fst kv; ": "; repr (snd kv); Py.nl].

Let reads_back := Reader.reads_back float float_of repr.
Let plain_key := Reader.plain_key.

Lemma parse_written (es : list (string * float)) :
  forallb plain_key (map fst es) = true ->
  Forall reads_back (map snd es) ->
  Reader.parse_file float float_of (String.concat "" (map line es))
  = Some es.
Proof.
  unfold Reader.parse_file.
  induction es as [|[k v] es IH]; intros Hk Hv; [reflexivity|].
  cbn [map fst snd forallb] in Hk, Hv.
  apply andb_true_iff in Hk as [Hk Hks].
  apply andb_true_iff in Hk as [Hcolon Hnl].
  apply negb_true_iff in Hcolon, Hnl.
  inversion Hv as [|? ? [Hfloat Hrepr] Hvs]; subst.
  cbn [map]. rewrite concat_empty_cons.
  unfold line at 1. cbn [Py.fstr String.concat fst snd].
  replace ((k ++ "" ++ ": " ++ "" ++ repr v ++ "" ++ Py.nl)
           ++ String.concat "" (map line es))%string
    with ((k ++ ": " ++ repr v)
          ++ Py.nl ++ String.concat "" (map line es))%string
    by (rewrite !append_assoc; reflexivity).
  rewrite split_lines_first.
  - cbn [Reader.parse_lines]. rewrite (IH Hks Hvs).
    unfold Reader.parse_line. rewrite (split_colon_first _ _ Hcolon), Hfloat.
    reflexivity.
  - rewrite !has_char_app, Hnl, Hrepr. reflexivity.
Qed.

Variable entries : Root.TChain -> Z.
Variable t : Model7.Chains.
Variable f : Fitted float.

Let d := fst (Model7.run_declarations entries t).
Let s := snd (Model7.run_declarations entries t).

(** The file is the lines of its entries, and these are read back
    when each value is. *)
Lemma written_entries_parse :
  Forall reads_back (map snd (Model7.written_entries float d s f)) ->
  Reader.parse_file float float_of (Model7.fit_parameters_txt float repr d s f)
  = Some (Model7.written_entries float d s f).
Proof.
  intros Hv.
  replace (Model7.fit_parameters_txt float repr d s f)
    with (String.concat "" (map line (Model7.written_entries float d s f)))
    by reflexivity.
  apply parse_written; [reflexivity | exact Hv].
Qed.

(** The values of the entries: those of the exported parameters, then
    the errors of the four signal yields. *)
Lemma written_entries_values :
  map snd (Model7.written_entries float d s f)
  = map (getValV f) (Model7.variables d)
    ++ map (getError f)
         [Model7.Nsig_D0_down d; Model7.Nsig_D0_up d;
          Model7.Nsig_D0bar_down d; Model7.Nsig_D0bar_up d].
Proof. reflexivity. Qed.

End RoundTrip.

Section FitParametersTxt.

Variable entries : Root.TChain -> Z.
Variable t : Model7.Chains.

(** The parameter objects after the fit, with Python floats for their
    values and errors. *)
Variable f : Fitted PyFloat.float.

Let d := fst (Model7.run_declarations entries t).
Let s := snd (Model7.run_declarations entries t).
Let b := fst (Model7.run_binned d t).

(** The parameters of the fit: those of the four extended models. *)
Let floated := flat_map (Root.getParameters s) (Model7.models b).

Let text := Model7.fit_parameters_txt PyFloat.float PyFloat.repr d s f.

(** C8. The file written from a fit result, read back line by line,
    each line split at ": " and its value read with [float], gives
    back the fit result: every parameter of the fit is found under its
    name with the very binary64 value it had after the fit, which is
    also equal to it under [==] unless it is not a number; the error
    of each of the four signal yields is found under the name of the
    yield followed by "_error"; and the file holds nothing else, 29
    entries under 29 different names.  The values and errors of the
    fit are Python floats, that is binary64 numbers. *)
Theorem fit_parameters_txt_reads_back :
  (forall r, In r floated ->
     PyFloat.valid (getValV f r) = true
     /\ PyFloat.valid (getError f r) = true) ->
  exists parsed,
    Reader.parse_file PyFloat.float PyFloat.float_of_string text
    = Some parsed
    /\ (forall r, In r floated ->
          Py.dict_get parsed (Model7.name_of s r) = Some (getValV f r))
    /\ (forall r, In r floated -> getValV f r <> PyFloat.nan ->
          exists v, Py.dict_get parsed (Model7.name_of s r) = Some v
                    /\ PyFloat.equal v (getValV f r) = true)
    /\ (forall r, In r floated ->
          Py.startswith "Nsig_" (Model7.name_of s r) = true ->
          Py.dict_get parsed (Py.fstr [Model7.name_of s r; "_error"])
          = Some (getError f r))
    /\ (forall name v, Py.dict_get parsed name = Some v ->
          exists r, In r floated
            /\ ((name = Model7.name_of s r /\ v = getValV f r)
                \/ (name = Py.fstr [Model7.name_of s r; "_error"]
                    /\ Py.startswith "Nsig_" (Model7.name_of s r) = true
                    /\ v = getError f r)))
    /\ NoDup (map fst parsed)
    /\ length parsed = 29%nat.
Proof.
  intros Hvalid.
  exists (Model7.written_entries PyFloat.float d s f).
  assert (Hvars : forall r, In r (Model7.variables d) -> In r floated).
  { intros r Hr. cbn in Hr |- *. tauto. }
  split; [|split; [|split; [|split; [|split; [|split]]]]].
  - apply written_entries_parse. rewrite written_entries_values.
    apply Forall_app. split; apply Forall_map, Forall_forall; intros r Hr.
    + destruct (Hvalid r (Hvars r Hr)) as [Hv _].
      exact (float_of_string_repr _ Hv).
    + assert (Hin : In r (Model7.variables d)) by (cbn in Hr |- *; tauto).
      destruct (Hvalid r (Hvars r Hin)) as [_ He].
      exact (float_of_string_repr _ He).
  - intros r Hr. cbn in Hr.
    repeat (destruct Hr as [<- | Hr]; [reflexivity|]). contradiction.
  - intros r Hr Hnan. exists (getValV f r). split; [|apply equal_refl, Hnan].
    cbn in Hr.
    repeat (destruct Hr as [<- | Hr]; [reflexivity|]). contradiction.
  - intros r Hr. cbn in Hr.
    repeat (destruct Hr as [<- | Hr];
            [first [reflexivity | discriminate]|]).
    contradiction.
  - intros name v.
    let entries_written :=
      eval vm_compute in (Model7.written_entries PyFloat.float d s f) in
    change (Model7.written_entries PyFloat.float d s f)
      with entries_written.
    cbn [Py.dict_get].
    repeat match goal with
    | |- (if String.eqb ?k name then _ else _) = _ -> _ =>
        destruct (String.eqb_spec k name) as [<- | _];
        [intros [= <-]; eexists; split;
         [|first [left; split; [|reflexivity]; reflexivity
                 |right; split; [|split; [|reflexivity]]; reflexivity]];
         cbn; tauto|]
    end.
    discriminate.
  - repeat constructor; cbn; intuition discriminate.
  - reflexivity.
Qed.

End FitParametersTxt.

Lemma fit_parameters_txt_reads_back_at_sample :
  let d := fst (Model7.run_declarations (fun _ => 0) Model7.initial_chains) in
  let s := snd (Model7.run_declarations (fun _ => 0) Model7.initial_chains) in
  exists parsed,
    Reader.parse_file PyFloat.float PyFloat.float_of_string
      (Model7.fit_parameters_txt PyFloat.float PyFloat.repr d s
         Sample.fitted_floats)
    = Some parsed
    /\ Py.dict_get parsed "a0"
       = Some (PyFloat.finite false 7205759403792794 (-56))
    /\ Py.dict_get parsed "Nsig_D0_up_error"
       = Some (PyFloat.finite false 4503599627370496 (-53)).
Proof.
  intros d s.
  destruct (fit_parameters_txt_reads_back (fun _ => 0) Model7.initial_chains
              Sample.fitted_floats)
    as (parsed & Hparse & Hval & _ & Herr & _).
  - intros r _. split; reflexivity.
  - exists parsed. split; [exact Hparse|]. split.
    + apply (Hval (Model7.a0 d)). cbn. tauto.
    + apply (Herr (Model7.Nsig_D0_up d)); [cbn; tauto | reflexivity].
Defined.

(** ** The likelihood *)

Section Totals.
Import Likelihood.
#[local] Open Scope R_scope.

Lemma total_app l1 l2 : total (l1 ++ l2) = total l1 + total l2.
Proof.
  unfold total. induction l1 as [|a l1 IH]; cbn [app fold_right];
    [lra | rewrite IH; lra].
Qed.

Lemma total_map_plus {A} (g h : A -> R) l :
  total (map (fun a => g a + h a) l) = total (map g l) + total (map h l).
Proof.
  unfold total. induction l as [|a l IH]; cbn [map fold_right];
    [lra | rewrite IH; lra].
Qed.

Lemma total_map_minus {A} (g h : A -> R) l :
  total (map (fun a => g a - h a) l) = total (map g l) - total (map h l).
Proof.
  unfold total. induction l as [|a l IH]; cbn [map fold_right];
    [lra | rewrite IH; lra].
Qed.

Lemma total_map_zero {A} (l : list A) : total (map (fun _ => 0) l) = 0.
Proof.
  unfold total. induction l as [|a l IH]; cbn [map fold_right];
    [reflexivity | rewrite IH; lra].
Qed.

End Totals.

Section Frames.
Import Root Likelihood.
#[local] Open Scope R_scope.

Variable johnson : R -> R -> R -> R -> R -> R.
Variable bifur_gauss : R -> R -> R -> R -> R.
Variable gauss : R -> R -> R -> R.
Variable exponential : R -> R -> R.

Let density := Likelihood.density johnson bifur_gauss gauss exponential.
Let intensity := Likelihood.intensity johnson bifur_gauss gauss exponential.
Let nll := Likelihood.nll johnson bifur_gauss gauss exponential.








Variable entries : TChain -> Z.
Variable t : Model7.Chains.

Let d := fst (Model7.run_declarations entries t).
Let s := snd (Model7.run_declarations entries t).
Let b := fst (Model7.run_binned d t).
Let obs := Model7.D0_M d.




End Frames.


Section JointLikelihood.
Import Root Likelihood.
#[local] Open Scope R_scope.

Variable johnson : R -> R -> R -> R -> R -> R.
Variable bifur_gauss : R -> R -> R -> R -> R.
Variable gauss : R -> R -> R -> R.
Variable exponential : R -> R -> R.
Variable events_of : RooDataHist -> list (R * R).

Let event_term :=
  Likelihood.event_term johnson bifur_gauss gauss exponential.
Let nll := Likelihood.nll johnson bifur_gauss gauss exponential.
Let labelled_term :=
  Likelihood.labelled_term johnson bifur_gauss gauss exponential.
Let joint_nll :=
  Likelihood.joint_nll johnson bifur_gauss gauss exponential events_of.

(** Among distinct labels, at most one is the label looked for. *)
Lemma total_at_label (T : RooAbsPdf -> R) (pdfs : list (string * RooAbsPdf)) l :
  NoDup (map fst pdfs) ->
  total (map (fun lp => if String.eqb l (fst lp) then T (snd lp) else 0) pdfs)
  = match getPdf pdfs l with Some p => T p | None => 0 end.
Proof.
  induction pdfs as [|[l0 p0] pdfs IH]; intros Hnd; [reflexivity|].
  inversion Hnd as [|? ? Hnotin Hnd']; subst.
  cbn [map total fold_right fst snd getPdf].
  fold (total (map (fun lp => if String.eqb l (fst lp) then T (snd lp)
                              else 0) pdfs)).
  rewrite (IH Hnd'). rewrite (String.eqb_sym l l0).
  destruct (String.eqb_spec l0 l) as [->|Hne]; [|lra].
  replace (getPdf pdfs l) with (@None RooAbsPdf); [lra|].
  clear -Hnotin. induction pdfs as [|[l1 p1] pdfs IH]; [reflexivity|].
  cbn in *. destruct (String.eqb_spec l1 l) as [->|]; [tauto|].
  apply IH. tauto.
Qed.

Lemma labelled_terms_by_label theta obs pdfs imports :
  NoDup (map fst pdfs) ->
  total (map (labelled_term theta obs pdfs)
           (combined_events events_of imports))
  = total (map (fun lp =>
                  total (map (event_term theta obs (snd lp))
                           (events_bound_to events_of imports (fst lp))))
             pdfs).
Proof.
  intros Hnd. induction imports as [|[l dh] imports IH].
  - cbn. now rewrite total_map_zero.
  - cbn [combined_events flat_map fst snd].
    rewrite map_app, total_app, map_map.
    fold (combined_events events_of imports). rewrite IH.
    assert (Hstep : forall lp : string * RooAbsPdf,
               total (map (event_term theta obs (snd lp))
                        (events_bound_to events_of ((l, dh) :: imports)
                           (fst lp)))
               = (if String.eqb l (fst lp)
                  then total (map (event_term theta obs (snd lp))
                                (events_of dh))
                  else 0)
                 + total (map (event_term theta obs (snd lp))
                            (events_bound_to events_of imports (fst lp)))).
    { intros [l' p']. cbn [fst snd]. unfold events_bound_to, bound_to.
      cbn [filter fst snd]. destruct (String.eqb l l').
      - cbn [map flat_map]. rewrite map_app, total_app. reflexivity.
      - lra. }
    rewrite (map_ext _ _ Hstep), total_map_plus.
    rewrite (total_at_label
               (fun p => total (map (event_term theta obs p) (events_of dh))))
      by assumption.
    f_equal. unfold labelled_term, Likelihood.labelled_term. cbn [fst snd].
    destruct (getPdf pdfs l); [reflexivity|]. apply total_map_zero.
Qed.

(** Whatever the models and the imports: when the registered labels
    are distinct, the likelihood of the simultaneous model is the sum,
    over the registered labels, of the likelihood of the label's model on
    the events bound to the label. *)
Lemma joint_decomposes theta obs sim data :
  NoDup (map fst (sim_pdfs sim)) ->
  joint_nll theta obs sim data
  = total (map (fun lp =>
                  nll theta obs (snd lp)
                    (events_bound_to events_of (cd_imports data) (fst lp)))
             (sim_pdfs sim)).
Proof.
  intros Hnd. unfold joint_nll, nll, Likelihood.joint_nll, Likelihood.nll.
  rewrite total_map_minus.
  fold labelled_term event_term.
  rewrite labelled_terms_by_label by assumption. reflexivity.
Qed.

Variable entries : TChain -> Z.
Variable t : Model7.Chains.

Let d := fst (Model7.run_declarations entries t).
Let b := fst (Model7.run_binned d t).
Let sim := snd (Model7.run_binned d t).
Let obs := Model7.D0_M d.

Lemma bound_to_label (c : Model7.Category) :
  bound_to (Model7.imports b) (Model7.label c) = [Model7.data_of b c].
Proof. destruct c; reflexivity. Qed.

(** C1. For every parameter vector, the likelihood of the simultaneous
    model on the combined data is the sum, over the four registered
    categories, of the extended likelihood of the category's model on
    the data set imported under the category's label. *)
Theorem joint_nll_is_sum_over_categories (theta : vector) :
  joint_nll theta obs sim (Model7.simultaneous_data d sim b)
  = total (map (fun c => nll theta obs (Model7.model_of b c)
                           (events_of (Model7.data_of b c)))
             Model7.categories)
  /\ sim_pdfs sim
     = map (fun c => (Model7.label c, Model7.model_of b c))
         Model7.categories
  /\ map (bound_to (Model7.imports b)) (map Model7.label Model7.categories)
     = map (fun c => [Model7.data_of b c]) Model7.categories.
Proof.
  split; [|split; reflexivity].
  unfold joint_nll. rewrite joint_decomposes.
  - change (sim_pdfs sim)
      with (map (fun c => (Model7.label c, Model7.model_of b c))
              Model7.categories).
    rewrite map_map. f_equal. apply map_ext. intros c. cbn [fst snd].
    unfold events_bound_to.
    change (cd_imports (Model7.simultaneous_data d sim b))
      with (Model7.imports b).
    rewrite bound_to_label. cbn [flat_map]. now rewrite app_nil_r.
  - repeat constructor; cbn; intuition discriminate.
Qed.

End JointLikelihood.

(** * Further properties of the scripts *)

(** ** What [--size] accepts, and the list it gives *)

Section SizeArgument.

Lemma isdigit_leading_zero (value : string) :
  Py.isdigit value = true -> Py.isdigit (String "0" value) = true.
Proof.
  unfold Py.isdigit. cbn [Py.all_digits].
  destruct value; [discriminate | auto].
Qed.

(** [size_argument] on ASCII arguments.  It accepts exactly strings
    of digits that read as one of 10, 20, ..., 800 and returns that
    integer; every value in that list is accepted from its decimal
    spelling, and a leading zero is accepted and dropped as long as the
    string stays within the 4300 digits [int] converts.  A string of
    more than 4300 digits ends in the [ValueError] of [int], whatever
    it reads as; a shorter string of digits out of the list is refused
    with the message on the range, and a string that is not made of
    digits with the other message. *)
Theorem size_argument_accepts_the_tens :
  (forall value s, size_argument value = inr s ->
     (String.length value <= 4300)%nat
     /\ exists k, 1 <= k <= 80 /\ s = 10 * k)
  /\ (forall k, 1 <= k <= 80 ->
        size_argument (Py.str_int (10 * k)) = inr (10 * k))
  /\ (forall value s, size_argument value = inr s ->
        (String.length value < 4300)%nat ->
        size_argument (String "0" value) = inr s)
  /\ (forall value, Py.isdigit value = true ->
        (4300 < String.length value)%nat ->
        size_argument value = inl IntValueError)
  /\ (forall value, Py.isdigit value = true ->
        (String.length value <= 4300)%nat ->
        ~ (exists k, 1 <= k <= 80 /\ Py.int value = Some (10 * k)) ->
        size_argument value
        = inl (ArgTypeError
            "Integer value must be between 1 and 800 and be divisible by 10."))
  /\ (forall value, Py.isdigit value = false ->
        size_argument value = inl (ArgTypeError invalid_value)).
Proof.
  assert (Hint : forall value,
            (String.length value <= 4300)%nat ->
            Py.int value = Some (Py.int_digits 0 value)).
  { intros value Hlen. unfold Py.int, Py.int_max_str_digits.
    destruct (Nat.leb_spec (String.length value) 4300); [reflexivity|lia]. }
  assert (Hlong : forall value,
            (4300 < String.length value)%nat -> Py.int value = None).
  { intros value Hlen. unfold Py.int, Py.int_max_str_digits.
    destruct (Nat.leb_spec (String.length value) 4300); [lia|reflexivity]. }
  split; [|split; [|split; [|split; [|split]]]].
  - intros value s H. split.
    + destruct (Nat.le_gt_cases (String.length value) 4300) as [Hl|Hl];
        [exact Hl|].
      unfold size_argument in H. rewrite (Hlong value Hl) in H.
      destruct (Py.isdigit value); discriminate H.
    + apply size_argument_accepts in H as [Hr Hm].
      exists (s / 10). pose proof (Z.div_mod s 10). lia.
  - intros k Hk.
    assert (Hi : exists i : nat, (i < 80)%nat /\ k = Z.of_nat (S i)).
    { exists (Z.to_nat (k - 1)). lia. }
    destruct Hi as (i & Hi & ->).
    do 80 (destruct i as [|i]; [vm_compute; reflexivity|]). lia.
  - intros value s H Hlen. unfold size_argument in *.
    destruct (Py.isdigit value) eqn:Hd; [|discriminate].
    rewrite (isdigit_leading_zero value Hd).
    rewrite Hint in H by lia. rewrite Hint by (cbn [String.length]; lia).
    cbn [Py.int_digits].
    change (10 * 0 + Py.digit_val "0") with 0. exact H.
  - intros value Hd Hlen. unfold size_argument.
    rewrite Hd, (Hlong value Hlen). reflexivity.
  - intros value Hd Hlen Hno. unfold size_argument. rewrite Hd.
    rewrite Hint in * by assumption.
    destruct (1 <=? Py.int_digits 0 value) eqn:H1; [|reflexivity].
    destruct (Py.int_digits 0 value <=? 800) eqn:H2; [|reflexivity].
    destruct (Py.int_digits 0 value mod 10 =? 0) eqn:H3; [|reflexivity].
    exfalso. apply Hno. exists (Py.int_digits 0 value / 10).
    apply Z.leb_le in H1, H2. apply Z.eqb_eq in H3.
    pose proof (Z.div_mod (Py.int_digits 0 value) 10).
    split; [lia|]. f_equal. lia.
  - intros value Hd. unfold size_argument. rewrite Hd. reflexivity.
Qed.

End SizeArgument.

Section GenerateListAll.

(** On any integer the loop stops after [max 1 (ceil (s / 10))]
    passes. *)
Lemma generate_list_seq (s : Z) :
  generate_list s
  = map (fun k => 10 * Z.of_nat k)
      (seq 1 (Z.to_nat (Z.max 1 ((s + 9) / 10)))).
Proof.
  set (n := Z.max 1 ((s + 9) / 10)).
  assert (Hdiv : 10 * ((s + 9) / 10) <= s + 9 < 10 * ((s + 9) / 10) + 10).
  { pose proof (Z.div_mod (s + 9) 10).
    pose proof (Z.mod_pos_bound (s + 9) 10). lia. }
  unfold generate_list. rewrite generate_list_loop_pass.
  cbn [loop_guard app].
  rewrite (generate_list_loop_appends s (Z.to_nat (n - 1))).
  - replace (Z.to_nat n) with (S (Z.to_nat (n - 1))) by lia.
    cbn [seq map app]. f_equal.
    rewrite <- !seq_shift, !map_map. apply map_ext. intros k. lia.
  - discriminate.
  - reflexivity.
  - intros k Hk. lia.
  - lia.
Qed.

Lemma generate_list_not_empty (s : Z) : generate_list s <> [].
Proof.
  rewrite generate_list_seq.
  replace (Z.to_nat (Z.max 1 ((s + 9) / 10)))
    with (S (Z.to_nat (Z.max 1 ((s + 9) / 10) - 1))) by lia.
  discriminate.
Qed.

(** [generate_list] on any integer, accepted by [--size] or not: the
    list is [10; 20; ...] up to the first multiple of ten that is not
    below the argument, so it always starts with 10 and is never empty
    (an argument of ten or less, zero and negative numbers included,
    gives [[10]]), and an argument that is not a multiple of ten is
    rounded up. *)
Theorem generate_list_closed_form (s : Z) :
  let n := Z.max 1 ((s + 9) / 10) in
  generate_list s = map (fun k => 10 * Z.of_nat k) (seq 1 (Z.to_nat n))
  /\ length (generate_list s) = Z.to_nat n
  /\ hd 0 (generate_list s) = 10
  /\ Py.last_item (generate_list s) = 10 * n
  /\ (s <= 10 -> generate_list s = [10])
  /\ s <= Py.last_item (generate_list s)
  /\ (10 < s -> Py.last_item (generate_list s) < s + 10).
Proof.
  intros n.
  assert (Hdiv : 10 * ((s + 9) / 10) <= s + 9 < 10 * ((s + 9) / 10) + 10).
  { pose proof (Z.div_mod (s + 9) 10).
    pose proof (Z.mod_pos_bound (s + 9) 10). lia. }
  assert (Hform := generate_list_seq s). fold n in Hform.
  assert (Hlen : length (generate_list s) = Z.to_nat n).
  { rewrite Hform, length_map, length_seq. reflexivity. }
  assert (Hlast : Py.last_item (generate_list s) = 10 * n).
  { rewrite Hform. unfold Py.last_item.
    replace (Z.to_nat n) with (S (Z.to_nat (n - 1))) by lia.
    rewrite seq_S, map_app. cbn [map]. rewrite last_last. lia. }
  repeat split; try assumption.
  - rewrite Hform. replace (Z.to_nat n) with (S (Z.to_nat (n - 1))) by lia.
    reflexivity.
  - intros Hs. rewrite Hform. replace n with 1 by lia. reflexivity.
  - rewrite Hlast. lia.
  - intros Hs. rewrite Hlast. lia.
Qed.

End GenerateListAll.

(** ** The loading step in every scheme *)

Section LoadingSchemes.
Import Root Model7.

Variable args : Args.

(** Outside the "total" scheme a pass makes its chains anew: it does
    not look at the chains of the pass before. *)
Lemma load_pass_forgets (t t' : Chains) :
  scheme args <> "total" -> load_pass args t = load_pass args t'.
Proof.
  intros H. unfold load_pass.
  destruct (String.eqb_spec (scheme args) "total"); [contradiction|reflexivity].
Qed.

Lemma fold_load_pass_last (l : list Z) : forall t : Chains,
  l <> [] -> scheme args <> "total" ->
  fold_left (fun c valuesize => load_pass args c) l t
  = load_pass args initial_chains.
Proof.
  induction l as [|v l IH]; intros t Hl Hs; [congruence|].
  cbn [fold_left]. destruct l as [|v' l].
  - cbn. now apply load_pass_forgets.
  - apply IH; [discriminate | assumption].
Qed.

End LoadingSchemes.

Section LoadingSchemeBins.
Import Root Model7.

Lemma add_mass_file_reads_mass_only (c : TChain) (file : string) :
  tree c = decay_tree -> reads_mass_only (add_mass_file c file).
Proof.
  intros Ht. unfold reads_mass_only, add_mass_file, SetBranchStatus, Add.
  cbn. repeat split; [assumption|]. destruct (files c); discriminate.
Qed.

Lemma load_pass_reads_mass_only (args : Args) (t : Chains) :
  Forall (fun c => tree c = decay_tree)
    [ttree_D0_up t; ttree_D0_down t; ttree_D0bar_up t; ttree_D0bar_down t] ->
  let t' := load_pass args t in
  Forall reads_mass_only
    [ttree_D0_up t'; ttree_D0_down t'; ttree_D0bar_up t';
     ttree_D0bar_down t'].
Proof.
  intros H.
  apply Forall_cons_iff in H as [H1 H]. apply Forall_cons_iff in H as [H2 H].
  apply Forall_cons_iff in H as [H3 H]. apply Forall_cons_iff in H as [H4 _].
  unfold load_pass. destruct (scheme args =? "total")%string; cbn;
    repeat constructor; now apply add_mass_file_reads_mass_only.
Qed.

Lemma fold_load_pass_reads_mass_only (args : Args) (l : list Z) :
  forall t : Chains,
  l <> [] ->
  Forall (fun c => tree c = decay_tree)
    [ttree_D0_up t; ttree_D0_down t; ttree_D0bar_up t; ttree_D0bar_down t] ->
  let t' := fold_left (fun c valuesize => load_pass args c) l t in
  Forall reads_mass_only
    [ttree_D0_up t'; ttree_D0_down t'; ttree_D0bar_up t';
     ttree_D0bar_down t'].
Proof.
  induction l as [|v l IH]; intros t Hl Ht; [congruence|].
  cbn [fold_left]. pose proof (load_pass_reads_mass_only args t Ht) as Hp.
  cbv zeta in Hp. destruct l as [|v' l]; [exact Hp|].
  apply IH; [discriminate|].
  eapply Forall_impl; [|exact Hp]. intros c Hc. apply Hc.
Qed.

End LoadingSchemeBins.

(** In a scheme other than "total" every pass of the loading loop of
    fit_global_model7.py makes the four chains anew, so whatever the
    size the chains end with exactly one file each, the file of the
    bin, and count that file's entries once. *)
Theorem load_bin_scheme_single_file
  (args : Model7.Args) (entries_in : string -> Z) :
  Model7.scheme args <> "total" ->
  let t := Model7.load args in
  t = Model7.load_pass args Model7.initial_chains
  /\ (Root.files (Model7.ttree_D0_up t) = [Model7.bin_file args "up" "D0"]
      /\ Root.files (Model7.ttree_D0_down t)
         = [Model7.bin_file args "down" "D0"]
      /\ Root.files (Model7.ttree_D0bar_up t)
         = [Model7.bin_file args "up" "D0bar"]
      /\ Root.files (Model7.ttree_D0bar_down t)
         = [Model7.bin_file args "down" "D0bar"])
  /\ (Root.GetEntries entries_in (Model7.ttree_D0_up t)
      = entries_in (Model7.bin_file args "up" "D0")
      /\ Root.GetEntries entries_in (Model7.ttree_D0_down t)
         = entries_in (Model7.bin_file args "down" "D0")
      /\ Root.GetEntries entries_in (Model7.ttree_D0bar_up t)
         = entries_in (Model7.bin_file args "up" "D0bar")
      /\ Root.GetEntries entries_in (Model7.ttree_D0bar_down t)
         = entries_in (Model7.bin_file args "down" "D0bar")).
Proof.
  intros Hs t.
  assert (Ht : t = Model7.load_pass args Model7.initial_chains).
  { unfold t, Model7.load. apply fold_load_pass_last; [|assumption].
    apply generate_list_not_empty. }
  split; [exact Ht|]. rewrite Ht. unfold Model7.load_pass.
  destruct (String.eqb_spec (Model7.scheme args) "total"); [contradiction|].
  unfold Root.GetEntries. cbn. rewrite !Z.add_0_r. repeat split.
Qed.

Lemma load_bin_scheme_single_file_witness :
  Root.files
    (Model7.ttree_D0bar_down
       (Model7.load (Model7.mkArgs 18 800 "out" "y" "in" "pT" (Some "3"))))
  = ["in/D0bar_down_18_800_bin3.root"]
  /\ Root.files
       (Model7.ttree_D0_up
          (Model7.load (Model7.mkArgs 18 800 "out" "y" "in" "eta" None)))
     = ["in/D0_up_18_800_binNone.root"].
Proof.
  split.
  - apply (load_bin_scheme_single_file
             (Model7.mkArgs 18 800 "out" "y" "in" "pT" (Some "3"))
             (fun _ => 0)).
    discriminate.
  - apply (load_bin_scheme_single_file
             (Model7.mkArgs 18 800 "out" "y" "in" "eta" None)
             (fun _ => 0)).
    discriminate.
Defined.

(** Whatever the arguments, every chain that the loading step of
    either script binds reads the decay tree, holds at least one file,
    and has every branch switched off but the mass [D0_MM]. *)
Theorem loaded_chains_read_mass_only
  (args : Model7.Args) (args_g : FitGlobal.Args) :
  Forall Model7.reads_mass_only
    [Model7.ttree_D0_up (Model7.load args);
     Model7.ttree_D0_down (Model7.load args);
     Model7.ttree_D0bar_up (Model7.load args);
     Model7.ttree_D0bar_down (Model7.load args)]
  /\ forall c,
       In (Some c)
         [FitGlobal.ttree_D0 (FitGlobal.load args_g);
          FitGlobal.ttree_D0bar (FitGlobal.load args_g);
          FitGlobal.ttree_D0bar_up (FitGlobal.load args_g)] ->
       Model7.reads_mass_only c.
Proof.
  split.
  - unfold Model7.load.
    apply (fold_load_pass_reads_mass_only args (Model7.size_list args)
             Model7.initial_chains).
    + apply generate_list_not_empty.
    + repeat constructor.
  - intros c. unfold FitGlobal.load.
    destruct (FitGlobal.year args_g =? 19).
    + destruct (FitGlobal.scheme args_g =? "total")%string; cbn;
        intros H; repeat (destruct H as [H|H]; [|]);
        try discriminate; try contradiction;
        injection H as <-; repeat split; discriminate.
    + cbn. intuition discriminate.
Qed.

(** ** Starting values and yields *)

Section StartingValues.
Import Root.

Variable entries : TChain -> Z.
Hypothesis entries_not_negative : forall c, 0 <= entries c.
Variable t : Model7.Chains.
Variables c_D0 c_D0bar : TChain.

Lemma fraction_of_count_in_range (p : positive) (n : Z) :
  0 <= n -> (p <= 100)%positive ->
  (0 <= (Z.pos p # 100) * inject_Z n)%Q
  /\ ((Z.pos p # 100) * inject_Z n <= inject_Z n)%Q.
Proof.
  intros Hn Hp. unfold Qle, Qmult, inject_Z. cbn [Qnum Qden].
  rewrite ?Pos.mul_1_r, ?Z.mul_1_r. split; nia.
Qed.

Lemma model7_starts_within_ranges :
  Forall (fun v => forall x, initial v = Some x -> admits v x)
    (snd (Model7.run_declarations entries t)).
Proof.
  pose proof (entries_not_negative (Model7.ttree_D0_up t)).
  pose proof (entries_not_negative (Model7.ttree_D0_down t)).
  pose proof (entries_not_negative (Model7.ttree_D0bar_up t)).
  pose proof (entries_not_negative (Model7.ttree_D0bar_down t)).
  repeat (apply Forall_cons;
    [ intros x; cbn [initial]; intros [= <-]; unfold admits;
      cbn [getMin getMax];
        first [ split; discriminate
              | apply fraction_of_count_in_range; [assumption | lia] ]
    | ]).
  apply Forall_nil.
Qed.

Lemma fit_global_starts_within_ranges :
  Forall (fun v => forall x, initial v = Some x -> admits v x)
    (snd (FitGlobal.run_declarations (entries c_D0) (entries c_D0bar))).
Proof.
  pose proof (entries_not_negative c_D0).
  pose proof (entries_not_negative c_D0bar).
  repeat (apply Forall_cons;
    [ intros x; cbn [initial]; intros [= <-]; unfold admits;
      cbn [getMin getMax];
        first [ split; discriminate
              | apply fraction_of_count_in_range; [assumption | lia] ]
    | ]).
  apply Forall_nil.
Qed.

Lemma GetEntries_not_negative (entries_in : string -> Z) (c : TChain) :
  (forall file, 0 <= entries_in file) -> 0 <= GetEntries entries_in c.
Proof.
  intros H. unfold GetEntries.
  induction (files c) as [|f l IH]; cbn [fold_right]; [lia|].
  specialize (H f). lia.
Qed.

End StartingValues.

(** When no file holds a negative number of entries, every parameter
    that either script declares with a starting value starts inside its
    declared range, whatever the chains hold: the constants because
    they are written so, the yields because 95% and 5% of a count lie
    between zero and the count. *)
Theorem initial_values_within_ranges
  (entries_in : string -> Z) (t : Model7.Chains)
  (c_D0 c_D0bar : Root.TChain) :
  (forall file, 0 <= entries_in file) ->
  Forall (fun v => forall x, Root.initial v = Some x -> Root.admits v x)
    (snd (Model7.run_declarations (Root.GetEntries entries_in) t))
  /\ Forall (fun v => forall x, Root.initial v = Some x -> Root.admits v x)
       (snd (FitGlobal.run_declarations (Root.GetEntries entries_in c_D0)
               (Root.GetEntries entries_in c_D0bar))).
Proof.
  intros H. split.
  - apply model7_starts_within_ranges.
    intros c. now apply GetEntries_not_negative.
  - apply (fit_global_starts_within_ranges (Root.GetEntries entries_in)).
    intros c. now apply GetEntries_not_negative.
Qed.

Lemma initial_values_within_ranges_witness :
  Forall (fun v => forall x, Root.initial v = Some x -> Root.admits v x)
    (snd (Model7.run_declarations (Root.GetEntries Sample.entries_in)
            (Model7.load Sample.args7))).
Proof.
  apply (initial_values_within_ranges Sample.entries_in
           (Model7.load Sample.args7) (Root.new_TChain "")
           (Root.new_TChain "")).
  intros file. unfold Sample.entries_in. lia.
Defined.

(** ** From the input files to the categories *)

Section Pipeline.
Import Root Model7.

Variable args : Args.

(** The chain a category's histogram is drawn from holds copies of the
    category's input file only. *)
Lemma load_files_of_category :
  let t := load args in
  Forall (eq (input_file args D0_up)) (files (ttree_D0_up t))
  /\ Forall (eq (input_file args D0_down)) (files (ttree_D0_down t))
  /\ Forall (eq (input_file args D0bar_up)) (files (ttree_D0bar_up t))
  /\ Forall (eq (input_file args D0bar_down)) (files (ttree_D0bar_down t)).
Proof.
  cbv zeta. unfold input_file.
  destruct (String.eqb_spec (scheme args) "total") as [Ht|Hn].
  - pose proof (load_passes_total args Ht (size_list args) initial_chains)
      as H.
    cbv zeta in H. fold (load args) in H.
    destruct H as (H1 & H2 & H3 & H4). rewrite H1, H2, H3, H4. cbn [polarity meson initial_chains ttree_D0_up ttree_D0_down ttree_D0bar_up ttree_D0bar_down new_TChain files app].
    repeat split; apply Forall_forall; intros f Hf;
      apply repeat_spec in Hf; now symmetry.
  - unfold load. rewrite fold_load_pass_last;
      [|apply generate_list_not_empty|assumption].
    unfold load_pass.
    destruct (String.eqb_spec (scheme args) "total"); [contradiction|].
    cbn. repeat split; repeat constructor.
Qed.

Lemma loaded_files_not_empty :
  let t := load args in
  files (ttree_D0_up t) <> [] /\ files (ttree_D0_down t) <> []
  /\ files (ttree_D0bar_up t) <> [] /\ files (ttree_D0bar_down t) <> [].
Proof.
  cbv zeta.
  pose proof (fold_load_pass_reads_mass_only args (size_list args)
                initial_chains (generate_list_not_empty (size args))) as H.
  cbv zeta in H. fold (load args) in H.
  assert (H0 : Forall (fun c => tree c = decay_tree)
                 [ttree_D0_up initial_chains; ttree_D0_down initial_chains;
                  ttree_D0bar_up initial_chains;
                  ttree_D0bar_down initial_chains])
    by (repeat constructor).
  specialize (H H0).
  apply Forall_cons_iff in H as [(_ & _ & H1) H].
  apply Forall_cons_iff in H as [(_ & _ & H2) H].
  apply Forall_cons_iff in H as [(_ & _ & H3) H].
  apply Forall_cons_iff in H as [(_ & _ & H4) _].
  auto.
Qed.

End Pipeline.

(** Each category of fit_global_model7.py is fed from its own input
    file, in every scheme: the one data set imported under the
    category's label is the category's histogram, drawn with 300 bins
    on 1815 to 1910 from a chain that holds nothing but the file named
    after the category's meson and polarity; the coefficients of the
    category's extended model are its two yields, whose range runs from
    zero to the number of entries of that same chain, so that a chain
    without entries pins both yields at zero. *)
Theorem category_is_fed_from_its_own_file
  (args : Model7.Args) (entries_in : string -> Z) (c : Model7.Category) :
  let t := Model7.load args in
  let entries := Root.GetEntries entries_in in
  let d := fst (Model7.run_declarations entries t) in
  let s := snd (Model7.run_declarations entries t) in
  let b := fst (Model7.run_binned d t) in
  let sim := snd (Model7.run_binned d t) in
  let data := Model7.simultaneous_data d sim b in
  let chain := Root.h_chain (Root.dh_hist (Model7.data_of b c)) in
  Root.bound_to (Root.cd_imports data) (Model7.label c)
  = [Model7.data_of b c]
  /\ Root.files chain <> []
  /\ Forall (eq (Model7.input_file args c)) (Root.files chain)
  /\ Root.h_draw (Root.dh_hist (Model7.data_of b c))
     = Py.fstr ["D0_MM>>"; Root.h_name (Root.dh_hist (Model7.data_of b c));
                "(300,1815,1910)"]
  /\ Root.coefList (Model7.model_of b c)
     = [Model7.Nsig_of d c; Model7.Nbkg_of d c]
  /\ Forall (fun r => Model7.range_of s r
                      = Some (0%Q, inject_Z (entries chain)))
       (Root.coefList (Model7.model_of b c))
  /\ (entries chain = 0 ->
      Forall (fun r => exists v, nth_error s r = Some v
                /\ forall x, Root.admits v x -> (x == 0)%Q)
        (Root.coefList (Model7.model_of b c))).
Proof.
  intros t entries d s b sim data chain.
  pose proof (load_files_of_category args) as Hfiles. cbv zeta in Hfiles.
  fold t in Hfiles. destruct Hfiles as (F1 & F2 & F3 & F4).
  pose proof (loaded_files_not_empty args) as Hne. cbv zeta in Hne.
  fold t in Hne. destruct Hne as (N1 & N2 & N3 & N4).
  assert (Hranges :
    Forall (fun r => Model7.range_of s r
                     = Some (0%Q, inject_Z (entries chain)))
      (Root.coefList (Model7.model_of b c))).
  { destruct c; repeat constructor. }
  split; [destruct c; reflexivity|].
  split; [destruct c; assumption|].
  split; [destruct c; assumption|].
  split; [destruct c; reflexivity|].
  split; [destruct c; reflexivity|].
  split; [exact Hranges|].
  intros Hzero.
  eapply Forall_impl; [|exact Hranges]. intros r Hr.
  unfold Model7.range_of in Hr.
  destruct (nth_error s r) as [v|]; [|discriminate].
  exists v. split; [reflexivity|]. injection Hr as Hmin Hmax.
  intros x [Hlo Hhi]. rewrite Hmin in Hlo. rewrite Hmax, Hzero in Hhi.
  apply Qle_antisym; assumption.
Qed.

(** ** The parameters of the fit and the exported ones *)

(** Which parameters of the fit reach the output.  In both scripts
    the objects whose values are written are pairwise different and
    are exactly the parameters the extended models depend on: nineteen
    in fit_global.py (followed in its array by the errors of the two
    signal yields), twenty-five in fit_global_model7.py.  The
    observable is not exported.  Every object that exists at the end of
    the declarations is the observable or a parameter of some model;
    the one object that does not, the first "mean" of
    fit_global_model7.py, is a parameter of no model and is not
    exported. *)
Theorem exported_parameters_are_the_parameters_of_the_models
  (entries : Root.TChain -> Z) (t : Model7.Chains)
  (entries_D0 entries_D0bar : Z) (c_D0 c_D0bar : Root.TChain) :
  let d7 := fst (Model7.run_declarations entries t) in
  let s7 := snd (Model7.run_declarations entries t) in
  let b7 := fst (Model7.run_binned d7 t) in
  let dg := fst (FitGlobal.run_declarations entries_D0 entries_D0bar) in
  let sg := snd (FitGlobal.run_declarations entries_D0 entries_D0bar) in
  let bg := fst (FitGlobal.run_binned dg c_D0 c_D0bar) in
  let floated7 := flat_map (Root.getParameters s7) (Model7.models b7) in
  let floatedg := flat_map (Root.getParameters sg) (FitGlobal.models bg) in
  (NoDup (FitGlobal.value_variables dg)
   /\ (forall (float : Type) (f : Fitted float),
         FitGlobal.parameters dg f
         = map (getValV f) (FitGlobal.value_variables dg)
           ++ [getError f (FitGlobal.Nsig_D0 dg);
               getError f (FitGlobal.Nsig_D0bar dg)])
   /\ length (FitGlobal.value_variables dg) = 19%nat
   /\ (forall r, In r floatedg <-> In r (FitGlobal.value_variables dg))
   /\ ~ In (FitGlobal.D0_M dg) (FitGlobal.value_variables dg)
   /\ (forall r, (r < length sg)%nat ->
         Root.alive sg r = true
         /\ (r = FitGlobal.D0_M dg \/ In r floatedg)))
  /\
  (NoDup (Model7.variables d7)
   /\ length (Model7.variables d7) = 25%nat
   /\ (forall r, In r floated7 <-> In r (Model7.variables d7))
   /\ ~ In (Model7.D0_M d7) (Model7.variables d7)
   /\ (forall r, (r < length s7)%nat -> Root.alive s7 r = true ->
         r = Model7.D0_M d7 \/ In r floated7)
   /\ (forall r, (r < length s7)%nat -> Root.alive s7 r = false ->
         Root.location (Model7.bifurgauss d7) = Some r
         /\ ~ In r floated7 /\ ~ In r (Model7.variables d7))).
Proof.
  intros d7 s7 b7 dg sg bg floated7 floatedg.
  split.
  - split; [repeat constructor; cbn; intuition discriminate|].
    split; [reflexivity|].
    split; [reflexivity|].
    split; [intros r; cbn; tauto|].
    split; [cbn; intuition discriminate|].
    intros r Hr. cbn in Hr |- *.
    do 20 (destruct r as [|r]; [split; [reflexivity | tauto]|]). lia.
  - split; [repeat constructor; cbn; intuition discriminate|].
    split; [reflexivity|].
    split; [intros r; cbn; tauto|].
    split; [cbn; intuition discriminate|].
    split.
    + intros r Hr Ha. cbn in Hr, Ha |- *.
      do 27 (destruct r as [|r]; [first [discriminate Ha | tauto]|]). lia.
    + intros r Hr Ha. cbn in Hr, Ha |- *.
      do 27 (destruct r as [|r];
             [first [discriminate Ha
                    | split; [reflexivity | intuition discriminate]]|]).
      lia.
Qed.

(** ** The runs that write a file *)

(** When a run ends with a file.  fit_global_model7.py writes
    [fit_parameters.txt] under [--path] exactly when [--binned_fit] is
    [y] or [Y].  fit_global.py never writes one: a year other than 19
    leaves [ttree_D0] unbound, a scheme other than "total" leaves
    [ttree_D0bar] unbound, an unbinned request leaves [fitResult]
    unbound, and the one run that is left stops in the constructor of
    the combined data set, which refuses the import under a label that
    is not defined. *)
Theorem runs_that_write_a_file
  (float : Type) (repr : float -> string) (entries_in : string -> Z)
  (fitTo : Root.Simultaneous -> Root.CombinedData -> Model7.FitOptions ->
           Root.store -> Fitted float)
  (args : Model7.Args) (args_g : FitGlobal.Args) :
  let run7 := Model7.main float repr entries_in fitTo args in
  let rung := FitGlobal.main float repr entries_in fitTo args_g in
  ((exists out, run7 = inr out)
   <-> Model7.binned_fit args = "y" \/ Model7.binned_fit args = "Y")
  /\ (forall out, run7 = inr out ->
        file_path out = (Model7.path args ++ "/fit_parameters.txt")%string)
  /\ (forall out, rung <> inr out)
  /\ rung
     = inl (if negb (FitGlobal.year args_g =? 19)
            then NameError "ttree_D0"
            else if negb (FitGlobal.scheme args_g =? "total")%string
            then NameError "ttree_D0bar"
            else if FitGlobal.binned args_g
            then TypeError "RooDataHist"
            else NameError "fitResult").
Proof.
  intros run7 rung.
  assert (Hb7 : Model7.binned args = true
                <-> Model7.binned_fit args = "y"
                    \/ Model7.binned_fit args = "Y").
  { unfold Model7.binned. rewrite orb_true_iff, !String.eqb_eq. tauto. }
  assert (Hrung :
    rung
    = inl (if negb (FitGlobal.year args_g =? 19)
           then NameError "ttree_D0"
           else if negb (FitGlobal.scheme args_g =? "total")%string
           then NameError "ttree_D0bar"
           else if FitGlobal.binned args_g
           then TypeError "RooDataHist"
           else NameError "fitResult")).
  { subst rung. unfold FitGlobal.main, FitGlobal.load.
    destruct (FitGlobal.year args_g =? 19); [|reflexivity].
    destruct (FitGlobal.scheme args_g =? "total")%string; [|reflexivity].
    cbn [FitGlobal.ttree_D0 FitGlobal.ttree_D0bar negb].
    destruct (FitGlobal.binned args_g); reflexivity. }
  split; [|split; [|split]].
  - rewrite <- Hb7. subst run7. unfold Model7.main.
    destruct (Model7.binned args).
    + split; [reflexivity|]. intros _.
      destruct (runState (Model7.declarations _ _) _) as [d s].
      eexists. reflexivity.
    + destruct (runState (Model7.declarations _ _) _) as [d s].
      split; [intros [out H]; discriminate | discriminate].
  - intros out. subst run7. unfold Model7.main.
    destruct (runState (Model7.declarations _ _) _) as [d s].
    destruct (Model7.binned args); [|discriminate].
    intros [= <-]. reflexivity.
  - intros out. rewrite Hrung. discriminate.
  - exact Hrung.
Qed.

(** ** plot_pT_eta.py: the bins and the flatness fit *)

Section BinEdges.
Import PlotPtEta.

Variable float : Type.
Variable float_of_int : Z -> float.
Variables add sub div : float -> float -> float.

Let bin_loop := PlotPtEta.bin_loop float float_of_int add sub div.
Let x_values := PlotPtEta.x_values float float_of_int add sub div.
Let edge (bin_lines : list float) (i : nat) : float :=
  nth i bin_lines (float_of_int 0).
Let centre (bin_lines : list float) (i : nat) : float :=
  div (add (edge bin_lines i) (edge bin_lines (i + 1))) (float_of_int 2).
Let half_width (bin_lines : list float) (i : nat) : float :=
  sub (edge bin_lines (i + 1)) (centre bin_lines i).

Lemma item_nth {A : Type} (l : list A) (i : nat) (d : A) :
  (i < length l)%nat -> item l i = inr (nth i l d).
Proof.
  intros H. unfold item. rewrite (nth_error_nth' l d H). reflexivity.
Qed.

Lemma item_out_of_range {A : Type} (l : list A) (i : nat) :
  (length l <= i)%nat -> item l i = inl IndexError.
Proof.
  intros H. unfold item.
  apply nth_error_None in H. rewrite H. reflexivity.
Qed.

Lemma bin_loop_in_range (bin_lines : list float) (range : list nat) :
  forall x_value x_value_error,
  (forall i, In i range -> (i + 1 < length bin_lines)%nat) ->
  bin_loop bin_lines range x_value x_value_error
  = inr (x_value ++ map (centre bin_lines) range,
         x_value_error ++ map (half_width bin_lines) range).
Proof.
  induction range as [|i rest IH]; intros xv xe Hin.
  - cbn. now rewrite !app_nil_r.
  - assert (Hi : (i + 1 < length bin_lines)%nat) by (apply Hin; now left).
    unfold bin_loop. cbn [PlotPtEta.bin_loop].
    rewrite (item_nth bin_lines i (float_of_int 0)) by lia.
    rewrite (item_nth bin_lines (i + 1) (float_of_int 0)) by lia.
    cbn [bind Monad_either]. cbv zeta.
    fold bin_loop. rewrite IH by (intros k Hk; apply Hin; now right).
    cbn [map]. rewrite <- !app_assoc. reflexivity.
Qed.

Lemma bin_loop_out_of_range (bin_lines : list float) (range : list nat) :
  forall x_value x_value_error,
  (exists i, In i range /\ (length bin_lines <= i + 1)%nat) ->
  bin_loop bin_lines range x_value x_value_error = inl IndexError.
Proof.
  induction range as [|i rest IH]; intros xv xe [k [Hk Hlen]];
    [contradiction|].
  unfold bin_loop. cbn [PlotPtEta.bin_loop].
  destruct (Nat.lt_ge_cases i (length bin_lines)) as [Hi|Hi].
  2:{ rewrite item_out_of_range by assumption. reflexivity. }
  rewrite (item_nth bin_lines i (float_of_int 0)) by lia.
  cbn [bind Monad_either].
  destruct (Nat.lt_ge_cases (i + 1) (length bin_lines)) as [Hi1|Hi1].
  2:{ rewrite item_out_of_range by assumption. reflexivity. }
  rewrite (item_nth bin_lines (i + 1) (float_of_int 0)) by lia.
  cbv zeta. fold bin_loop. apply IH.
  destruct Hk as [<-|Hk]; [lia|]. exists k. now split.
Qed.

Lemma x_values_lengths (scheme : string) (bin_lines x_value x_value_error : list float) :
  x_values scheme bin_lines = inr (x_value, x_value_error) ->
  length x_value = 10%nat /\ length x_value_error = 10%nat
  /\ (11 <= length bin_lines)%nat.
Proof.
  unfold x_values, PlotPtEta.x_values. fold bin_loop.
  destruct (Nat.lt_ge_cases (length bin_lines) 11) as [Hlt|Hge].
  - rewrite bin_loop_out_of_range; [discriminate|].
    exists 9%nat. split; [apply in_seq; lia | lia].
  - rewrite bin_loop_in_range by (intros i Hi; apply in_seq in Hi; lia).
    cbn [bind Monad_either app].
    destruct (String.eqb scheme "pT"); cbn [ret Monad_either];
      intros [= <- <-]; rewrite ?length_map, ?length_seq; auto.
Qed.

(** The ten points of the plot are made from the first eleven numbers
    of the bins file.  With fewer than eleven the script stops with an
    [IndexError]; with eleven or more it makes exactly ten centres and
    ten half widths, point [k] from the edges [k] and [k + 1], divided
    by 1000 in the pT scheme and left as they are otherwise; numbers
    after the eleventh are never read, so a file with more edges gives
    the same points as its first eleven lines. *)
Theorem x_values_need_eleven_edges (scheme : string)
  (bin_lines : list float) :
  let unit (x : float) :=
    if String.eqb scheme "pT" then div x (float_of_int 1000) else x in
  ((length bin_lines < 11)%nat ->
   x_values scheme bin_lines = inl IndexError)
  /\ ((11 <= length bin_lines)%nat ->
      x_values scheme bin_lines
      = inr (map (fun k => unit (centre bin_lines k)) (seq 0 10),
             map (fun k => unit (half_width bin_lines k)) (seq 0 10))
      /\ x_values scheme (firstn 11 bin_lines)
         = x_values scheme bin_lines).
Proof.
  intros unit.
  assert (Hok : forall bl, (11 <= length bl)%nat ->
            x_values scheme bl
            = inr (map (fun k => unit (centre bl k)) (seq 0 10),
                   map (fun k => unit (half_width bl k)) (seq 0 10))).
  { intros bl Hlen. unfold x_values, PlotPtEta.x_values.
    fold bin_loop. rewrite bin_loop_in_range.
    - cbn [bind Monad_either app]. unfold unit.
      destruct (String.eqb scheme "pT"); cbn [ret Monad_either];
        rewrite ?map_map; reflexivity.
    - intros i Hi. apply in_seq in Hi. lia. }
  split.
  - intros Hlen. unfold x_values, PlotPtEta.x_values. fold bin_loop.
    rewrite bin_loop_out_of_range; [reflexivity|].
    exists 9%nat. split; [apply in_seq; lia | lia].
  - intros Hlen. split; [now apply Hok|].
    rewrite !Hok by (rewrite ?length_firstn; lia).
    assert (Hedge : forall i, (i < 11)%nat ->
              edge (firstn 11 bin_lines) i = edge bin_lines i).
    { intros i Hi. unfold edge.
      rewrite <- (firstn_skipn 11 bin_lines) at 2.
      rewrite app_nth1 by (rewrite length_firstn; lia). reflexivity. }
    f_equal. f_equal; apply map_ext_in; intros k Hk; apply in_seq in Hk;
      unfold half_width, centre; rewrite !Hedge by lia; reflexivity.
Qed.

End BinEdges.

Section FlatnessFit.
Import PlotPtEta.

Variable float : Type.
Variable float_of_int : Z -> float.
Variables add sub mul div : float -> float -> float.
Variable eqb : float -> float -> bool.

Let chi2_loop := PlotPtEta.chi2_loop float float_of_int add sub mul div eqb.
Let get_chi2 := PlotPtEta.get_chi2 float float_of_int add sub mul div eqb.
Let zero := float_of_int 0.

(** The bins that enter the sum, and what each adds to it. *)
Let unmasked (g : Globals float) (range : list nat) : list nat :=
  filter (fun i => negb (eqb (nth i (asymmetry_error float g) zero) zero))
    range.
Let term (g : Globals float) (c : float) (i : nat) : float :=
  let residual :=
    div (sub (nth i (asymmetry float g) zero) c)
      (nth i (asymmetry_error float g) zero) in
  mul residual residual.

Lemma chi2_loop_in_range (g : Globals float) (c : float)
  (range : list nat) : forall chi2 ndof,
  (forall i, In i range ->
     (i < length (asymmetry float g))%nat
     /\ (i < length (asymmetry_error float g))%nat) ->
  chi2_loop g c range chi2 ndof
  = inr (fold_left (fun acc i => add acc (term g c i)) (unmasked g range)
           chi2,
         ndof + Z.of_nat (length (unmasked g range))).
Proof.
  induction range as [|i rest IH]; intros chi2 ndof Hin.
  - cbn. f_equal. f_equal. lia.
  - destruct (Hin i (or_introl eq_refl)) as [Ha He].
    unfold chi2_loop. cbn [PlotPtEta.chi2_loop].
    rewrite (item_nth (asymmetry_error float g) i zero) by assumption.
    cbn [bind Monad_either]. unfold unmasked. cbn [filter].
    fold zero.
    destruct (eqb (nth i (asymmetry_error float g) zero) zero) eqn:E;
      cbn [negb].
    + fold chi2_loop. rewrite IH by (intros k Hk; apply Hin; now right).
      reflexivity.
    + rewrite (item_nth (asymmetry float g) i zero) by assumption.
      cbn [bind Monad_either]. cbv zeta.
      fold chi2_loop. rewrite IH by (intros k Hk; apply Hin; now right).
      cbn [fold_left length]. unfold term. f_equal. f_equal.
      fold (unmasked g rest). lia.
Qed.

Lemma dict_get_set_same {V : Type} (d : list (string * V)) k v :
  Py.dict_get (Py.dict_set d k v) k = Some v.
Proof.
  induction d as [|[k' v'] d IH]; cbn.
  - now rewrite String.eqb_refl.
  - destruct (String.eqb k' k) eqn:E; cbn; rewrite E; [reflexivity|exact IH].
Qed.

Lemma dict_get_set_other {V : Type} (d : list (string * V)) k k' v :
  k' <> k -> Py.dict_get (Py.dict_set d k' v) k = Py.dict_get d k.
Proof.
  intros Hk. induction d as [|[k0 v0] d IH]; cbn.
  - destruct (String.eqb_spec k' k); [contradiction|reflexivity].
  - destruct (String.eqb_spec k0 k') as [->|Hn]; cbn.
    + destruct (String.eqb_spec k' k); [contradiction|reflexivity].
    + destruct (String.eqb k0 k); [reflexivity|exact IH].
Qed.

(** [get_chi2] when the two arrays have an entry for every bin, as in
    the script, where all three numbers are ten.  The call does not
    fail; the sum runs over the bins whose error is not zero, each
    adding its squared residual, and never reads the asymmetry of a
    bin whose error is zero; the number of degrees of freedom is the
    number of those bins less one, so it is the same for every [c] and
    lies between -1 and [bins - 1]; when every error is zero the
    result is the initial 0 and -1.  The dictionary [store] gets the
    two results under "chi2" and "ndof", replacing those of the call
    before, and keeps its other keys. *)
Theorem get_chi2_sums_the_unmasked_bins
  (g : Globals float) (c : float) (store : list (string * Value float)) :
  (bins float g <= length (asymmetry float g))%nat ->
  (bins float g <= length (asymmetry_error float g))%nat ->
  let used := unmasked g (seq 0 (bins float g)) in
  let chi2 := fold_left (fun acc i => add acc (term g c i)) used zero in
  let ndof := Z.of_nat (length used) - 1 in
  exists store',
    get_chi2 g c store = inr (chi2, store')
    /\ Py.dict_get store' "chi2" = Some (PyFloat chi2)
    /\ Py.dict_get store' "ndof" = Some (PyInt ndof)
    /\ (forall k, k <> "chi2" -> k <> "ndof" ->
          Py.dict_get store' k = Py.dict_get store k)
    /\ -1 <= ndof <= Z.of_nat (bins float g) - 1
    /\ (used = [] -> chi2 = zero /\ ndof = -1)
    /\ (forall g' : Globals float,
          bins float g' = bins float g ->
          asymmetry_error float g' = asymmetry_error float g ->
          length (asymmetry float g') = length (asymmetry float g) ->
          (forall i, In i used ->
             nth i (asymmetry float g') zero
             = nth i (asymmetry float g) zero) ->
          get_chi2 g' c store = get_chi2 g c store).
Proof.
  intros Ha He used chi2 ndof.
  assert (Hrun : forall (g0 : Globals float) c0 st,
            (bins float g0 <= length (asymmetry float g0))%nat ->
            (bins float g0 <= length (asymmetry_error float g0))%nat ->
            get_chi2 g0 c0 st
            = inr (fold_left (fun acc i => add acc (term g0 c0 i))
                     (unmasked g0 (seq 0 (bins float g0))) zero,
                   Py.dict_set
                     (Py.dict_set st "chi2"
                        (PyFloat
                           (fold_left (fun acc i => add acc (term g0 c0 i))
                              (unmasked g0 (seq 0 (bins float g0))) zero)))
                     "ndof"
                     (PyInt
                        (Z.of_nat
                           (length (unmasked g0 (seq 0 (bins float g0))))
                         - 1)))).
  { intros g0 c0 st Ha0 He0. unfold get_chi2, PlotPtEta.get_chi2.
    fold chi2_loop. fold zero. rewrite chi2_loop_in_range.
    - cbn [bind Monad_either ret]. do 4 f_equal. lia.
    - intros i Hi. apply in_seq in Hi. lia. }
  eexists. split; [apply Hrun; assumption|].
  split.
  { rewrite dict_get_set_other by discriminate. apply dict_get_set_same. }
  split; [apply dict_get_set_same|].
  split.
  { intros k Hk1 Hk2. rewrite !dict_get_set_other by congruence.
    reflexivity. }
  split.
  { unfold ndof, used, unmasked.
    pose proof (filter_length_le
      (fun i => negb (eqb (nth i (asymmetry_error float g) zero) zero))
      (seq 0 (bins float g))) as Hle.
    rewrite length_seq in Hle. lia. }
  split.
  { intros Hu. unfold chi2, ndof. rewrite Hu. cbn. split; [reflexivity|lia]. }
  intros g' Hb Herr Hlen Hsame.
  rewrite !Hrun by (rewrite ?Hb, ?Herr, ?Hlen; assumption).
  assert (Hu : unmasked g' (seq 0 (bins float g')) = used).
  { unfold used, unmasked. rewrite Hb, Herr. reflexivity. }
  rewrite Hu.
  assert (Hf : forall l acc, (forall i, In i l -> In i used) ->
            fold_left (fun acc i => add acc (term g' c i)) l acc
            = fold_left (fun acc i => add acc (term g c i)) l acc).
  { induction l as [|i l IH]; intros acc Hl; [reflexivity|].
    cbn [fold_left]. rewrite IH by (intros k Hk; apply Hl; now right).
    f_equal. f_equal. unfold term. cbv zeta.
    rewrite Herr, (Hsame i) by (apply Hl; now left). reflexivity. }
  rewrite Hf by auto. reflexivity.
Qed.

End FlatnessFit.

Lemma get_chi2_sums_the_unmasked_bins_witness :
  exists store',
    PlotPtEta.get_chi2 Q inject_Z Qplus Qminus Qmult Qdiv Qeq_bool
      Sample.globals 0%Q []
    = inr ((1 + (9 # 4))%Q, store')
    /\ Py.dict_get store' "ndof" = Some (PlotPtEta.PyInt 1).
Proof.
  destruct (get_chi2_sums_the_unmasked_bins Q inject_Z Qplus Qminus Qmult
              Qdiv Qeq_bool Sample.globals 0%Q [])
    as (store' & H1 & _ & H3 & _); [cbn; lia | cbn; lia |].
  exists store'. split; [exact H1 | exact H3].
Defined.

Section PreparedRun.
Import PlotPtEta.

Variable float : Type.
Variable float_of_int : Z -> float.
Variables add sub mul div : float -> float -> float.
Variable eqb : float -> float -> bool.
Variable float_of_string : string -> option float.
Variable strip : string -> string.
Variable readlines : string -> option (list string).

Let read_bins := PlotPtEta.read_bins float float_of_string readlines.
Let prepare :=
  PlotPtEta.prepare float float_of_int add sub div float_of_string strip
    readlines.
Let get_chi2 := PlotPtEta.get_chi2 float float_of_int add sub mul div eqb.

(** Every pass of the reading loop appends one number to each
    array. *)
Lemma read_bins_lengths (file_of : string -> string) (range : list Z) :
  forall a e a' e',
  read_bins file_of range a e = inr (a', e') ->
  length a' = (length a + length range)%nat
  /\ length e' = (length e + length range)%nat.
Proof.
  induction range as [|j rest IH]; intros a e a' e'.
  - cbn. intros [= <- <-]. lia.
  - unfold read_bins. cbn [PlotPtEta.read_bins].
    destruct (open_readlines readlines _) as [err|lines];
      [discriminate|]. cbn [bind Monad_either].
    destruct (item lines 0) as [err|l0]; [discriminate|].
    cbn [bind Monad_either].
    destruct (to_float float float_of_string l0) as [err|A_prod];
      [discriminate|]. cbn [bind Monad_either].
    destruct (item lines 1) as [err|l1]; [discriminate|].
    cbn [bind Monad_either].
    destruct (to_float float float_of_string l1) as [err|A_prod_err];
      [discriminate|]. cbn [bind Monad_either].
    fold read_bins. intros H. apply IH in H.
    rewrite !length_app in H. cbn [length] in *. lia.
Qed.

(** A run that gets as far as the fit has ten bins: the four arrays
    of asymmetries, the points and their widths all have ten entries,
    the bins file had at least eleven numbers, and [bins] is ten.  So
    [get_chi2] cannot fail with an [IndexError], whatever value the
    minimiser tries and whatever [store] holds. *)
Theorem prepared_run_has_ten_bins (args : Args) (g : Globals float) :
  prepare args = inr g ->
  bins float g = 10%nat
  /\ length (asymmetry float g) = 10%nat
  /\ length (asymmetry_error float g) = 10%nat
  /\ length (simulated_asymmetry float g) = 10%nat
  /\ length (simulated_asymmetry_error float g) = 10%nat
  /\ length (x_value float g) = 10%nat
  /\ length (x_value_error float g) = 10%nat
  /\ (11 <= length (bin_lines float g))%nat
  /\ forall c store, exists chi2 store',
       get_chi2 g c store = inr (chi2, store').
Proof.
  unfold prepare, PlotPtEta.prepare.
  destruct (read_asymmetry_values _ _ _ _) as [err|[[[a1 a2] a3] a4]];
    [discriminate|]. cbn [bind Monad_either].
  destruct (PlotPtEta.read_bins _ _ _ (asymmetry_file args) _ _ _)
    as [err|[asym asym_err]] eqn:Hdata; [discriminate|].
  cbn [bind Monad_either].
  destruct (PlotPtEta.read_bins _ _ _ (simulated_asymmetry_file args) _ _ _)
    as [err|[sim sim_err]] eqn:Hsim; [discriminate|].
  cbn [bind Monad_either].
  destruct (open_readlines readlines _) as [err|lines]; [discriminate|].
  cbn [bind Monad_either].
  destruct (floats _ _ _ lines) as [err|edges]; [discriminate|].
  cbn [bind Monad_either].
  destruct (x_values _ _ _ _ _ _ edges) as [err|[xv xe]] eqn:Hx;
    [discriminate|].
  cbn [bind Monad_either ret]. intros [= <-].
  cbn [bins asymmetry asymmetry_error simulated_asymmetry
       simulated_asymmetry_error x_value x_value_error bin_lines].
  apply read_bins_lengths in Hdata, Hsim. cbn in Hdata, Hsim.
  apply x_values_lengths in Hx. destruct Hx as (Hxv & Hxe & Hedges).
  repeat split; try tauto.
  intros c store. unfold get_chi2, PlotPtEta.get_chi2.
  cbn [bins]. rewrite Hxv.
  rewrite chi2_loop_in_range.
  - cbn [bind Monad_either ret]. eexists. eexists. reflexivity.
  - cbn [asymmetry asymmetry_error]. intros i Hi. apply in_seq in Hi. lia.
Qed.

End PreparedRun.

Lemma prepared_run_has_ten_bins_witness :
  exists g,
    PlotPtEta.prepare Q inject_Z Qplus Qminus Qdiv Sample.float_of_string
      (fun line => line) Sample.readlines Sample.plot_args = inr g
    /\ PlotPtEta.bins Q g = 10%nat.
Proof.
  destruct (PlotPtEta.prepare Q inject_Z Qplus Qminus Qdiv
              Sample.float_of_string (fun line => line) Sample.readlines
              Sample.plot_args) as [err|g] eqn:E.
  - vm_compute in E. discriminate E.
  - exists g. split; [reflexivity|].
    apply (prepared_run_has_ten_bins Q inject_Z Qplus Qminus Qmult Qdiv
             Qeq_bool Sample.float_of_string (fun line => line)
             Sample.readlines Sample.plot_args g E).
Defined.

(** ** No input file is read for two samples *)

Section InputFiles.
Import Root.

Lemma append_cancel_l (a b c : string) :
  (a ++ b)%string = (a ++ c)%string -> b = c.
Proof.
  induction a as [|ch a IH]; cbn; [auto|].
  intros [= H]. now apply IH.
Qed.

Lemma input_file_injective (args : Model7.Args) (c c' : Model7.Category) :
  Model7.input_file args c = Model7.input_file args c' -> c = c'.
Proof.
  unfold Model7.input_file, Model7.total_file, Model7.bin_file, Py.fstr.
  destruct (Model7.scheme args =? "total")%string;
    destruct c, c'; try reflexivity;
    cbn [String.concat Model7.polarity Model7.meson];
    intros H; apply append_cancel_l in H; cbn in H;
    try discriminate H;
    repeat (injection H as H); try discriminate H;
    apply append_cancel_l in H; cbn in H; discriminate H.
Qed.

Lemma clean_file_injective (args : FitGlobal.Args)
  (meson polarity yr meson' polarity' yr' : string) :
  In meson ["D0"; "D0bar"] -> In meson' ["D0"; "D0bar"] ->
  In polarity ["up"; "down"] -> In polarity' ["up"; "down"] ->
  In yr ["16"; "17"; "18"] -> In yr' ["16"; "17"; "18"] ->
  FitGlobal.clean_file args meson polarity yr
  = FitGlobal.clean_file args meson' polarity' yr' ->
  meson = meson' /\ polarity = polarity' /\ yr = yr'.
Proof.
  unfold FitGlobal.clean_file, Py.fstr.
  intros Hm Hm' Hp Hp' Hy Hy'. cbn in Hm, Hm', Hp, Hp', Hy, Hy'.
  repeat match goal with
         | H : _ \/ _ |- _ => destruct H as [H|H]
         | H : False |- _ => contradiction
         end; subst;
    cbn [String.concat]; intros H; apply append_cancel_l in H; cbn in H;
    first [ discriminate H | auto ].
Qed.

End InputFiles.

(** No input file is read for two samples.  In fit_global_model7.py
    the input file of a category is the file of no other category,
    whatever the arguments and the scheme.  In fit_global.py, for year
    19 and the "total" scheme, each of the two chains holds six files,
    the up and down files of 2016, 2017 and 2018 of its meson; the
    twelve files are pairwise different, so no file is counted twice,
    and a chain's number of entries is the sum over its six files. *)
Theorem input_files_are_pairwise_different
  (args : Model7.Args) (args_g : FitGlobal.Args)
  (entries_in : string -> Z) :
  (forall c c' : Model7.Category,
     Model7.input_file args c = Model7.input_file args c' -> c = c')
  /\ (FitGlobal.year args_g = 19 -> FitGlobal.scheme args_g = "total" ->
      exists c_D0 c_D0bar,
        FitGlobal.ttree_D0 (FitGlobal.load args_g) = Some c_D0
        /\ FitGlobal.ttree_D0bar (FitGlobal.load args_g) = Some c_D0bar
        /\ Root.files c_D0
           = map (fun py => FitGlobal.clean_file args_g "D0" (fst py) (snd py))
               (list_prod ["up"; "down"] ["16"; "17"; "18"])
        /\ Root.files c_D0bar
           = map (fun py =>
                    FitGlobal.clean_file args_g "D0bar" (fst py) (snd py))
               (list_prod ["up"; "down"] ["16"; "17"; "18"])
        /\ NoDup (Root.files c_D0 ++ Root.files c_D0bar)
        /\ Root.GetEntries entries_in c_D0
           = fold_right Z.add 0 (map entries_in (Root.files c_D0))
        /\ Root.GetEntries entries_in c_D0bar
           = fold_right Z.add 0 (map entries_in (Root.files c_D0bar))).
Proof.
  split; [intros c c'; apply input_file_injective|].
  intros Hy Hs. unfold FitGlobal.load. rewrite Hy, Hs.
  cbn [Z.eqb Pos.eqb String.eqb Ascii.eqb Bool.eqb].
  eexists. eexists. split; [reflexivity|]. split; [reflexivity|].
  split; [reflexivity|]. split; [reflexivity|].
  split.
  - cbn [FitGlobal.select_mass Root.SetBranchStatus Root.files fold_left
         Root.Add Root.new_TChain app].
    assert (Hin : forall m p y m' p' y',
              In m ["D0"; "D0bar"] -> In m' ["D0"; "D0bar"] ->
              In p ["up"; "down"] -> In p' ["up"; "down"] ->
              In y ["16"; "17"; "18"] -> In y' ["16"; "17"; "18"] ->
              (m, p, y) <> (m', p', y') ->
              FitGlobal.clean_file args_g m p y
              <> FitGlobal.clean_file args_g m' p' y').
    { intros m p y m' p' y' Hm Hm' Hp Hp' Hyr Hyr' Hne Heq.
      apply clean_file_injective in Heq; try assumption.
      destruct Heq as (-> & -> & ->). now apply Hne. }
    repeat constructor; cbn [In]; intros H;
      repeat (destruct H as [H|H];
              [ revert H; apply Hin; cbn; try tauto; discriminate | ]);
      exact H.
  - unfold Root.GetEntries. cbn. split; lia.
Qed.

Lemma input_files_are_pairwise_different_witness :
  exists c_D0 c_D0bar,
    FitGlobal.ttree_D0 (FitGlobal.load Sample.args_global) = Some c_D0
    /\ FitGlobal.ttree_D0bar (FitGlobal.load Sample.args_global)
       = Some c_D0bar
    /\ NoDup (Root.files c_D0 ++ Root.files c_D0bar)
    /\ Root.GetEntries Sample.entries_in c_D0 = 6000.
Proof.
  destruct (proj2 (input_files_are_pairwise_different Sample.args7
                     Sample.args_global Sample.entries_in)
              eq_refl eq_refl)
    as (c_D0 & c_D0bar & H1 & H2 & H3 & _ & H5 & H6 & _).
  exists c_D0, c_D0bar. split; [exact H1|]. split; [exact H2|].
  split; [exact H5|]. rewrite H6, H3. reflexivity.
Defined.
